(** * FlashQuiz+ : the text filter, the MCQ validation, the batch builder and
    the score engine of [app.py], embedded in Rocq.

    The Python functions are translated as functions over a small model of
    the Python values they handle: strings are sequences of code points,
    JSON-decoded objects are a tree of [pyval], exceptions are the [Raise]
    branch of [result], binary64 arithmetic is the Standard Library's
    [SpecFloat].  What the program gets from outside (the Unicode character
    classes, [json.loads], the chat-completion endpoint, the choices of
    [random.sample]) is a parameter of the definitions that use it. *)

From Stdlib Require Import ZArith List Lia Bool String Ascii SpecFloat Sorted.
From stdpp Require Import gmap list.
Import ListNotations.

Local Open Scope Z_scope.

(** ** Python strings *)

(** A [str] is a sequence of Unicode code points; [len] counts them. *)
Definition pystr : Type := list N.

(** The string written as an ASCII literal in the source. *)
Definition py (s : string) : pystr := map N_of_ascii (list_ascii_of_string s).

Definition len {A} (l : list A) : Z := Z.of_nat (length l).

Definition str_eqb (a b : pystr) : bool := bool_decide (a = b).

(** [s.startswith(p)] *)
Fixpoint startswith (s p : pystr) : bool :=
  match p, s with
  | [], _ => true
  | c :: p', d :: s' => N.eqb c d && startswith s' p'
  | _ :: _, [] => false
  end.

(** [s.endswith(p)] *)
Definition endswith (s p : pystr) : bool := startswith (rev s) (rev p).

(** [sub in s] for two strings: [sub] occurs in [s] as a contiguous block. *)
Fixpoint str_contains (s sub : pystr) : bool :=
  startswith s sub ||
  match s with
  | [] => false
  | _ :: s' => str_contains s' sub
  end.

(** [s[n:]] for a literal [n >= 0]. *)
Definition slice_from (s : pystr) (n : nat) : pystr := drop n s.

(** [s[:m]]: a negative [m] counts from the end, and the bound is clamped. *)
Definition slice_to (s : pystr) (m : Z) : pystr :=
  take (Z.to_nat (if m <? 0 then len s + m else m)) s.

(** [s.replace(old, new)] for a non-empty [old]: occurrences are replaced
    from the left and do not overlap.  [skip] counts the characters of the
    occurrence just replaced that are still to be passed over. *)
Fixpoint replace_from (old new : pystr) (skip : nat) (s : pystr) : pystr :=
  match s with
  | [] => []
  | c :: s' =>
      match skip with
      | S k => replace_from old new k s'
      | O =>
          if startswith s old
          then new ++ replace_from old new (length old - 1) s'
          else c :: replace_from old new 0 s'
      end
  end.

Definition replace (s old new : pystr) : pystr := replace_from old new 0 s.

(** [s.split(sep)] for a one-character separator: always at least one
    piece, empty pieces are kept. *)
Fixpoint split (sep : N) (s : pystr) : list pystr :=
  match s with
  | [] => [[]]
  | c :: s' =>
      if N.eqb c sep then [] :: split sep s'
      else match split sep s' with
           | piece :: pieces => (c :: piece) :: pieces
           | [] => [[c]]
           end
  end.

Section Unicode.
(** The character classes of the Unicode database behind [str.isspace],
    [str.isalnum] and [str.isupper] (which needs the lower-, upper- and
    title-case classes). *)
Variables isspace isalnum : N -> bool.
Variables islower isupper_char istitle : N -> bool.

Fixpoint lstrip (s : pystr) : pystr :=
  match s with
  | c :: s' => if isspace c then lstrip s' else s
  | [] => []
  end.

Definition rstrip (s : pystr) : pystr := rev (lstrip (rev s)).

(** [s.strip()] *)
Definition strip (s : pystr) : pystr := rstrip (lstrip s).

(** [s.isupper()]: no lower- or title-case character, and at least one
    upper-case one. [cased] is the flag of the library's loop; a string of
    one character is answered from its upper-case class alone. *)
Fixpoint isupper_from (cased : bool) (s : pystr) : bool :=
  match s with
  | [] => cased
  | c :: s' =>
      if islower c || istitle c then false
      else isupper_from (cased || isupper_char c) s'
  end.

Definition isupper (s : pystr) : bool :=
  match s with
  | [c] => isupper_char c
  | _ => isupper_from false s
  end.

(** [sum(not c.isalnum() and not c.isspace() for c in line)] *)
Definition count_special (line : pystr) : Z :=
  len (filter (fun c => negb (isalnum c) && negb (isspace c) = true) line).
End Unicode.

(** ** Exceptions *)

Inductive exn : Type :=
| ZeroDivisionError
| TypeError
| KeyError
| AttributeError
| ValueError
| OverflowError
| JSONDecodeError
| APIError.

Inductive result (A : Type) : Type :=
| Ok (a : A)
| Raise (e : exn).
Arguments Ok {A} a.
Arguments Raise {A} e.

(** [x ← r; k] runs [k] on the value of [r] and propagates what [r] raises. *)
#[global] Instance result_ret : MRet result := @Ok.
#[global] Instance result_bind : MBind result := λ A B k r,
  match r with
  | Ok a => k a
  | Raise e => Raise e
  end.

Definition returns {A} (r : result A) : Prop := exists a, r = Ok a.

(** ** binary64 floats *)

Definition pyfloat : Type := spec_float.

Definition float_of_int (z : Z) : pyfloat := binary_normalize 53 1024 z 0 false.

(** An integer as an exact operand of a division, before any rounding. *)
Definition exact_int (z : Z) : pyfloat :=
  match z with
  | Z0 => S754_zero false
  | Zpos p => S754_finite false p 0
  | Zneg p => S754_finite true p 0
  end.

(** [a / b] on two [int]: the quotient of the integers, rounded once. *)
Definition int_truediv (a b : Z) : result pyfloat :=
  if b =? 0 then Raise ZeroDivisionError
  else Ok (SFdiv 53 1024 (exact_int a) (exact_int b)).

(** [x * n] for a float and an [int] that converts exactly. *)
Definition float_mul_int (x : pyfloat) (n : Z) : pyfloat :=
  SFmul 53 1024 x (float_of_int n).

(** [x > y] on floats. *)
Definition float_gt (x y : pyfloat) : bool := SFltb y x.

(** [int(x)]: truncation towards zero. *)
Definition int_of_float (x : pyfloat) : result Z :=
  match x with
  | S754_zero _ => Ok 0
  | S754_finite s m e =>
      let a := if 0 <=? e then Z.shiftl (Zpos m) e else Z.shiftr (Zpos m) (- e) in
      Ok (if s then - a else a)
  | S754_infinity _ => Raise OverflowError
  | S754_nan => Raise ValueError
  end.

(** The literal [0.3]. *)
Definition float_0_3 : pyfloat := S754_finite false 5404319552844595 (-54).

(** The literal [0.7]. *)
Definition float_0_7 : pyfloat := S754_finite false 6305039478318694 (-53).

(** ** Python values *)

(** What [json.loads] can return, which is also what the quiz widgets hand
    back: [None], booleans, integers, floats, strings, lists, and
    dictionaries with string keys (entries in insertion order, one per
    key). *)
#[warnings="-register-all"]
Inductive pyval : Type :=
| PNone
| PBool (b : bool)
| PInt (z : Z)
| PFloat (f : pyfloat)
| PStr (s : pystr)
| PList (items : list pyval)
| PDict (entries : list (pystr * pyval)).

(** The entry of a dictionary under a key. *)
Fixpoint dict_get {V} (d : list (pystr * V)) (k : pystr) : option V :=
  match d with
  | [] => None
  | (k', v) :: d' => if str_eqb k' k then Some v else dict_get d' k
  end.

Definition is_nan (v : pyval) : bool :=
  match v with
  | PFloat S754_nan => true
  | _ => false
  end.

(** Numbers compare by value across [bool], [int] and [float]. *)
Definition as_number (v : pyval) : option (Z + pyfloat) :=
  match v with
  | PBool b => Some (inl (Z.b2z b))
  | PInt z => Some (inl z)
  | PFloat f => Some (inr f)
  | _ => None
  end.

Definition int_float_eqb (z : Z) (f : pyfloat) : bool :=
  match f with
  | S754_zero _ => z =? 0
  | S754_finite s m e =>
      let v := if s then Zneg m else Zpos m in
      if 0 <=? e then z =? v * 2 ^ e else z * 2 ^ (- e) =? v
  | _ => false
  end.

Definition num_eqb (a b : Z + pyfloat) : bool :=
  match a, b with
  | inl x, inl y => x =? y
  | inl x, inr g => int_float_eqb x g
  | inr f, inl y => int_float_eqb y f
  | inr f, inr g => SFeqb f g
  end.

(** [x == y].  Inside a list or a dictionary the items are compared with
    [a is b or a == b]; between decoded values identity adds one case to
    [==]: the decoder has a single NaN object. *)
Fixpoint py_eq (x y : pyval) {struct x} : bool :=
  match x, y with
  | PNone, PNone => true
  | PStr a, PStr b => str_eqb a b
  | PList xs, PList ys =>
      (fix items (xs ys : list pyval) {struct xs} : bool :=
         match xs, ys with
         | [], [] => true
         | a :: xs', b :: ys' => ((is_nan a && is_nan b) || py_eq a b) && items xs' ys'
         | _, _ => false
         end) xs ys
  | PDict d, PDict d' =>
      (length d =? length d')%nat &&
      (fix entries (d : list (pystr * pyval)) {struct d} : bool :=
         match d with
         | [] => true
         | (k, v) :: rest =>
             match dict_get d' k with
             | Some v' => (is_nan v && is_nan v') || py_eq v v'
             | None => false
             end && entries rest
         end) d
  | _, _ =>
      match as_number x, as_number y with
      | Some a, Some b => num_eqb a b
      | _, _ => false
      end
  end.

(** [a is b or a == b] *)
Definition same_or_eq (a b : pyval) : bool := (is_nan a && is_nan b) || py_eq a b.

(** The truth value of an object in a condition. *)
Definition truthy (v : pyval) : bool :=
  match v with
  | PNone => false
  | PBool b => b
  | PInt z => negb (z =? 0)
  | PFloat (S754_zero _) => false
  | PFloat _ => true
  | PStr s => negb (str_eqb s [])
  | PList l => negb (length l =? 0)%nat
  | PDict d => negb (length d =? 0)%nat
  end.

Definition hashable (v : pyval) : bool :=
  match v with
  | PList _ | PDict _ => false
  | _ => true
  end.

(** [x in c]: among the keys of a dictionary, the items of a list, the
    substrings of a string; a [TypeError] on anything else. *)
Definition contains (x c : pyval) : result bool :=
  match c with
  | PDict d =>
      if hashable x
      then Ok match x with
              | PStr k => match dict_get d k with Some _ => true | None => false end
              | _ => false
              end
      else Raise TypeError
  | PList l => Ok (existsb (same_or_eq x) l)
  | PStr s =>
      match x with
      | PStr sub => Ok (str_contains s sub)
      | _ => Raise TypeError
      end
  | _ => Raise TypeError
  end.

(** [obj[key]] for a string key. *)
Definition getitem (obj : pyval) (key : pystr) : result pyval :=
  match obj with
  | PDict d =>
      match dict_get d key with
      | Some v => Ok v
      | None => Raise KeyError
      end
  | _ => Raise TypeError
  end.

(** [obj.get(key, default)] *)
Definition get_default (obj : pyval) (key : pystr) (default : pyval) : result pyval :=
  match obj with
  | PDict d =>
      Ok match dict_get d key with
         | Some v => v
         | None => default
         end
  | _ => Raise AttributeError
  end.

(** [len(obj)] *)
Definition py_len (obj : pyval) : result Z :=
  match obj with
  | PList l => Ok (len l)
  | PStr s => Ok (len s)
  | PDict d => Ok (len d)
  | _ => Raise TypeError
  end.

(** [all(f(x) for x in l)]: stops at the first false. *)
Fixpoint py_all {A} (f : A -> result bool) (l : list A) : result bool :=
  match l with
  | [] => Ok true
  | x :: l' => b ← f x; if b : bool then py_all f l' else Ok false
  end.

(** ** The program *)

(** The request of one chat completion. *)
Record request : Type := {
  req_model : pystr;
  req_system : pystr;
  req_user : pystr;
  req_temperature : pyfloat;
  req_max_tokens : Z
}.

(** The three messages [generate_mcq_with_ai] shows when it returns [None]. *)
Inductive notice : Type :=
| Warn_format      (* "Generated MCQ did not match expected format" *)
| Warn_json        (* "Failed to parse AI response as JSON" *)
| Error_generating (* "Error generating MCQ" *).

(** One entry of the review list. *)
Record wrong_question : Type := {
  question_num : Z;
  question : pyval;
  user_answer : pyval;
  correct_answer : pyval;
  explanation : pyval
}.

(** The dictionary [calculate_score] returns. *)
Record score_report : Type := {
  total : Z;
  correct : Z;
  wrong : Z;
  percentage : Z;
  wrong_questions : list wrong_question
}.

(** The template of the prompt, before and after the learning point.  In
    these two literals an apostrophe stands for the double quote of the
    source. *)
Definition quoted (s : string) : pystr :=
  map (fun c => if N.eqb c 39 then 34%N else c) (py s).

Definition prompt_head : pystr := quoted
"You are an expert quiz creator. Generate ONE multiple-choice question based on the following text:

'".

Definition prompt_tail : pystr := quoted
"'

Return ONLY valid JSON in this exact format (no other text):
{
    'question': 'Your question here?',
    'options': ['Option A', 'Option B', 'Option C', 'Option D'],
    'correct_answer': 'Option A',
    'explanation': 'Brief explanation of why this is correct'
}

Rules:
- Question must test understanding of the key concept
- All 4 options must be plausible
- Only ONE option is correct
- Options should be concise (under 100 characters each)
- The correct_answer must exactly match one of the options".

Definition required_keys : list pystr :=
  [py "question"; py "options"; py "correct_answer"].

(** Lines 257-265 of [generate_mcq_with_ai]: the structure check on the
    decoded object. [Ok None] is the fall-through to the warning. *)
Definition validate (mcq : pyval) : result (option pyval) :=
  has_keys ← py_all (fun key => contains (PStr key) mcq) required_keys;
  if has_keys : bool then
    options ← getitem mcq (py "options");
    n ← py_len options;
    if n =? 4 then
      answer ← getitem mcq (py "correct_answer");
      options ← getitem mcq (py "options");
      found ← contains answer options;
      if found : bool then Ok (Some mcq) else Ok None
    else Ok None
  else Ok None.

(** Lines 247-253: the markdown fence around the answer is cut off. *)
Definition strip_fence (content : pystr) : pystr :=
  let content := if startswith content (py "```json") then slice_from content 7 else content in
  let content := if startswith content (py "```") then slice_from content 3 else content in
  if endswith content (py "```") then slice_to content (-3) else content.

(** [random.sample(population, k)] refuses a [k] outside [0..len]; otherwise
    it returns the items at [k] pairwise distinct positions of its choice.
    The positions chosen are the argument [picks]. *)
Definition valid_picks (picks : list nat) (n : nat) (k : Z) : bool :=
  bool_decide (NoDup picks) && forallb (fun i => i <? n)%nat picks && (len picks =? k).

Definition random_sample {A} (picks : list nat) (population : list A) (k : Z)
  : result (list A) :=
  if (k <? 0) || (len population <? k) then Raise ValueError
  else Ok (omap (fun i => population !! i) picks).

Section App.
(** Unicode character classes. *)
Variables isspace isalnum islower isupper_char istitle : N -> bool.
(** [json.loads]. *)
Variable json_loads : pystr -> result pyval.
(** The endpoint behind [client.chat.completions.create]: from its state
    and a request, the [content] of the first choice ([None] when the
    message has none) or an exception, and its next state. *)
Variable client : Type.
Variable create : client -> request -> result (option pystr) * client.

(** What a run has done so far: the endpoint, the learning points MCQ
    generation was asked for, and the messages shown. *)
Record world : Type := {
  endpoint : client;
  asked : list pystr;
  shown : list notice
}.

(** *** clean_and_split_text *)

(** The loop of [clean_and_split_text] over the remaining lines. *)
Fixpoint clean_loop (lines : list pystr) (min_length max_length : Z)
    (cleaned_sentences : list pystr) : result (list pystr) :=
  match lines with
  | [] => Ok cleaned_sentences
  | line :: rest =>
      let line := strip isspace line in
      if len line <? min_length then
        clean_loop rest min_length max_length cleaned_sentences
      else if isupper islower isupper_char istitle line && (len line <? 50) then
        clean_loop rest min_length max_length cleaned_sentences
      else
        special_char_ratio ← int_truediv (count_special isspace isalnum line) (len line);
        if float_gt special_char_ratio float_0_3 then
          clean_loop rest min_length max_length cleaned_sentences
        else
          let line :=
            if max_length <? len line then slice_to line max_length ++ py "..." else line in
          clean_loop rest min_length max_length (cleaned_sentences ++ [line])
  end.

Definition clean_and_split_text (text : pystr) (min_length max_length : Z)
  : result (list pystr) :=
  let lines := split 10 (replace text (py ". ") [46; 10]%N) in
  clean_loop lines min_length max_length [].

(** *** generate_mcq_with_ai *)

Definition generate_mcq_with_ai (w : world) (learning_point : pystr)
    (temperature : pyfloat) : option pyval * world :=
  let prompt := prompt_head ++ learning_point ++ prompt_tail in
  let '(response, endpoint') :=
    create (endpoint w)
      {| req_model := py "gpt-4o-mini";
         req_system := py "You are a helpful quiz generator that outputs only valid JSON.";
         req_user := prompt;
         req_temperature := temperature;
         req_max_tokens := 300 |} in
  let attempt : result (option pyval) :=
    content ← response;
    content ← match content with
              | Some s => Ok (strip isspace s)
              | None => Raise AttributeError
              end;
    let content := strip_fence content in
    mcq ← json_loads (strip isspace content);
    validate mcq in
  let finish (r : option pyval) (notes : list notice) :=
    (r, {| endpoint := endpoint';
           asked := asked w ++ [learning_point];
           shown := shown w ++ notes |}) in
  match attempt with
  | Ok (Some mcq) => finish (Some mcq) []
  | Ok None => finish None [Warn_format]
  | Raise JSONDecodeError => finish None [Warn_json]
  | Raise _ => finish None [Error_generating]
  end.

(** *** generate_quiz_batch *)

(** The loop over the selected sentences.  The progress bar and the status
    text are written to and never read; they are left out. *)
Fixpoint batch_loop (w : world) (selected_sentences : list pystr) (mcqs : list pyval)
  : list pyval * world :=
  match selected_sentences with
  | [] => (mcqs, w)
  | sentence :: rest =>
      let '(mcq, w') := generate_mcq_with_ai w sentence float_0_7 in
      let mcqs :=
        match mcq with
        | Some m => if truthy m then mcqs ++ [m] else mcqs
        | None => mcqs
        end in
      batch_loop w' rest mcqs
  end.

(** The size of the sample [generate_quiz_batch] asks for. *)
Definition sample_size (sentences : list pystr) (num_questions : Z) : Z :=
  Z.min num_questions (len sentences).

Definition generate_quiz_batch (picks : list nat) (w : world)
    (sentences : list pystr) (num_questions : Z) : result (list pyval * world) :=
  selected_sentences ← random_sample picks sentences (sample_size sentences num_questions);
  Ok (batch_loop w selected_sentences []).

(** *** calculate_score *)

(** The loop of [calculate_score], at question [i]. *)
Fixpoint score_loop (i : nat) (mcqs : list pyval) (user_answers : gmap nat pyval)
    (correct_count : Z) (wrong_questions : list wrong_question)
  : result (Z * list wrong_question) :=
  match mcqs with
  | [] => Ok (correct_count, wrong_questions)
  | mcq :: rest =>
      let user_answer := default PNone (user_answers !! i) in
      correct_answer ← getitem mcq (py "correct_answer");
      if py_eq user_answer correct_answer then
        score_loop (S i) rest user_answers (correct_count + 1) wrong_questions
      else
        question ← getitem mcq (py "question");
        explanation ← get_default mcq (py "explanation") (PStr (py "N/A"));
        score_loop (S i) rest user_answers correct_count
          (wrong_questions ++
             [{| question_num := Z.of_nat i + 1;
                 question := question;
                 user_answer := if truthy user_answer then user_answer
                                else PStr (py "Not answered");
                 correct_answer := correct_answer;
                 explanation := explanation |}])
  end.

Definition calculate_score (mcqs : list pyval) (user_answers : gmap nat pyval)
  : result score_report :=
  '(correct_count, wrong_questions) ← score_loop 0 mcqs user_answers 0 [];
  let total_questions := len mcqs in
  let wrong_count := total_questions - correct_count in
  percent ←
    (if 0 <? total_questions then
       ratio ← int_truediv correct_count total_questions;
       int_of_float (float_mul_int ratio 100)
     else Ok 0);
  Ok {| total := total_questions;
        correct := correct_count;
        wrong := wrong_count;
        percentage := percent;
        wrong_questions := wrong_questions |}.
End App.

(** ** random.sample, as the library computes it *)

(** [Random.sample] of the standard library, for a sequence and without
    [counts].  Its randomness is a supply of numbers, used up from the
    left; a call that needs more of them than the supply holds has no
    outcome ([None]). *)
Module random.

(** [_randbelow(n)], a number below [n]: the next number of the supply
    reduced modulo [n], so that every number below [n] is returned for some
    supply. *)
Definition randbelow (r n : nat) : nat := r mod n.

(** The branch for a population that is small next to the sample.
    [remaining] is [n - i]: an item is drawn among the first [remaining]
    ones of the pool, and the last of them is moved into its place. *)
Fixpoint sample_pool {A} (supply : list nat) (pool : list A) (remaining k : nat)
    {struct k} : option (list A) :=
  match k with
  | O => Some []
  | S k' =>
      match supply with
      | [] => None
      | r :: supply' =>
          let j := randbelow r remaining in
          match pool !! j, pool !! (remaining - 1)%nat with
          | Some item, Some last =>
              option_map (cons item)
                (sample_pool supply' (<[j := last]> pool) (remaining - 1) k')
          | _, _ => None
          end
      end
  end.

(** [j = randbelow(n)], drawn again [while j in selected]. *)
Fixpoint draw_unselected (supply : list nat) (n : nat) (selected : gset nat)
  : option (nat * list nat) :=
  match supply with
  | [] => None
  | r :: supply' =>
      let j := randbelow r n in
      if decide (j ∈ selected) then draw_unselected supply' n selected
      else Some (j, supply')
  end.

(** The branch for a large population: the positions drawn are kept in a
    set. *)
Fixpoint sample_set {A} (supply : list nat) (population : list A) (selected : gset nat)
    (k : nat) : option (list A) :=
  match k with
  | O => Some []
  | S k' =>
      match draw_unselected supply (length population) selected with
      | Some (j, supply') =>
          match population !! j with
          | Some item =>
              option_map (cons item)
                (sample_set supply' population ({[j]} ∪ selected) k')
          | None => None
          end
      | None => None
      end
  end.

(** [setsize k] is the size under which the pool is used: 21, plus a power
    of 4 computed from a float logarithm of [3 * k] when [k > 5]. *)
Definition sample {A} (setsize : Z -> Z) (supply : list nat) (population : list A) (k : Z)
  : option (result (list A)) :=
  let n := len population in
  if negb ((0 <=? k) && (k <=? n)) then Some (Raise ValueError)
  else if n <=? setsize k then
    option_map Ok (sample_pool supply population (length population) (Z.to_nat k))
  else
    option_map Ok (sample_set supply population ∅ (Z.to_nat k)).

End random.

Section Sampling.
Variable isspace : N -> bool.
Variable json_loads : pystr -> result pyval.
Variable client : Type.
Variable create : client -> request -> result (option pystr) * client.

(** [generate_quiz_batch], with [random.sample] computed from its supply
    of random numbers instead of taken as the positions it chooses. *)
Definition generate_quiz_batch_sampling (setsize : Z -> Z) (supply : list nat)
    (w : world client) (sentences : list pystr) (num_questions : Z)
  : option (result (list pyval * world client)) :=
  option_map
    (fun sampled =>
       selected_sentences ← sampled;
       Ok (batch_loop isspace json_loads client create w selected_sentences []))
    (random.sample setsize supply sentences (sample_size sentences num_questions)).
End Sampling.

(** ** Notions used by the statements *)

(** An MCQ is an object the structure check lets through. *)
Definition is_mcq (m : pyval) : Prop := validate m = Ok (Some m).

Definition is_str (v : pyval) : Prop :=
  match v with
  | PStr _ => True
  | _ => False
  end.

(** What one pass of the scoring loop does with question [i]: nothing to
    record when the answer is right, else the entry of the review list. *)
Definition judge (i : nat) (mcq : pyval) (user_answers : gmap nat pyval)
  : result (option wrong_question) :=
  let user_answer := default PNone (user_answers !! i) in
  correct_answer ← getitem mcq (py "correct_answer");
  if py_eq user_answer correct_answer then Ok None
  else
    question ← getitem mcq (py "question");
    explanation ← get_default mcq (py "explanation") (PStr (py "N/A"));
    Ok (Some {| question_num := Z.of_nat i + 1;
                question := question;
                user_answer := if truthy user_answer then user_answer
                               else PStr (py "Not answered");
                correct_answer := correct_answer;
                explanation := explanation |}).

(** [percentage] as the source writes it, on the two counts. *)
Definition percent_of (correct_count total_questions : Z) : result Z :=
  ratio ← int_truediv correct_count total_questions;
  int_of_float (float_mul_int ratio 100).

Section Kept.
Variables isspace isalnum islower isupper_char istitle : N -> bool.

(** A stripped line passes the three filters of [clean_and_split_text]. *)
Definition keeps (min_length : Z) (line : pystr) : Prop :=
  min_length <= len line /\
  isupper islower isupper_char istitle line && (len line <? 50) = false /\
  exists ratio,
    int_truediv (count_special isspace isalnum line) (len line) = Ok ratio /\
    float_gt ratio float_0_3 = false.

(** What is appended for a line that passed. *)
Definition emit (max_length : Z) (line : pystr) : pystr :=
  if max_length <? len line then slice_to line max_length ++ py "..." else line.
End Kept.

(** Two families of character classes give the same answers on a
    character. *)
Definition same_classes
    (isspace isalnum islower isupper_char istitle : N -> bool)
    (isspace' isalnum' islower' isupper_char' istitle' : N -> bool) (c : N) : Prop :=
  isspace c = isspace' c /\ isalnum c = isalnum' c /\ islower c = islower' c /\
  isupper_char c = isupper_char' c /\ istitle c = istitle' c.

(** The float comparison [special / length > 0.3] against the exact one,
    for [special] special characters in a line of [length]. *)
Definition ratio_agrees (length special : nat) : bool :=
  match int_truediv (Z.of_nat special) (Z.of_nat length) with
  | Ok ratio =>
      Bool.eqb (float_gt ratio float_0_3) (3 * Z.of_nat length <? 10 * Z.of_nat special)
  | Raise _ => false
  end.

Definition ratio_table (bound : nat) : bool :=
  forallb (fun n => forallb (ratio_agrees n) (seq 0 (S n))) (seq 1 bound).



(** ** Concrete collaborators for the examples *)

(** The character classes restricted to ASCII, where they are those of the
    Unicode database. *)
Definition ascii_isspace (c : N) : bool :=
  ((c =? 32) || ((9 <=? c) && (c <=? 13)) || ((28 <=? c) && (c <=? 31)))%N.
Definition ascii_islower (c : N) : bool := ((97 <=? c) && (c <=? 122))%N.
Definition ascii_isupper (c : N) : bool := ((65 <=? c) && (c <=? 90))%N.
Definition ascii_isalnum (c : N) : bool :=
  (ascii_islower c || ascii_isupper c || ((48 <=? c) && (c <=? 57)))%N.
Definition ascii_istitle (c : N) : bool := false.

Definition ascii_clean (text : pystr) (min_length max_length : Z) : result (list pystr) :=
  clean_and_split_text ascii_isspace ascii_isalnum ascii_islower ascii_isupper
    ascii_istitle text min_length max_length.

(** A decoder that knows the documents of a table. *)
Definition table_loads (table : list (pystr * pyval)) (s : pystr) : result pyval :=
  match dict_get table s with
  | Some v => Ok v
  | None => Raise JSONDecodeError
  end.

(** An endpoint that answers from a script, one reply per request. *)
Definition scripted (replies : list (result (option pystr))) (r : request)
  : result (option pystr) * list (result (option pystr)) :=
  match replies with
  | reply :: rest => (reply, rest)
  | [] => (Raise APIError, [])
  end.

Definition start (replies : list (result (option pystr)))
  : world (list (result (option pystr))) :=
  {| endpoint := replies; asked := []; shown := [] |}.

(** An MCQ object with the three required keys. *)
Definition mcq_of (question : string) (options correct_answer : pyval) : pyval :=
  PDict [(py "question", PStr (py question));
         (py "options", options);
         (py "correct_answer", correct_answer)].



(** A quiz of two questions, and a submission with the right answer to
    the first and the empty string for the second. *)
Definition four_options : pyval :=
  PList [PStr (py "A"); PStr (py "B"); PStr (py "C"); PStr (py "D")].

Definition quiz_2 : list pyval :=
  [mcq_of "first" four_options (PStr (py "A"));
   mcq_of "second" four_options (PStr (py "B"))].

Definition answers_2 : gmap nat pyval :=
  {[ 0%nat := PStr (py "A"); 1%nat := PStr [] ]}.

(** Three documents a model can answer with, and what [json.loads] makes
    of them.  In the literals an apostrophe stands for the double quote. *)
Definition four_doc : pystr :=
  quoted "{'question': 'first', 'options': ['A', 'B', 'C', 'D'], 'correct_answer': 'A'}".

Definition four_mcq : pyval := mcq_of "first" four_options (PStr (py "A")).

Definition substring_doc : pystr :=
  quoted "{'question': 'q', 'options': 'abcd', 'correct_answer': 'bc'}".

Definition substring_mcq : pyval := mcq_of "q" (PStr (py "abcd")) (PStr (py "bc")).

Definition repeated_doc : pystr :=
  quoted "{'question': 'q', 'options': ['A', 'A', 'B', 'C'], 'correct_answer': 'A'}".

Definition repeated_options : list pyval :=
  [PStr (py "A"); PStr (py "A"); PStr (py "B"); PStr (py "C")].

Definition repeated_mcq : pyval := mcq_of "q" (PList repeated_options) (PStr (py "A")).

Definition decoder : pystr -> result pyval :=
  table_loads [(four_doc, four_mcq); (substring_doc, substring_mcq);
               (repeated_doc, repeated_mcq)].

(** [generate_mcq_with_ai] and [generate_quiz_batch] with these
    collaborators. *)
Definition ascii_generate (replies : list (result (option pystr))) (learning_point : pystr)
  : option pyval * world (list (result (option pystr))) :=
  generate_mcq_with_ai ascii_isspace decoder _ scripted (start replies)
    learning_point float_0_7.

Definition ascii_batch (picks : list nat) (replies : list (result (option pystr)))
    (sentences : list pystr) (num_questions : Z)
  : result (list pyval * world (list (result (option pystr)))) :=
  generate_quiz_batch ascii_isspace decoder _ scripted picks (start replies)
    sentences num_questions.

(** A learning point, and a list that holds it twice. *)
Definition boiling : pystr :=
  py "Water boils at one hundred degrees Celsius at sea level.".

Definition freezing : pystr :=
  py "Water freezes at zero degrees Celsius at sea level.".

(** ** The rest of [app.py] *)

(** *** Text extraction *)

(** An uploaded file: the media type it declares, and what each reader
    makes of its bytes: [PdfReader(file).pages] with the outcome of
    [extract_text()] on each page, the texts of
    [docx.Document(file).paragraphs], and [file.read().decode("utf-8")]. *)
Record uploaded_file : Type := {
  file_type : pystr;
  pdf_pages : result (list (result pystr));
  docx_paragraphs : result (list pystr);
  utf8_text : result pystr
}.

(** The loop of [extract_text_from_pdf] over the remaining pages. *)
Fixpoint pdf_loop (pages : list (result pystr)) (text : pystr) : result pystr :=
  match pages with
  | [] => Ok text
  | page :: rest =>
      page_text ← page;
      pdf_loop rest (if negb (str_eqb page_text []) then text ++ (page_text ++ [10%N])
                     else text)
  end.

(** Any exception gives the empty text and the count 0. *)
Definition extract_text_from_pdf (file : uploaded_file) : pystr * Z :=
  match pages ← pdf_pages file;
        let total_pages := len pages in
        text ← pdf_loop pages [];
        Ok (text, total_pages)
  with
  | Ok r => r
  | Raise _ => ([], 0)
  end.

Section Extraction.
Variable isspace : N -> bool.

(** The loop of [extract_text_from_docx] over the remaining paragraphs. *)
Fixpoint docx_loop (paragraphs : list pystr) (text : pystr) (para_count : Z)
  : pystr * Z :=
  match paragraphs with
  | [] => (text, para_count)
  | para :: rest =>
      if negb (str_eqb (strip isspace para) [])
      then docx_loop rest (text ++ (para ++ [10%N])) (para_count + 1)
      else docx_loop rest text para_count
  end.

Definition extract_text_from_docx (file : uploaded_file) : pystr * Z :=
  match docx_paragraphs file with
  | Ok paragraphs => docx_loop paragraphs [] 0
  | Raise _ => ([], 0)
  end.

(** [len([line for line in text.split("\n") if line.strip()])] *)
Definition count_lines (text : pystr) : Z :=
  len (filter (fun line => strip isspace line <> []) (split 10 text)).

Definition extract_text_from_txt (file : uploaded_file) : pystr * Z :=
  match utf8_text file with
  | Ok text => (text, count_lines text)
  | Raise _ => ([], 0)
  end.

Definition extract_text (file : uploaded_file) : pystr * Z :=
  if str_eqb (file_type file) (py "application/pdf") then
    extract_text_from_pdf file
  else if str_eqb (file_type file)
            (py "application/vnd.openxmlformats-officedocument.wordprocessingml.document") then
    extract_text_from_docx file
  else if str_eqb (file_type file) (py "text/plain") then
    extract_text_from_txt file
  else ([], 0).
End Extraction.

(** *** get_openai_client *)

(** What [get_openai_client] puts in the sidebar. *)
Inductive sidebar_event : Type :=
| Key_missing   (* the warning "OpenAI API Key not found" *)
| Key_asked     (* the password field *)
| Key_accepted  (* "API Key configured" *)
| Key_refused   (* "API Key error" *).

(** [getenv] is [os.getenv("OPENAI_API_KEY")], [typed] what the password
    field holds, [OpenAI] the constructor of the client. *)
Definition get_openai_client {client : Type}
    (getenv : option pystr) (typed : pystr) (OpenAI : pystr -> result client)
  : option client * list sidebar_event :=
  let '(api_key, events) :=
    match getenv with
    | Some key => if negb (str_eqb key []) then (key, [])
                  else (typed, [Key_missing; Key_asked])
    | None => (typed, [Key_missing; Key_asked])
    end in
  if negb (str_eqb api_key []) then
    match OpenAI api_key with
    | Ok c => (Some c, events ++ [Key_accepted])
    | Raise _ => (None, events ++ [Key_refused])
    end
  else (None, events).

(** *** The quiz form and its submission *)

(** The loop of [display_quiz]: question [i] is shown with its options and
    the selection of its radio button is stored under [i].  [radio i options]
    is what the widget of question [i] returns: the option selected, or
    [None]. *)
Fixpoint display_loop (radio : nat -> pyval -> pyval) (i : nat) (mcqs : list pyval)
    (user_answers : gmap nat pyval) : result (gmap nat pyval) :=
  match mcqs with
  | [] => Ok user_answers
  | mcq :: rest =>
      _ ← getitem mcq (py "question");
      options ← getitem mcq (py "options");
      let answer := radio i options in
      display_loop radio (S i) rest (<[i := answer]> user_answers)
  end.

Definition display_quiz (radio : nat -> pyval -> pyval) (mcqs : list pyval)
    (user_answers : gmap nat pyval) : result (gmap nat pyval) :=
  display_loop radio 0 mcqs user_answers.

(** [i not in user_answers or user_answers[i] is None] *)
Definition not_answered (user_answers : gmap nat pyval) (i : nat) : bool :=
  match user_answers !! i with
  | None => true
  | Some PNone => true
  | Some _ => false
  end.

(** The check made on "Submit Quiz" in [main]: the numbers, from 1, of the
    questions without an answer.  The quiz is submitted when there is
    none. *)
Definition unanswered (mcqs : list pyval) (user_answers : gmap nat pyval) : list Z :=
  map (fun i => Z.of_nat i + 1)
    (List.filter (not_answered user_answers) (seq 0 (length mcqs))).

(** The number of questions [main] asks [generate_quiz_batch] for. *)
Definition actual_questions (sentences : list pystr) (num_questions : Z) : Z :=
  if len sentences <? num_questions then len sentences else num_questions.

(** *** display_results *)

Inductive feedback : Type :=
| Excellent      (* percentage >= 80 *)
| Good_job       (* percentage >= 60 *)
| Keep_studying.

Definition performance (score_data : score_report) : feedback :=
  if 80 <=? percentage score_data then Excellent
  else if 60 <=? percentage score_data then Good_job
  else Keep_studying.

(** The "Perfect score!" message replaces the review of the mistakes when
    the review list is empty. *)
Definition perfect_score (score_data : score_report) : bool :=
  match wrong_questions score_data with
  | [] => true
  | _ :: _ => false
  end.

(** *** Notions for the statements about the rest *)

(** The request [generate_mcq_with_ai] sends for a learning point. *)
Definition request_for (learning_point : pystr) (temperature : pyfloat) : request :=
  {| req_model := py "gpt-4o-mini";
     req_system := py "You are a helpful quiz generator that outputs only valid JSON.";
     req_user := prompt_head ++ learning_point ++ prompt_tail;
     req_temperature := temperature;
     req_max_tokens := 300 |}.

(** The text [generate_mcq_with_ai] hands to [json.loads] for a content. *)
Definition json_text (isspace : N -> bool) (content : pystr) : pystr :=
  strip isspace (strip_fence (strip isspace content)).

(** A decoder for the document "42", and an endpoint that always answers
    with the same well-formed document. *)
Definition number_decoder : pystr -> result pyval :=
  table_loads [(py "42", PInt 42)].

Definition constant_endpoint (c : unit) (r : request) : result (option pystr) * unit :=
  (Ok (Some four_doc), c).

(** Uploaded files: a PDF of three pages, the second one empty; the same
    with a second page that cannot be read; a DOCX of three paragraphs, the
    second one blank; a text file of blank lines. *)
Definition pdf_file : uploaded_file :=
  {| file_type := py "application/pdf";
     pdf_pages := Ok [Ok boiling; Ok []; Ok freezing];
     docx_paragraphs := Raise ValueError;
     utf8_text := Raise ValueError |}.

Definition damaged_pdf_file : uploaded_file :=
  {| file_type := py "application/pdf";
     pdf_pages := Ok [Ok boiling; Raise ValueError; Ok freezing];
     docx_paragraphs := Raise ValueError;
     utf8_text := Raise ValueError |}.

Definition docx_file : uploaded_file :=
  {| file_type := py "application/vnd.openxmlformats-officedocument.wordprocessingml.document";
     pdf_pages := Raise ValueError;
     docx_paragraphs := Ok [boiling; py "  "; freezing];
     utf8_text := Raise ValueError |}.

Definition blank_txt_file : uploaded_file :=
  {| file_type := py "text/plain";
     pdf_pages := Raise ValueError;
     docx_paragraphs := Raise ValueError;
     utf8_text := Ok [32; 10; 9; 32; 10]%N |}.

(** * Facts *)

(** ** binary64: the percentage never overflows *)

(** The number of binary digits of a mantissa, and how shifting and
    rounding change it. *)
Lemma digits2_pos_size p : digits2_pos p = Pos.size p.
Proof. induction p; simpl; congruence. Qed.

Lemma Zdigits2_log2 m : 0 < m -> Zdigits2 m = Z.log2 m + 1.
Proof.
  destruct m as [|p|p]; try lia. intros _. simpl.
  rewrite digits2_pos_size. destruct p; simpl; lia.
Qed.

Lemma Zdigits2_nonneg m : 0 <= Zdigits2 m.
Proof. destruct m; simpl; lia. Qed.

Lemma Zdigits2_shiftr m n :
  0 <= m -> 0 <= n -> Zdigits2 (Z.shiftr m n) <= Z.max 0 (Zdigits2 m - n).
Proof.
  intros Hm Hn.
  assert (H0 : 0 <= Z.shiftr m n) by (apply Z.shiftr_nonneg; lia).
  destruct (Z.eq_dec (Z.shiftr m n) 0) as [E|E].
  - rewrite E. change (Zdigits2 0) with 0. lia.
  - assert (0 < m). { destruct (Z.eq_dec m 0) as [->|]; [rewrite Z.shiftr_0_l in E; congruence | lia]. }
    assert (n <= Z.log2 m).
    { destruct (Z_lt_le_dec (Z.log2 m) n); [|lia]. exfalso. apply E. apply Z.shiftr_eq_0; lia. }
    rewrite !Zdigits2_log2 by lia.
    rewrite Z.log2_shiftr by lia. lia.
Qed.

Lemma Zdigits2_succ m : 0 <= m -> Zdigits2 (m + 1) <= Zdigits2 m + 1.
Proof.
  intros Hm. destruct (Z.eq_dec m 0) as [->|].
  - change (Zdigits2 (0 + 1)) with 1. change (Zdigits2 0) with 0. lia.
  - rewrite !Zdigits2_log2 by lia.
    pose proof (Z.log2_succ_le m). unfold Z.succ in *. lia.
Qed.

Lemma shr_1_m r : 0 <= shr_m r -> shr_m (shr_1 r) = Z.div2 (shr_m r).
Proof.
  destruct r as [m b s]. simpl. intros H.
  destruct m as [|p|p]; try lia; try reflexivity.
  destruct p; reflexivity.
Qed.

Lemma iter_shr_1 p : forall r, 0 <= shr_m r ->
  shr_m (SpecFloat.iter_pos shr_1 p r) = Z.shiftr (shr_m r) (Zpos p).
Proof.
  induction p as [p IH|p IH|]; intros r Hr; simpl.
  - assert (H1 : 0 <= shr_m (shr_1 r)).
    { rewrite shr_1_m by lia. rewrite Z.div2_spec. apply Z.shiftr_nonneg. lia. }
    assert (H2 : 0 <= shr_m (SpecFloat.iter_pos shr_1 p (shr_1 r))).
    { rewrite IH by lia. apply Z.shiftr_nonneg. lia. }
    rewrite IH by lia. rewrite IH by lia. rewrite shr_1_m by lia.
    rewrite Z.div2_spec. rewrite !Z.shiftr_shiftr by lia. f_equal. lia.
  - assert (H2 : 0 <= shr_m (SpecFloat.iter_pos shr_1 p r)).
    { rewrite IH by lia. apply Z.shiftr_nonneg. lia. }
    rewrite IH by lia. rewrite IH by lia.
    rewrite !Z.shiftr_shiftr by lia. f_equal. lia.
  - rewrite shr_1_m by lia. apply Z.div2_spec.
Qed.

Lemma shr_record_of_loc_m m l : shr_m (shr_record_of_loc m l) = m.
Proof. destruct l as [|[]]; reflexivity. Qed.

Lemma shr_fexp_bound m e l D :
  0 <= m -> Zdigits2 m + e <= D -> -1074 <= D ->
  0 <= shr_m (fst (shr_fexp 53 1024 m e l)) /\
  Zdigits2 (shr_m (fst (shr_fexp 53 1024 m e l))) + snd (shr_fexp 53 1024 m e l) <= D /\
  snd (shr_fexp 53 1024 m e l) <= Z.max e (Z.max (D - 53) (-1074)).
Proof.
  intros Hm HD HD'. unfold shr_fexp, shr.
  set (n := fexp 53 1024 (Zdigits2 m + e) - e).
  assert (Hn : n = Z.max (Zdigits2 m + e - 53) (-1074) - e) by reflexivity.
  clearbody n.
  destruct n as [|p|p]; simpl fst; simpl snd; rewrite ?shr_record_of_loc_m.
  - repeat split; lia.
  - rewrite iter_shr_1 by (rewrite shr_record_of_loc_m; lia).
    rewrite shr_record_of_loc_m.
    split; [apply Z.shiftr_nonneg; lia|].
    pose proof (Zdigits2_shiftr m (Zpos p) Hm ltac:(lia)).
    pose proof (Zdigits2_nonneg m).
    split; lia.
  - repeat split; lia.
Qed.

Lemma round_nearest_even_bound m l :
  0 <= m -> 0 <= round_nearest_even m l /\ Zdigits2 (round_nearest_even m l) <= Zdigits2 m + 1.
Proof.
  intros Hm. pose proof (Zdigits2_succ m Hm).
  destruct l as [|[]]; simpl; try destruct (Z.even m); split; lia.
Qed.

Lemma binary_round_aux_finite sx mx ex lx D :
  0 <= mx -> ex <= 971 -> Zdigits2 mx + ex <= D -> -1074 <= D -> D <= 1023 ->
  match binary_round_aux 53 1024 sx mx ex lx with
  | S754_zero s => s = sx
  | S754_finite s m e => s = sx /\ Zpos (digits2_pos m) + e <= D + 1 /\ e <= 971
  | _ => False
  end.
Proof.
  intros Hm Hex HD Hlo Hhi. unfold binary_round_aux.
  destruct (shr_fexp_bound mx ex lx D Hm HD Hlo) as (H1 & H2 & H3).
  destruct (shr_fexp 53 1024 mx ex lx) as [mrs' e'] eqn:E1. simpl in H1, H2, H3.
  destruct (round_nearest_even_bound (shr_m mrs') (loc_of_shr_record mrs') H1) as (R1 & R2).
  set (m1 := round_nearest_even (shr_m mrs') (loc_of_shr_record mrs')) in *.
  destruct (shr_fexp_bound m1 e' loc_Exact (D + 1) R1 ltac:(lia) ltac:(lia)) as (G1 & G2 & G3).
  destruct (shr_fexp 53 1024 m1 e' loc_Exact) as [mrs'' e''] eqn:E2. simpl in G1, G2, G3.
  destruct (shr_m mrs'') as [|m|m] eqn:Em; [reflexivity| |lia].
  change (1024 - 53) with 971.
  destruct (Z.leb_spec e'' 971); [|lia].
  simpl in G2. repeat split; lia.
Qed.

Lemma div_core_bound c t :
  (c <= t)%positive ->
  0 <= fst (fst (SFdiv_core_binary 53 1024 (Zpos c) 0 (Zpos t) 0)) /\
  snd (fst (SFdiv_core_binary 53 1024 (Zpos c) 0 (Zpos t) 0)) <= 0 /\
  Zdigits2 (fst (fst (SFdiv_core_binary 53 1024 (Zpos c) 0 (Zpos t) 0))) +
    snd (fst (SFdiv_core_binary 53 1024 (Zpos c) 0 (Zpos t) 0)) <= 1.
Proof.
  intros Hct. unfold SFdiv_core_binary.
  set (e' := Z.min _ (0 - 0)).
  assert (He : e' <= 0) by (subst e'; lia).
  set (m' := match 0 - 0 - e' with Z0 => Zpos c | Zpos _ => Z.shiftl (Zpos c) (0 - 0 - e') | Zneg _ => 0 end).
  assert (Hm : m' = Zpos c * 2 ^ (- e')).
  { subst m'. replace (0 - 0 - e') with (- e') by lia.
    destruct (- e') as [|p|p] eqn:E; [simpl; lia| |lia].
    rewrite Z.shiftl_mul_pow2 by lia. reflexivity. }
  clearbody m' e'.
  destruct (Z.div_eucl m' (Zpos t)) as [q r] eqn:E. simpl.
  assert (Hq : q = m' / Zpos t) by (unfold Z.div; rewrite E; reflexivity).
  assert (Hp : 0 < 2 ^ (- e')) by (apply Z.pow_pos_nonneg; lia).
  assert (Hq0 : 0 <= q).
  { rewrite Hq. apply Z.div_pos; nia. }
  assert (Hq1 : q <= 2 ^ (- e')).
  { rewrite Hq. apply Z.div_le_upper_bound; [lia|]. rewrite Hm. nia. }
  split; [exact Hq0|]. split; [exact He|].
  destruct (Z.eq_dec q 0) as [->|Hne]; [change (Zdigits2 0) with 0; lia|].
  rewrite Zdigits2_log2 by lia.
  pose proof (Z.log2_le_mono _ _ Hq1) as Hl.
  rewrite Z.log2_pow2 in Hl by lia. lia.
Qed.

Lemma int_of_float_finite x :
  match x with S754_zero _ | S754_finite _ _ _ => True | _ => False end ->
  exists z, int_of_float x = Ok z.
Proof. destruct x; simpl; intros H; try contradiction; eauto. Qed.

Lemma percentage_defined c t :
  0 <= c <= t -> 0 < t ->
  exists p, percent_of c t = Ok p.
Proof.
  intros Hc Ht. unfold percent_of, int_truediv.
  destruct (Z.eqb_spec t 0) as [|_]; [lia|].
  cbn [mbind result_bind].
  apply int_of_float_finite.
  destruct t as [|t|t]; try lia.
  destruct c as [|c|c]; try lia; [exact I|].
  unfold float_mul_int.
  change (float_of_int 100) with (S754_finite false 7036874417766400 (-46)).
  cbn [exact_int SFdiv].
  destruct (div_core_bound c t ltac:(lia)) as (B1 & B2 & B3).
  destruct (SFdiv_core_binary 53 1024 (Zpos c) 0 (Zpos t) 0) as [[q e'] l]. simpl in B1, B2, B3.
  pose proof (binary_round_aux_finite (xorb false false) q e' l 1 B1 ltac:(lia) B3 ltac:(lia) ltac:(lia)) as HR.
  destruct (binary_round_aux 53 1024 (xorb false false) q e' l) as [s|s| |s m e]; try contradiction; [exact I|].
  destruct HR as (_ & HR1 & HR2).
  cbn [SFmul].
  assert (HD : Zdigits2 (Zpos (m * 7036874417766400)) + (e + -46) <= 9).
  { rewrite Zdigits2_log2 by lia. rewrite Pos2Z.inj_mul.
    pose proof (Z.log2_mul_above (Zpos m) 7036874417766400 ltac:(lia) ltac:(lia)) as HM.
    change (Z.log2 7036874417766400) with 52 in HM.
    change (Zpos (digits2_pos m)) with (Zdigits2 (Zpos m)) in HR1.
    rewrite Zdigits2_log2 in HR1 by lia. lia. }
  pose proof (binary_round_aux_finite (xorb s false) (Zpos (m * 7036874417766400)) (e + -46) loc_Exact 9
                ltac:(lia) ltac:(lia) HD ltac:(lia) ltac:(lia)) as HR'.
  destruct (binary_round_aux 53 1024 (xorb s false) (Zpos (m * 7036874417766400)) (e + -46) loc_Exact);
    try contradiction; exact I.
Qed.

(** ** The structure check *)

Lemma bind_ok {A B} (r : result A) (k : A -> result B) (b : B) :
  r ≫= k = Ok b -> exists a, r = Ok a /\ k a = Ok b.
Proof. destruct r as [a|e]; [eauto | discriminate]. Qed.

Lemma py_all_true {A} (f : A -> result bool) (l : list A) :
  py_all f l = Ok true -> Forall (fun x => f x = Ok true) l.
Proof.
  induction l as [|x l IH]; intros H; [constructor|].
  cbn [py_all] in H. apply bind_ok in H as ([|] & Hx & H); [|discriminate].
  constructor; auto.
Qed.

Lemma contains_key_dict key m :
  contains (PStr key) m = Ok true -> getitem m (py "options") <> Raise TypeError ->
  exists d v, m = PDict d /\ dict_get d key = Some v.
Proof.
  destruct m; cbn [contains getitem hashable]; try congruence.
  intros H _. destruct (dict_get entries key) as [v|] eqn:E; [eauto | discriminate].
Qed.

(** What the structure check has established when it hands an object back. *)
Lemma validate_accepts m m' :
  validate m = Ok (Some m') ->
  m' = m /\
  exists d q options answer,
    m = PDict d /\
    dict_get d (py "question") = Some q /\
    dict_get d (py "options") = Some options /\
    dict_get d (py "correct_answer") = Some answer /\
    py_len options = Ok 4 /\
    contains answer options = Ok true.
Proof.
  unfold validate. intros H.
  apply bind_ok in H as ([|] & Hkeys & H); [|discriminate].
  apply py_all_true in Hkeys.
  apply bind_ok in H as (options & Hopt & H).
  apply bind_ok in H as (n & Hn & H).
  destruct (Z.eqb_spec n 4) as [->|]; [|discriminate].
  apply bind_ok in H as (answer & Hans & H).
  apply bind_ok in H as (options' & Hopt' & H).
  apply bind_ok in H as ([|] & Hin & H); [|discriminate].
  injection H as <-. split; [reflexivity|].
  unfold required_keys in Hkeys.
  inversion Hkeys as [|? ? Hq Hk1]; subst. clear Hkeys.
  destruct (contains_key_dict _ _ Hq ltac:(congruence)) as (d & q & -> & Eq).
  cbn [getitem] in Hopt, Hopt', Hans.
  destruct (dict_get d (py "options")) as [o|] eqn:Eo; [|discriminate].
  destruct (dict_get d (py "correct_answer")) as [a|] eqn:Ea; [|discriminate].
  injection Hopt as <-. injection Hopt' as <-. injection Hans as <-.
  exists d, q, o, a. auto 10.
Qed.

Lemma validate_accepts_intro d q options answer :
  dict_get d (py "question") = Some q ->
  dict_get d (py "options") = Some options ->
  dict_get d (py "correct_answer") = Some answer ->
  py_len options = Ok 4 ->
  contains answer options = Ok true ->
  validate (PDict d) = Ok (Some (PDict d)).
Proof.
  intros Eq Eo Ea Hn Hin. unfold validate, required_keys.
  cbn [py_all contains hashable getitem mbind result_bind].
  rewrite Eq, Eo, Ea. cbn [mbind result_bind].
  rewrite Hn. cbn [mbind result_bind]. rewrite Hin. reflexivity.
Qed.

(** The check never hands back anything but the object it was given, and
    an MCQ has the keys the score engine reads. *)
Lemma is_mcq_keys m :
  is_mcq m ->
  exists d q answer,
    m = PDict d /\ dict_get d (py "question") = Some q /\
    dict_get d (py "correct_answer") = Some answer.
Proof.
  intros H. apply validate_accepts in H as (_ & d & q & o & a & -> & ? & ? & ? & _).
  eauto 10.
Qed.

(** ** calculate_score *)

Section Score.
Variable user_answers : gmap nat pyval.

Lemma score_loop_step i mcq rest correct_count wrong_questions :
  score_loop (i) (mcq :: rest) user_answers correct_count wrong_questions =
  judge i mcq user_answers ≫= fun r =>
    match r with
    | None => score_loop (S i) rest user_answers (correct_count + 1) wrong_questions
    | Some q => score_loop (S i) rest user_answers correct_count (wrong_questions ++ [q])
    end.
Proof.
  cbn [score_loop]. unfold judge.
  destruct (getitem mcq (py "correct_answer")) as [answer|]; [|reflexivity].
  cbn [mbind result_bind].
  destruct (py_eq _ answer); [reflexivity|].
  destruct (getitem mcq (py "question")) as [q|]; [|reflexivity].
  cbn [mbind result_bind].
  destruct (get_default mcq _ _); reflexivity.
Qed.

Lemma judge_returns i m : is_mcq m -> exists r, judge i m user_answers = Ok r.
Proof.
  intros H. apply is_mcq_keys in H as (d & q & a & -> & Eq & Ea).
  unfold judge. cbn [getitem get_default]. rewrite Ea, Eq. cbn [mbind result_bind].
  destruct (py_eq _ a); eauto.
Qed.

(** Every question either adds one to the count or one entry to the list. *)
Lemma score_loop_counts mcqs : forall i c w c' w',
  score_loop i mcqs user_answers c w = Ok (c', w') ->
  c' + len w' = c + len w + len mcqs /\ c <= c' /\ exists extra, w' = w ++ extra.
Proof.
  induction mcqs as [|m rest IH]; intros i c w c' w' H.
  - injection H as <- <-. unfold len. cbn [length]. split; [lia|].
    split; [lia|]. exists []. symmetry. apply app_nil_r.
  - rewrite score_loop_step in H. apply bind_ok in H as (r & _ & H).
    unfold len in *. cbn [length]. destruct r as [q|].
    + apply IH in H as (H1 & H2 & extra & E).
      rewrite length_app in H1. cbn [length] in H1.
      split; [lia|]. split; [lia|]. exists (q :: extra). rewrite E, <- app_assoc. reflexivity.
    + apply IH in H as (H1 & H2 & extra & E).
      split; [lia|]. split; [lia|]. eauto.
Qed.

Lemma score_loop_returns mcqs : forall i c w,
  Forall is_mcq mcqs -> exists c' w', score_loop i mcqs user_answers c w = Ok (c', w').
Proof.
  induction mcqs as [|m rest IH]; intros i c w Hall.
  - cbn [score_loop]. eauto.
  - inversion Hall as [|? ? Hm Hrest]; subst.
    rewrite score_loop_step. destruct (judge_returns i m Hm) as (r & ->).
    cbn [mbind result_bind]. destruct r; apply IH; assumption.
Qed.

(** The entry made for question [i + k] is in the final review list. *)
Lemma score_loop_records mcqs : forall i k c w c' w' m q,
  score_loop i mcqs user_answers c w = Ok (c', w') ->
  mcqs !! k = Some m ->
  judge (i + k) m user_answers = Ok (Some q) ->
  In q w'.
Proof.
  induction mcqs as [|m0 rest IH]; intros i k c w c' w' m q H Hk Hj; [discriminate|].
  rewrite score_loop_step in H. apply bind_ok in H as (r & Hr & H).
  destruct k as [|k].
  - injection Hk as ->. rewrite Nat.add_0_r in Hj. rewrite Hj in Hr. injection Hr as <-.
    apply score_loop_counts in H as (_ & _ & extra & ->).
    apply in_or_app. left. apply in_or_app. right. left. reflexivity.
  - cbn in Hk. replace (i + S k)%nat with (S i + k)%nat in Hj by lia.
    destruct r; eapply IH; eauto.
Qed.

Lemma calculate_score_unfold mcqs c w :
  score_loop 0 mcqs user_answers 0 [] = Ok (c, w) ->
  calculate_score mcqs user_answers =
  (if 0 <? len mcqs then percent_of c (len mcqs) else Ok 0) ≫= fun p =>
    Ok {| total := len mcqs; correct := c; wrong := len mcqs - c;
          percentage := p; wrong_questions := w |}.
Proof. intros H. unfold calculate_score. rewrite H. reflexivity. Qed.

(** On a list of MCQs the score engine returns a report, with these
    fields. *)
Lemma calculate_score_report mcqs :
  Forall is_mcq mcqs ->
  exists r c p,
    calculate_score mcqs user_answers = Ok r /\
    score_loop 0 mcqs user_answers 0 [] = Ok (c, wrong_questions r) /\
    (if 0 <? len mcqs then percent_of c (len mcqs) else Ok 0) = Ok p /\
    r = {| total := len mcqs; correct := c; wrong := len mcqs - c;
           percentage := p; wrong_questions := wrong_questions r |} /\
    0 <= c /\ c + len (wrong_questions r) = len mcqs.
Proof.
  intros Hall.
  destruct (score_loop_returns mcqs 0%nat 0 [] Hall) as (c & w & Hloop).
  pose proof (score_loop_counts _ _ _ _ _ _ Hloop) as (Hsum & Hc & _).
  change (len (@nil wrong_question)) with 0 in Hsum.
  assert (Hp : exists p, (if 0 <? len mcqs then percent_of c (len mcqs) else Ok 0) = Ok p).
  { destruct (Z.ltb_spec 0 (len mcqs)); [|eauto].
    apply percentage_defined; [|lia]. unfold len in *. lia. }
  destruct Hp as (p & Hp).
  rewrite (calculate_score_unfold _ _ _ Hloop), Hp. cbn [mbind result_bind].
  eexists _, c, p. split; [reflexivity|]. cbn [wrong_questions].
  repeat split; auto.
Qed.
End Score.

(** C1. For every list of MCQs and every answer mapping, [calculate_score]
    returns a report whose [total] is the number of MCQs, whose [correct]
    and [wrong] add up to [total], and whose [percentage] is 0 when [total]
    is 0.  The review list has one entry per wrong answer. *)
Theorem calculate_score_totals (mcqs : list pyval) (user_answers : gmap nat pyval) :
  Forall is_mcq mcqs ->
  exists r,
    calculate_score mcqs user_answers = Ok r /\
    total r = len mcqs /\
    correct r + wrong r = total r /\
    (total r = 0 -> percentage r = 0) /\
    wrong r = len (wrong_questions r).
Proof.
  intros Hall.
  destruct (calculate_score_report user_answers mcqs Hall)
    as (r & c & p & Hr & _ & Hp & Er & Hc & Hsum).
  exists r. split; [exact Hr|]. rewrite Er. cbn [total correct wrong percentage wrong_questions].
  repeat split; try lia.
  intros H0. rewrite H0 in Hp. cbn in Hp. congruence.
Qed.

Lemma calculate_score_totals_witness :
  Forall is_mcq quiz_2 /\
  exists r,
    calculate_score quiz_2 answers_2 = Ok r /\
    total r = len quiz_2 /\
    correct r + wrong r = total r /\
    (total r = 0 -> percentage r = 0) /\
    wrong r = len (wrong_questions r).
Proof.
  assert (H : Forall is_mcq quiz_2) by (repeat constructor).
  split; [exact H | apply (calculate_score_totals quiz_2 answers_2 H)].
Defined.

(** A comparison with the empty string succeeds on the empty string only. *)
Lemma py_eq_empty_str v : py_eq (PStr []) v = true -> v = PStr [].
Proof.
  destruct v; cbn; try discriminate.
  unfold str_eqb. intros H. apply bool_decide_eq_true in H. congruence.
Qed.

(** C10. When the entry of question [i] in [user_answers] is the empty
    string and the question's [correct_answer] is not, [calculate_score]
    counts the question as wrong and its entry in the review list shows
    "Not answered" as the user's answer, not the empty string. *)
Theorem calculate_score_empty_answer
    (mcqs : list pyval) (user_answers : gmap nat pyval) (i : nat) (mcq answer : pyval) :
  Forall is_mcq mcqs ->
  mcqs !! i = Some mcq ->
  getitem mcq (py "correct_answer") = Ok answer ->
  answer <> PStr [] ->
  user_answers !! i = Some (PStr []) ->
  exists r q,
    calculate_score mcqs user_answers = Ok r /\
    In q (wrong_questions r) /\
    question_num q = Z.of_nat i + 1 /\
    user_answer q = PStr (py "Not answered") /\
    correct_answer q = answer /\
    1 <= wrong r /\ correct r < total r.
Proof.
  intros Hall Hi Hans Hne Hua.
  destruct (calculate_score_report user_answers mcqs Hall)
    as (r & c & p & Hr & Hloop & _ & Er & Hc & Hsum).
  assert (Hm : is_mcq mcq).
  { eapply Forall_lookup_1; eassumption. }
  apply is_mcq_keys in Hm as (d & qu & a & -> & Eq & Ea).
  cbn [getitem] in Hans. rewrite Ea in Hans. injection Hans as ->.
  set (q := {| question_num := Z.of_nat i + 1;
               question := qu;
               user_answer := PStr (py "Not answered");
               correct_answer := answer;
               explanation := match dict_get d (py "explanation") with
                              | Some v => v
                              | None => PStr (py "N/A")
                              end |}).
  assert (Hj : judge (0 + i) (PDict d) user_answers = Ok (Some q)).
  { unfold judge. cbn [Nat.add]. rewrite Hua.
    change (default PNone (Some (PStr []))) with (PStr []). cbn [getitem get_default].
    rewrite Ea, Eq. cbn [mbind result_bind].
    destruct (py_eq (PStr []) answer) eqn:E.
    - apply py_eq_empty_str in E. contradiction.
    - reflexivity. }
  pose proof (score_loop_records user_answers mcqs _ _ _ _ _ _ _ _ Hloop Hi Hj) as Hin.
  exists r, q. split; [exact Hr|]. split; [exact Hin|].
  assert (1 <= len (wrong_questions r)).
  { unfold len. destruct (wrong_questions r); [contradiction|]. cbn [length]. lia. }
  rewrite Er. cbn [total correct wrong]. repeat split; lia.
Qed.

Lemma calculate_score_empty_answer_witness :
  exists r q,
    calculate_score quiz_2 answers_2 = Ok r /\
    In q (wrong_questions r) /\
    question_num q = 2 /\
    user_answer q = PStr (py "Not answered") /\
    correct_answer q = PStr (py "B") /\
    1 <= wrong r /\ correct r < total r.
Proof.
  apply (calculate_score_empty_answer quiz_2 answers_2 1
           (mcq_of "second" four_options (PStr (py "B"))) (PStr (py "B"))).
  - repeat constructor.
  - reflexivity.
  - reflexivity.
  - discriminate.
  - reflexivity.
Defined.

(** ** The percentage against the exact quotient *)

Lemma table_sound (f : nat -> nat -> bool) (bound : nat) :
  forallb (fun n => forallb (f n) (seq 0 (S n))) (seq 1 bound) = true ->
  forall n c : nat, (1 <= n <= bound)%nat -> (c <= n)%nat -> f n c = true.
Proof.
  intros H n c Hn Hc.
  rewrite forallb_forall in H. specialize (H n).
  rewrite forallb_forall in H. apply H; apply in_seq; lia.
Qed.


Lemma ratio_table_sound (bound : nat) :
  ratio_table bound = true ->
  forall n c : nat, (1 <= n <= bound)%nat -> (c <= n)%nat -> ratio_agrees n c = true.
Proof. apply table_sound. Qed.






(** ** clean_and_split_text *)

Lemma ratio_table_300 : ratio_table 300 = true.
Proof. vm_compute. reflexivity. Qed.

Section Text.
Variables isspace isalnum islower isupper_char istitle : N -> bool.
Variables min_length max_length : Z.

Lemma count_special_bounds line :
  0 <= count_special isspace isalnum line <= len line.
Proof.
  unfold count_special, len. split; [lia|].
  apply inj_le, length_filter.
Qed.

(** The lines the loop appends are stripped input lines that pass the
    three filters, cut when they are too long. *)
Lemma clean_loop_emits lines : forall cleaned out,
  clean_loop isspace isalnum islower isupper_char istitle
    lines min_length max_length cleaned = Ok out ->
  exists kept,
    out = cleaned ++ map (emit max_length) kept /\
    Forall (keeps isspace isalnum islower isupper_char istitle min_length) kept /\
    Forall (fun l => exists line, In line lines /\ l = strip isspace line) kept.
Proof.
  induction lines as [|line rest IH]; intros cleaned out H.
  - injection H as <-. exists []. rewrite app_nil_r. auto.
  - cbn [clean_loop] in H.
    set (l := strip isspace line) in *.
    assert (Hrest : forall cleaned',
               clean_loop isspace isalnum islower isupper_char istitle rest
                 min_length max_length cleaned' = Ok out ->
               exists kept,
                 out = cleaned' ++ map (emit max_length) kept /\
                 Forall (keeps isspace isalnum islower isupper_char istitle
                           min_length) kept /\
                 Forall (fun l => exists line', In line' (line :: rest) /\
                                                l = strip isspace line') kept).
    { intros c' Hc'. apply IH in Hc' as (kept & ? & ? & Hsrc). exists kept.
      repeat split; auto. eapply Forall_impl; [exact Hsrc|].
      intros ? (line' & ? & ?). exists line'. split; [right|]; assumption. }
    destruct (Z.ltb_spec (len l) min_length) as [|Hmin]; [auto|].
    destruct (isupper islower isupper_char istitle l && (len l <? 50)) eqn:Hup; [auto|].
    apply bind_ok in H as (ratio & Hratio & H).
    destruct (float_gt ratio float_0_3) eqn:Hgt; [auto|].
    apply Hrest in H as (kept & -> & Hk & Hsrc).
    exists (l :: kept). split; [|split].
    + rewrite <- app_assoc. reflexivity.
    + constructor; [|exact Hk]. unfold keeps. eauto 10.
    + constructor; [|exact Hsrc]. exists line. split; [left|]; reflexivity.
Qed.

(** With [min_length >= 1] no line reaches the division with length 0. *)
Lemma clean_loop_returns lines :
  1 <= min_length ->
  forall cleaned,
    returns (clean_loop isspace isalnum islower isupper_char istitle
               lines min_length max_length cleaned).
Proof.
  intros Hmin.
  induction lines as [|line rest IH]; intros cleaned.
  - eexists. reflexivity.
  - cbn [clean_loop].
    set (l := strip isspace line).
    destruct (Z.ltb_spec (len l) min_length) as [|Hlen]; [apply IH|].
    destruct (isupper islower isupper_char istitle l && (len l <? 50)); [apply IH|].
    unfold int_truediv.
    destruct (Z.eqb_spec (len l) 0) as [E|_]; [lia|].
    cbn [mbind result_bind].
    destruct (float_gt _ float_0_3); apply IH.
Qed.
End Text.

(** ** The character classes matter only at the characters of the text *)

Lemma lstrip_suffix (f : N -> bool) (P : N -> Prop) (s : pystr) :
  Forall P s -> Forall P (lstrip f s).
Proof.
  induction 1 as [|c s Hc Hs IH]; [constructor|].
  cbn [lstrip]. destruct (f c); [exact IH | constructor; assumption].
Qed.

Lemma strip_chars (f : N -> bool) (P : N -> Prop) (s : pystr) :
  Forall P s -> Forall P (strip f s).
Proof.
  intros H. unfold strip, rstrip.
  apply Forall_rev, lstrip_suffix, Forall_rev, lstrip_suffix, H.
Qed.

Lemma split_chars (P : N -> Prop) (sep : N) (s : pystr) :
  Forall P s -> Forall (Forall P) (split sep s).
Proof.
  induction 1 as [|c s Hc Hs IH]; [repeat constructor|].
  cbn [split]. destruct (N.eqb c sep); [constructor; [constructor | exact IH]|].
  destruct (split sep s) as [|piece pieces]; [repeat constructor; assumption|].
  inversion IH; subst. constructor; [constructor|]; assumption.
Qed.

Lemma replace_chars (P : N -> Prop) (old new : pystr) (s : pystr) :
  Forall P new -> Forall P s -> forall skip, Forall P (replace_from old new skip s).
Proof.
  intros Hnew. induction 1 as [|c s Hc Hs IH]; intros skip; [constructor|].
  cbn [replace_from]. destruct skip as [|k]; [|apply IH].
  destruct (startswith (c :: s) old).
  - apply Forall_app. split; [exact Hnew | apply IH].
  - constructor; [exact Hc | apply IH].
Qed.

Section Classes.
Variables isspace isalnum islower isupper_char istitle : N -> bool.
Variables isspace' isalnum' islower' isupper_char' istitle' : N -> bool.

Local Abbreviation agree := (same_classes isspace isalnum islower isupper_char istitle
  isspace' isalnum' islower' isupper_char' istitle').

Lemma lstrip_ext (s : pystr) :
  Forall agree s -> lstrip isspace s = lstrip isspace' s.
Proof.
  induction 1 as [|c s (Hc & _) Hs IH]; [reflexivity|].
  cbn [lstrip]. rewrite <- Hc, IH. reflexivity.
Qed.

Lemma strip_ext (s : pystr) :
  Forall agree s -> strip isspace s = strip isspace' s.
Proof.
  intros H. unfold strip, rstrip. rewrite <- (lstrip_ext s H).
  rewrite lstrip_ext; [reflexivity|].
  apply Forall_rev, lstrip_suffix, H.
Qed.

Lemma isupper_from_ext (s : pystr) :
  Forall agree s -> forall cased,
  isupper_from islower isupper_char istitle cased s =
  isupper_from islower' isupper_char' istitle' cased s.
Proof.
  induction 1 as [|c s (_ & _ & Hl & Hu & Ht) Hs IH]; intros cased; [reflexivity|].
  cbn [isupper_from]. rewrite <- Hl, <- Hu, <- Ht, IH. reflexivity.
Qed.

Lemma isupper_ext (s : pystr) :
  Forall agree s ->
  isupper islower isupper_char istitle s = isupper islower' isupper_char' istitle' s.
Proof.
  intros H. unfold isupper. destruct s as [|c [|d s]].
  - reflexivity.
  - inversion H as [|? ? (_ & _ & _ & Hu & _) _]. exact Hu.
  - apply isupper_from_ext, H.
Qed.

Lemma count_special_ext (s : pystr) :
  Forall agree s -> count_special isspace isalnum s = count_special isspace' isalnum' s.
Proof.
  unfold count_special, len. intros H. f_equal.
  unfold pystr in *.
  induction H as [|c s (Hs & Ha & _) _ IH]; [reflexivity|].
  rewrite !filter_cons, <- Hs, <- Ha.
  destruct (decide (negb (isalnum c) && negb (isspace c) = true));
    cbn [length]; rewrite IH; reflexivity.
Qed.

Lemma clean_loop_ext (lines : list pystr) (min_length max_length : Z) :
  Forall (Forall agree) lines -> forall cleaned,
  clean_loop isspace isalnum islower isupper_char istitle lines min_length max_length cleaned =
  clean_loop isspace' isalnum' islower' isupper_char' istitle' lines min_length max_length cleaned.
Proof.
  induction 1 as [|line rest Hline _ IH]; intros cleaned; [reflexivity|].
  cbn [clean_loop].
  rewrite <- (strip_ext line Hline).
  assert (Hs : Forall agree (strip isspace line)) by (apply strip_chars, Hline).
  rewrite <- (isupper_ext _ Hs), <- (count_special_ext _ Hs).
  destruct (len (strip isspace line) <? min_length); [apply IH|].
  destruct (isupper _ _ _ _ && _); [apply IH|].
  destruct (int_truediv _ _) as [ratio|e]; [|reflexivity].
  cbn [mbind result_bind].
  destruct (float_gt ratio float_0_3); apply IH.
Qed.

(** Two families of character classes that agree on the characters of the
    text, on the full stop and on the line feed give the same result. *)
Lemma clean_and_split_text_ext (text : pystr) (min_length max_length : Z) :
  Forall agree text -> agree 46%N -> agree 10%N ->
  clean_and_split_text isspace isalnum islower isupper_char istitle
    text min_length max_length =
  clean_and_split_text isspace' isalnum' islower' isupper_char' istitle'
    text min_length max_length.
Proof.
  intros Htext Hdot Hnl. unfold clean_and_split_text.
  apply clean_loop_ext, split_chars, replace_chars; [|exact Htext].
  constructor; [exact Hdot|]. constructor; [exact Hnl|]. constructor.
Qed.
End Classes.

(** C8. For every text and every [min_length >= 1], [clean_and_split_text]
    returns a list: a line shorter than [min_length], and so every empty
    line, is dropped before the ratio is computed, and the division by the
    length of the line never raises [ZeroDivisionError]. *)
Theorem clean_and_split_text_total
    (isspace isalnum islower isupper_char istitle : N -> bool)
    (text : pystr) (min_length max_length : Z) :
  1 <= min_length ->
  returns (clean_and_split_text isspace isalnum islower isupper_char istitle
             text min_length max_length).
Proof. intros H. unfold clean_and_split_text. apply clean_loop_returns. exact H. Qed.

Lemma clean_and_split_text_total_witness :
  returns (ascii_clean (py "Water boils at one hundred degrees Celsius at sea level.") 1 300).
Proof.
  apply (clean_and_split_text_total ascii_isspace ascii_isalnum ascii_islower
           ascii_isupper ascii_istitle
           (py "Water boils at one hundred degrees Celsius at sea level.") 1 300).
  lia.
Defined.

(** Without the precondition the division is reached with length 0. *)
Example clean_and_split_text_min_length_0 :
  ascii_clean [] 0 300 = Raise ZeroDivisionError.
Proof. reflexivity. Qed.

Section TextDefault.
Variables isspace isalnum islower isupper_char istitle : N -> bool.

(** With the default bounds: the result, and where each string of it
    comes from. *)
Lemma clean_default_emits text :
  exists kept,
    clean_and_split_text isspace isalnum islower isupper_char istitle text 30 300
      = Ok (map (emit 300) kept) /\
    Forall (keeps isspace isalnum islower isupper_char istitle 30) kept.
Proof.
  destruct (clean_loop_returns isspace isalnum islower isupper_char istitle 30 300
              (split 10 (replace text (py ". ") [46; 10]%N)) ltac:(lia) [])
    as (out & Hout).
  unfold clean_and_split_text. rewrite Hout.
  apply clean_loop_emits in Hout as (kept & -> & Hk & _).
  exists kept. split; [reflexivity | exact Hk].
Qed.

Lemma emit_length line :
  len (emit 300 line) = if 300 <? len line then 303 else len line.
Proof.
  unfold emit. destruct (Z.ltb_spec 300 (len line)) as [H|H]; [|reflexivity].
  unfold slice_to, len in *. cbn [Z.ltb Z.compare].
  rewrite length_app, length_take. cbn. lia.
Qed.

(** An uncut line that passed the ratio test has at most 3 special
    characters in 10. *)
Lemma keeps_ratio line :
  keeps isspace isalnum islower isupper_char istitle 30 line ->
  len line <= 300 ->
  10 * count_special isspace isalnum line <= 3 * len line.
Proof.
  intros (Hmin & _ & ratio & Hdiv & Hgt) Hmax.
  pose proof (count_special_bounds isspace isalnum line) as Hc.
  pose proof (ratio_table_sound 300 ratio_table_300
                (Z.to_nat (len line)) (Z.to_nat (count_special isspace isalnum line))
                ltac:(lia) ltac:(lia)) as H.
  unfold ratio_agrees in H. rewrite !Z2Nat.id in H by lia.
  rewrite Hdiv, Hgt in H.
  destruct (Z.ltb_spec (3 * len line) (10 * count_special isspace isalnum line));
    [discriminate | lia].
Qed.
End TextDefault.

(** C3, as the code has it. With the default bounds every string of the
    result has between 30 and 300 characters, unless it is the cut of a
    longer line: then it is the first 300 characters of that line followed
    by "...", 303 characters in all. *)
Theorem clean_and_split_text_lengths
    (isspace isalnum islower isupper_char istitle : N -> bool) (text : pystr) :
  exists out,
    clean_and_split_text isspace isalnum islower isupper_char istitle text 30 300 = Ok out /\
    Forall (fun s =>
              30 <= len s <= 300 \/
              (len s = 303 /\
               exists line, 300 < len line /\ s = slice_to line 300 ++ py "...")) out.
Proof.
  destruct (clean_default_emits isspace isalnum islower isupper_char istitle text)
    as (kept & -> & Hk).
  eexists. split; [reflexivity|].
  apply Forall_map. eapply Forall_impl; [exact Hk|].
  intros line (Hmin & _). cbn beta.
  pose proof (emit_length line) as Hlen. unfold emit in *.
  destruct (Z.ltb_spec 300 (len line)) as [Hcut|Hfit].
  - right. split; [exact Hlen|]. exists line. split; [exact Hcut | reflexivity].
  - left. lia.
Qed.

(** C3 as stated fails on a line of 301 letters: what is emitted has 303
    characters. *)
Lemma clean_and_split_text_length_303 :
  exists out,
    ascii_clean (repeat 97%N 301) 30 300 = Ok out /\
    ~ Forall (fun s => 30 <= len s <= 300) out.
Proof.
  eexists. split; [vm_compute; reflexivity|].
  intros H. inversion H as [|? ? [_ Hs] _]. apply Hs. vm_compute. reflexivity.
Qed.

(** C4, as the code has it. With the default bounds, every string of the
    result that was not cut (so of at most 300 characters) has at most 3
    special characters in 10: the ratio is tested on the line before it is
    cut. *)
Theorem clean_and_split_text_special_ratio
    (isspace isalnum islower isupper_char istitle : N -> bool) (text : pystr) :
  exists out,
    clean_and_split_text isspace isalnum islower isupper_char istitle text 30 300 = Ok out /\
    Forall (fun s => len s <= 300 ->
                     10 * count_special isspace isalnum s <= 3 * len s) out.
Proof.
  destruct (clean_default_emits isspace isalnum islower isupper_char istitle text)
    as (kept & -> & Hk).
  eexists. split; [reflexivity|].
  apply Forall_map. eapply Forall_impl; [exact Hk|].
  intros line Hkeep. cbn beta. intros Hlen.
  pose proof (emit_length line) as Hemit.
  destruct (Z.ltb_spec 300 (len line)) as [Hcut|Hfit]; [lia|].
  unfold emit in *. destruct (Z.ltb_spec 300 (len line)); [lia|].
  eapply keeps_ratio; [exact Hkeep | exact Hfit].
Qed.

(** C4 as stated fails on a line of 300 '#' followed by 701 letters: its
    ratio is 300/1001, and what is emitted is the 300 '#' and "...". *)
Lemma clean_and_split_text_cut_all_special :
  exists out,
    ascii_clean (repeat 35%N 300 ++ repeat 97%N 701) 30 300 = Ok out /\
    ~ Forall (fun s => 10 * count_special ascii_isspace ascii_isalnum s <= 3 * len s) out.
Proof.
  eexists. split; [vm_compute; reflexivity|].
  intros H. inversion H as [|? ? Hs _]. apply Hs. vm_compute. reflexivity.
Qed.

(** ** generate_mcq_with_ai *)

Lemma same_or_eq_str (v : pyval) (s : pystr) :
  same_or_eq v (PStr s) = true -> v = PStr s.
Proof.
  unfold same_or_eq. rewrite andb_false_r. cbn [orb].
  destruct v; cbn; try discriminate.
  unfold str_eqb. intros H. apply bool_decide_eq_true in H. congruence.
Qed.

Section Generate.
Variable isspace : N -> bool.
Variable json_loads : pystr -> result pyval.
Variable client : Type.
Variable create : client -> request -> result (option pystr) * client.


(** The function never raises; it returns an object exactly when the
    endpoint answered with a text whose content, fence and blanks removed,
    decodes to an object that passes the structure check, and then it
    returns that object. *)
Lemma generate_mcq_with_ai_returns w learning_point temperature m :
  fst (generate_mcq_with_ai isspace json_loads client create
         w learning_point temperature) = Some m <->
  exists content,
    fst (create (endpoint _ w)
           {| req_model := py "gpt-4o-mini";
              req_system := py "You are a helpful quiz generator that outputs only valid JSON.";
              req_user := prompt_head ++ learning_point ++ prompt_tail;
              req_temperature := temperature;
              req_max_tokens := 300 |}) = Ok (Some content) /\
    json_loads (strip isspace (strip_fence (strip isspace content))) = Ok m /\
    is_mcq m.
Proof.
  unfold generate_mcq_with_ai.
  destruct (create _ _) as [response endpoint']. cbn [fst].
  split.
  - intros H.
    destruct response as [[content|]|e]; cbn [mbind result_bind] in H.
    + exists content. split; [reflexivity|].
      destruct (json_loads _) as [mcq|e] eqn:El; cbn [mbind result_bind] in H.
      * destruct (validate mcq) as [[m'|]|e] eqn:Ev; cbn [fst] in H.
        -- injection H as ->. apply validate_accepts in Ev as Hm.
           destruct Hm as (-> & _). split; [reflexivity | exact Ev].
        -- discriminate.
        -- destruct e; discriminate.
      * destruct e; discriminate.
    + discriminate.
    + destruct e; discriminate.
  - intros (content & -> & El & Hm). cbn [mbind result_bind].
    rewrite El. cbn [mbind result_bind]. unfold is_mcq in Hm. rewrite Hm. reflexivity.
Qed.
End Generate.

(** C5, at a response whose "options" is the string "abcd" and whose
    "correct_answer" is "bc": the object is returned, although "bc" is none
    of the four entries "a", "b", "c", "d"; the length check and the
    membership test read the string as a sequence of characters and as a
    text to search. *)
Theorem generate_mcq_with_ai_string_options :
  fst (ascii_generate [Ok (Some substring_doc)] boiling) = Some substring_mcq /\
  getitem substring_mcq (py "options") = Ok (PStr (py "abcd")) /\
  getitem substring_mcq (py "correct_answer") = Ok (PStr (py "bc")) /\
  ~ In (py "bc") [py "a"; py "b"; py "c"; py "d"].
Proof.
  split; [vm_compute; reflexivity|].
  split; [reflexivity|]. split; [reflexivity|].
  intros [H|[H|[H|[H|[]]]]]; discriminate.
Qed.

(** C7, as the code has it. An MCQ whose "options" is a list has exactly
    four options, not necessarily different from one another, and its
    "correct_answer" is equal to one of them; when the options are strings,
    it is one of these strings. *)
Theorem accepted_mcq_options (m : pyval) (options : list pyval) :
  is_mcq m ->
  getitem m (py "options") = Ok (PList options) ->
  length options = 4%nat /\
  exists answer,
    getitem m (py "correct_answer") = Ok answer /\
    (exists o, In o options /\ same_or_eq answer o = true) /\
    (Forall is_str options -> In answer options).
Proof.
  intros Hm Hopt.
  apply validate_accepts in Hm as (_ & d & q & o & a & -> & _ & Eo & Ea & Hlen & Hin).
  cbn [getitem] in *. rewrite Eo in Hopt. injection Hopt as ->.
  cbn [py_len contains] in Hlen, Hin.
  injection Hlen as Hlen. injection Hin as Hin.
  split; [unfold len in Hlen; lia|].
  exists a. rewrite Ea. split; [reflexivity|].
  apply existsb_exists in Hin as (o & Ho & Heq).
  split; [eauto|].
  intros Hstr. rewrite Forall_forall in Hstr. apply list_elem_of_In in Ho as Ho'.
  specialize (Hstr o Ho'). destruct o; try contradiction.
  apply same_or_eq_str in Heq. subst a. exact Ho.
Qed.

Lemma accepted_mcq_options_witness :
  length [PStr (py "A"); PStr (py "B"); PStr (py "C"); PStr (py "D")] = 4%nat /\
  exists answer,
    getitem four_mcq (py "correct_answer") = Ok answer /\
    (exists o, In o [PStr (py "A"); PStr (py "B"); PStr (py "C"); PStr (py "D")] /\
               same_or_eq answer o = true) /\
    (Forall is_str [PStr (py "A"); PStr (py "B"); PStr (py "C"); PStr (py "D")] ->
     In answer [PStr (py "A"); PStr (py "B"); PStr (py "C"); PStr (py "D")]).
Proof.
  apply (accepted_mcq_options four_mcq
           [PStr (py "A"); PStr (py "B"); PStr (py "C"); PStr (py "D")]).
  - reflexivity.
  - reflexivity.
Defined.

(** C7 as stated fails on an object whose options are "A", "A", "B", "C":
    it passes the structure check. *)
Lemma accepted_mcq_repeated_options :
  is_mcq repeated_mcq /\
  getitem repeated_mcq (py "options") = Ok (PList repeated_options) /\
  ~ NoDup repeated_options.
Proof.
  split; [reflexivity|]. split; [reflexivity|].
  intros H. apply NoDup_cons in H as [H _]. apply H. left.
Qed.

(** ** generate_quiz_batch *)

Lemma valid_picks_spec (picks : list nat) (n : nat) (k : Z) :
  valid_picks picks n k = true ->
  NoDup picks /\ Forall (fun i => (i < n)%nat) picks /\ len picks = k.
Proof.
  unfold valid_picks. rewrite !andb_true_iff.
  intros [[H1 H2] H3]. apply bool_decide_eq_true in H1. apply Z.eqb_eq in H3.
  split; [exact H1|]. split; [|exact H3].
  rewrite Forall_forall. intros i Hi.
  rewrite forallb_forall in H2. apply Nat.ltb_lt, H2, list_elem_of_In, Hi.
Qed.

(** The items at positions that exist, in the order of the positions. *)
Lemma omap_lookup_picks {A} (population : list A) (picks : list nat) :
  Forall (fun i => (i < length population)%nat) picks ->
  Forall2 (fun i x => population !! i = Some x) picks
    (omap (fun i => population !! i) picks).
Proof.
  induction 1 as [|i picks Hi _ IH]; [constructor|].
  cbn [omap list_omap]. destruct (lookup_lt_is_Some_2 population i Hi) as (x & Hx).
  rewrite Hx. constructor; assumption.
Qed.

Lemma omap_lookup_length {A} (population : list A) (picks : list nat) :
  (length (omap (fun i => population !! i) picks) <= length picks)%nat.
Proof.
  induction picks as [|i picks IH]; [reflexivity|].
  cbn [omap list_omap]. destruct (population !! i); cbn [length]; lia.
Qed.


Section Batch.
Variable isspace : N -> bool.
Variable json_loads : pystr -> result pyval.
Variable client : Type.
Variable create : client -> request -> result (option pystr) * client.


(** A sample size within [0..len] is accepted. *)
Lemma random_sample_returns {A} (picks : list nat) (population : list A) (k : Z) :
  0 <= k <= len population ->
  random_sample picks population k = Ok (omap (fun i => population !! i) picks).
Proof.
  intros Hk. unfold random_sample.
  destruct (Z.ltb_spec k 0); [lia|].
  destruct (Z.ltb_spec (len population) k); [lia|]. reflexivity.
Qed.

Lemma sample_size_bounds (sentences : list pystr) (num_questions : Z) :
  0 <= num_questions ->
  0 <= sample_size sentences num_questions <= len sentences.
Proof. unfold sample_size, len. lia. Qed.
End Batch.


(** ** random.sample: positions drawn without replacement *)















(** The same two sentences through the branch that keeps a set of the
    positions drawn: the second number gives the position already drawn
    and is passed over. *)
Example generate_quiz_batch_sampling_set_branch :
  exists mcqs w',
    generate_quiz_batch_sampling ascii_isspace decoder _ scripted (fun _ => 0)
      [1%nat; 3%nat; 0%nat] (start [Ok (Some four_doc); Ok (Some repeated_doc)])
      [boiling; freezing] 2 = Some (Ok (mcqs, w')) /\
    asked _ w' = [freezing; boiling].
Proof. eexists _, _. split; [vm_compute; reflexivity | reflexivity]. Qed.


(** C9. For every list of sentences and every count that is not negative,
    the sample size is the minimum of the count and the length of the list;
    it lies within [0..len], so the sampling does not refuse it, the batch
    is built, and on the empty list the batch is empty. *)
Theorem generate_quiz_batch_sample_defined
    (isspace : N -> bool) (json_loads : pystr -> result pyval)
    (client : Type) (create : client -> request -> result (option pystr) * client)
    (picks : list nat) (w : world client) (sentences : list pystr) (num_questions : Z) :
  0 <= num_questions ->
  sample_size sentences num_questions = Z.min num_questions (len sentences) /\
  0 <= sample_size sentences num_questions <= len sentences /\
  returns (random_sample picks sentences (sample_size sentences num_questions)) /\
  returns (generate_quiz_batch isspace json_loads client create
             picks w sentences num_questions) /\
  generate_quiz_batch isspace json_loads client create picks w [] num_questions
    = Ok ([], w).
Proof.
  intros Hn. split; [reflexivity|].
  pose proof (sample_size_bounds sentences num_questions Hn) as Hk.
  split; [exact Hk|].
  split; [rewrite random_sample_returns by exact Hk; eexists; reflexivity|].
  split.
  - unfold generate_quiz_batch. rewrite random_sample_returns by exact Hk.
    eexists. reflexivity.
  - unfold generate_quiz_batch.
    rewrite random_sample_returns by (apply sample_size_bounds; exact Hn).
    cbn [mbind result_bind].
    replace (omap (fun i => ([] : list pystr) !! i) picks) with ([] : list pystr).
    + reflexivity.
    + induction picks as [|i picks IH]; [reflexivity|]. cbn [omap list_omap].
      rewrite lookup_nil. exact IH.
Qed.

Lemma generate_quiz_batch_sample_defined_witness :
  sample_size [boiling] 5 = Z.min 5 (len [boiling]) /\
  0 <= sample_size [boiling] 5 <= len [boiling] /\
  returns (random_sample [0%nat] [boiling] (sample_size [boiling] 5)) /\
  returns (ascii_batch [0%nat] [Ok (Some four_doc)] [boiling] 5) /\
  ascii_batch [0%nat] [Ok (Some four_doc)] [] 5 = Ok ([], start [Ok (Some four_doc)]).
Proof.
  apply (generate_quiz_batch_sample_defined ascii_isspace decoder _ scripted
           [0%nat] (start [Ok (Some four_doc)]) [boiling] 5).
  lia.
Defined.

(** ** The two counterexamples with the classes of any Unicode database *)

Section AnyClasses.
Variables isspace isalnum islower isupper_char istitle : N -> bool.

Local Abbreviation as_ascii :=
  (same_classes isspace isalnum islower isupper_char istitle
     ascii_isspace ascii_isalnum ascii_islower ascii_isupper ascii_istitle).

(** Classes that are the ASCII ones on 'a', '.' and the line feed cut the
    line of 301 letters to 303 characters. *)
Lemma clean_and_split_text_length_303_any :
  as_ascii 97%N -> as_ascii 46%N -> as_ascii 10%N ->
  exists out,
    clean_and_split_text isspace isalnum islower isupper_char istitle
      (repeat 97%N 301) 30 300 = Ok out /\
    ~ Forall (fun s => 30 <= len s <= 300) out.
Proof.
  intros Ha Hdot Hnl.
  rewrite (clean_and_split_text_ext _ _ _ _ _ ascii_isspace ascii_isalnum ascii_islower
             ascii_isupper ascii_istitle); try assumption.
  - eexists. split; [vm_compute; reflexivity|].
    intros H. inversion H as [|? ? [_ Hs] _]. apply Hs. vm_compute. reflexivity.
  - apply Forall_forall. intros c Hc. apply list_elem_of_In, repeat_spec in Hc.
    subst c. exact Ha.
Qed.

(** Classes that are the ASCII ones on '#', 'a', '.' and the line feed emit
    the 300 '#' and the ellipsis, all of them special characters. *)
Lemma clean_and_split_text_cut_all_special_any :
  as_ascii 35%N -> as_ascii 97%N -> as_ascii 46%N -> as_ascii 10%N ->
  exists out,
    clean_and_split_text isspace isalnum islower isupper_char istitle
      (repeat 35%N 300 ++ repeat 97%N 701) 30 300 = Ok out /\
    ~ Forall (fun s => 10 * count_special isspace isalnum s <= 3 * len s) out.
Proof.
  intros Hh Ha Hdot Hnl.
  rewrite (clean_and_split_text_ext _ _ _ _ _ ascii_isspace ascii_isalnum ascii_islower
             ascii_isupper ascii_istitle); try assumption.
  - exists [repeat 35%N 300 ++ py "..."]. split; [vm_compute; reflexivity|].
    intros H. apply Forall_inv in H as Hs.
    rewrite (count_special_ext isspace isalnum islower isupper_char istitle
               ascii_isspace ascii_isalnum ascii_islower ascii_isupper ascii_istitle) in Hs.
    + apply Hs. vm_compute. reflexivity.
    + apply Forall_app. split.
      * apply Forall_forall. intros c Hc. apply list_elem_of_In, repeat_spec in Hc.
        subst c. exact Hh.
      * repeat (constructor; [exact Hdot|]). constructor.
  - apply Forall_app. split; apply Forall_forall; intros c Hc;
      apply list_elem_of_In, repeat_spec in Hc; subst c; assumption.
Qed.
End AnyClasses.

(** ** binary64: the percentage is at most 100 *)

Lemma iter_pos_nat {A} (f : A -> A) (p : positive) : forall x,
  SpecFloat.iter_pos f p x = Nat.iter (Pos.to_nat p) f x.
Proof.
  induction p as [p IH|p IH|]; intros x; cbn [SpecFloat.iter_pos].
  - rewrite !IH, Pos2Nat.inj_xI.
    replace (S (2 * Pos.to_nat p)) with (Pos.to_nat p + S (Pos.to_nat p))%nat by lia.
    rewrite Nat.iter_add, Nat.iter_succ_r. reflexivity.
  - rewrite !IH, Pos2Nat.inj_xO.
    replace (2 * Pos.to_nat p)%nat with (Pos.to_nat p + Pos.to_nat p)%nat by lia.
    rewrite Nat.iter_add. reflexivity.
  - reflexivity.
Qed.

(** One shift to the right: the mantissa is halved, the bit that leaves
    becomes the round bit, and the sticky bit keeps what left before. *)
Lemma shr_1_flags r :
  0 <= shr_m r ->
  shr_r (shr_1 r) = Z.odd (shr_m r) /\ shr_s (shr_1 r) = shr_r r || shr_s r.
Proof.
  destruct r as [m b s]. cbn [shr_m]. intros H.
  destruct m as [|p|p]; try lia; [split; reflexivity|].
  destruct p; split; reflexivity.
Qed.

Lemma odd_div_not_divide (m : Z) (k : nat) :
  0 <= m -> Z.odd (m / 2 ^ Z.of_nat k) = true -> ~ (2 ^ Z.of_nat (S k) | m).
Proof.
  intros Hm Hodd [q Hq].
  rewrite Nat2Z.inj_succ, Z.pow_succ_r in Hq by lia.
  assert (Hp : 0 < 2 ^ Z.of_nat k) by (apply Z.pow_pos_nonneg; lia).
  replace (m / 2 ^ Z.of_nat k) with (2 * q) in Hodd.
  - rewrite Z.odd_mul in Hodd. discriminate.
  - subst m. replace (q * (2 * 2 ^ Z.of_nat k)) with (2 * q * 2 ^ Z.of_nat k) by lia.
    rewrite Z.div_mul by lia. reflexivity.
Qed.

(** [k] shifts: the mantissa is divided by [2^k]; a round or sticky bit is
    set only if one was set before or the division is not exact. *)
Lemma shr_iter k : forall r,
  0 <= shr_m r ->
  shr_m (Nat.iter k shr_1 r) = shr_m r / 2 ^ Z.of_nat k /\
  (shr_r (Nat.iter k shr_1 r) || shr_s (Nat.iter k shr_1 r) = true ->
   shr_r r || shr_s r = true \/ ~ (2 ^ Z.of_nat k | shr_m r)).
Proof.
  induction k as [|k IH]; intros r Hr.
  - change (Nat.iter 0 shr_1 r) with r. change (2 ^ Z.of_nat 0) with 1.
    rewrite Z.div_1_r. auto.
  - rewrite Nat.iter_succ. destruct (IH r Hr) as [IHm IHf].
    assert (Hk : 0 <= shr_m (Nat.iter k shr_1 r)).
    { rewrite IHm. apply Z.div_pos; [lia | apply Z.pow_pos_nonneg; lia]. }
    destruct (shr_1_flags _ Hk) as [Er Es].
    rewrite shr_1_m by exact Hk. rewrite Er, Es, IHm. split.
    + rewrite Z.div2_div, Z.div_div by (try apply Z.pow_pos_nonneg; lia).
      rewrite Nat2Z.inj_succ, Z.pow_succ_r by lia. f_equal. lia.
    + intros H. apply orb_true_iff in H as [H|H].
      * right. apply odd_div_not_divide; assumption.
      * destruct (IHf H) as [?|Hn]; [left; assumption|].
        right. intros [q Hq]. apply Hn. exists (2 * q).
        rewrite Hq, Nat2Z.inj_succ, Z.pow_succ_r by lia. lia.
Qed.

Lemma shr_record_of_loc_flags m l :
  shr_r (shr_record_of_loc m l) || shr_s (shr_record_of_loc m l) = true ->
  l <> loc_Exact.
Proof. destruct l as [|[]]; cbn; congruence. Qed.

(** What [shr_fexp] returns, by the number [n] of shifts. *)
Lemma shr_fexp_spec m e l :
  0 <= m ->
  exists n : nat,
    snd (shr_fexp 53 1024 m e l) = e + Z.of_nat n /\
    snd (shr_fexp 53 1024 m e l) = Z.max e (fexp 53 1024 (Zdigits2 m + e)) /\
    shr_m (fst (shr_fexp 53 1024 m e l)) = m / 2 ^ Z.of_nat n /\
    (shr_r (fst (shr_fexp 53 1024 m e l)) || shr_s (fst (shr_fexp 53 1024 m e l)) = true ->
     l <> loc_Exact \/ ~ (2 ^ Z.of_nat n | m)).
Proof.
  intros Hm. unfold shr_fexp, shr.
  set (d := fexp 53 1024 (Zdigits2 m + e)).
  destruct (d - e) as [|p|p] eqn:E; cbn [fst snd].
  - exists O. rewrite shr_record_of_loc_m. change (2 ^ Z.of_nat 0) with 1.
    rewrite Z.div_1_r. repeat split; [lia | lia |].
    intros H. left. eapply shr_record_of_loc_flags, H.
  - exists (Pos.to_nat p). rewrite iter_pos_nat.
    destruct (shr_iter (Pos.to_nat p) (shr_record_of_loc m l)) as [Em Ef];
      [rewrite shr_record_of_loc_m; exact Hm|].
    rewrite shr_record_of_loc_m in Em, Ef. pose proof (positive_nat_Z p) as Hp.
    repeat split; [lia | lia | exact Em |].
    intros H. destruct (Ef H) as [H'|H']; [left; eapply shr_record_of_loc_flags, H' | right].
    exact H'.
  - exists O. rewrite shr_record_of_loc_m. change (2 ^ Z.of_nat 0) with 1.
    rewrite Z.div_1_r. repeat split; [lia | lia |].
    intros H. left. eapply shr_record_of_loc_flags, H.
Qed.

Lemma round_nearest_even_up m r :
  round_nearest_even m (loc_of_shr_record r) <> m -> shr_r r || shr_s r = true.
Proof. destruct r as [m' [|] [|]]; cbn; congruence. Qed.

Lemma round_nearest_even_cases m l :
  round_nearest_even m l = m \/ round_nearest_even m l = m + 1.
Proof. destruct l as [|[]]; cbn; try destruct (Z.even m); auto. Qed.

(** A value of at most [K * 2^j], with [K] below [2^53], has its rounding
    exponent at most [j].  Values are compared after scaling by [2^1200]. *)
Lemma value_exponent_bound m e K j :
  0 <= m -> -1200 <= e <= j -> -1074 <= j -> 0 < K < 2 ^ 53 ->
  m * 2 ^ (e + 1200) <= K * 2 ^ (j + 1200) ->
  Z.max e (fexp 53 1024 (Zdigits2 m + e)) <= j.
Proof.
  intros Hm He Hj HK Hv. unfold fexp, emin.
  destruct (Z.eq_dec m 0) as [->|Hne]; [change (Zdigits2 0) with 0; lia|].
  rewrite Zdigits2_log2 by lia.
  destruct (Z_lt_le_dec (j + 52) (Z.log2 m + e)) as [Hbig|]; [exfalso | lia].
  pose proof (Z.log2_spec m ltac:(lia)) as [Hlo _].
  assert (H1 : 2 ^ (j + 53 + 1200) <= 2 ^ (Z.log2 m + (e + 1200))).
  { apply Z.pow_le_mono_r; lia. }
  pose proof (Z.log2_nonneg m).
  rewrite (Z.pow_add_r 2 (Z.log2 m) (e + 1200)) in H1 by lia.
  assert (H2 : 2 ^ (j + 53 + 1200) = 2 ^ 53 * 2 ^ (j + 1200)).
  { rewrite <- Z.pow_add_r by lia. f_equal. lia. }
  rewrite H2 in H1. clear H2.
  assert (Hp : 0 < 2 ^ (j + 1200)) by (apply Z.pow_pos_nonneg; lia).
  assert (Hq : 0 < 2 ^ (e + 1200)) by (apply Z.pow_pos_nonneg; lia).
  nia.
Qed.

Lemma binary_round_aux_le sx mx ex lx K j :
  0 <= mx -> -1200 <= ex <= j -> -1074 <= j <= 971 -> 0 < K < 2 ^ 53 ->
  (mx + match lx with loc_Exact => 0 | _ => 1 end) * 2 ^ (ex + 1200) <= K * 2 ^ (j + 1200) ->
  match binary_round_aux 53 1024 sx mx ex lx with
  | S754_zero _ => True
  | S754_finite s m e =>
      s = sx /\ ex <= e <= j /\ Zpos m * 2 ^ (e + 1200) <= K * 2 ^ (j + 1200)
  | _ => False
  end.
Proof.
  intros Hmx Hex Hj HK Hv. unfold binary_round_aux.
  assert (Hpx : 0 < 2 ^ (ex + 1200)) by (apply Z.pow_pos_nonneg; lia).
  assert (Hv0 : mx * 2 ^ (ex + 1200) <= K * 2 ^ (j + 1200)).
  { destruct lx; nia. }
  destruct (shr_fexp_spec mx ex lx Hmx) as (n & Hsnd & Hmax & Hm1 & Hflag).
  pose proof (value_exponent_bound mx ex K j Hmx Hex ltac:(lia) HK Hv0) as He1.
  destruct (shr_fexp 53 1024 mx ex lx) as [mrs' e1]. cbn [fst snd] in *.
  rewrite <- Hmax in He1. clear Hmax.
  set (b := K * 2 ^ (j - e1)).
  assert (Hpn : 0 < 2 ^ Z.of_nat n) by (apply Z.pow_pos_nonneg; lia).
  assert (HB : K * 2 ^ (j + 1200) = b * 2 ^ Z.of_nat n * 2 ^ (ex + 1200)).
  { subst b. rewrite <- !Z.mul_assoc, <- !Z.pow_add_r by lia. do 2 f_equal. lia. }
  assert (Hb : mx + match lx with loc_Exact => 0 | _ => 1 end <= b * 2 ^ Z.of_nat n).
  { rewrite HB in Hv. apply Z.mul_le_mono_pos_r in Hv; assumption. }
  set (m1' := round_nearest_even (shr_m mrs') (loc_of_shr_record mrs')).
  assert (H1 : 0 <= m1' <= b).
  { assert (Hm1lo : 0 <= shr_m mrs') by (rewrite Hm1; apply Z.div_pos; lia).
    assert (Hm1le : shr_m mrs' <= b).
    { rewrite Hm1. apply Z.div_le_upper_bound; [lia|]. destruct lx; lia. }
    destruct (Z.eq_dec m1' (shr_m mrs')) as [E|E]; [lia|].
    destruct (round_nearest_even_cases (shr_m mrs') (loc_of_shr_record mrs')) as [E'|E'];
      [contradiction|].
    fold m1' in E'. split; [lia|].
    assert (Hlt : mx < b * 2 ^ Z.of_nat n).
    { destruct (Hflag (round_nearest_even_up _ _ E)) as [Hl|Hd].
      - destruct lx; [contradiction | lia].
      - destruct (Z.eq_dec mx (b * 2 ^ Z.of_nat n)) as [Eq|]; [|destruct lx; lia].
        exfalso. apply Hd. exists b. exact Eq. }
    assert (shr_m mrs' < b); [|lia].
    rewrite Hm1. apply Z.div_lt_upper_bound; lia. }
  assert (Hv1 : m1' * 2 ^ (e1 + 1200) <= K * 2 ^ (j + 1200)).
  { rewrite HB. replace (e1 + 1200) with (Z.of_nat n + (ex + 1200)) by lia.
    rewrite Z.pow_add_r by lia. nia. }
  destruct (shr_fexp_spec m1' e1 loc_Exact ltac:(lia)) as (n2 & Hsnd2 & Hmax2 & Hm2 & _).
  pose proof (value_exponent_bound m1' e1 K j ltac:(lia) ltac:(lia) ltac:(lia) HK Hv1) as He2.
  destruct (shr_fexp 53 1024 m1' e1 loc_Exact) as [mrs'' e2]. cbn [fst snd] in *.
  rewrite <- Hmax2 in He2. clear Hmax2.
  assert (Hpn2 : 0 < 2 ^ Z.of_nat n2) by (apply Z.pow_pos_nonneg; lia).
  assert (Hv2 : shr_m mrs'' * 2 ^ (e2 + 1200) <= K * 2 ^ (j + 1200)).
  { etransitivity; [|exact Hv1]. rewrite Hm2.
    replace (e2 + 1200) with (Z.of_nat n2 + (e1 + 1200)) by lia.
    rewrite Z.pow_add_r, Z.mul_assoc by lia.
    apply Z.mul_le_mono_nonneg_r; [apply Z.pow_nonneg; lia|].
    rewrite Z.mul_comm. apply Z.mul_div_le. lia. }
  assert (Hm2lo : 0 <= shr_m mrs'') by (rewrite Hm2; apply Z.div_pos; lia).
  destruct (shr_m mrs'') as [|m|m]; [exact I| |lia].
  change (1024 - 53) with 971. destruct (Z.leb_spec e2 971); [|lia].
  split; [reflexivity|]. split; [lia | exact Hv2].
Qed.

Lemma div_eucl_pair a b : Z.div_eucl a b = (a / b, a mod b).
Proof. unfold Z.div, Z.modulo. destruct (Z.div_eucl a b). reflexivity. Qed.

(** A count divided by itself is the float 1. *)
Lemma int_truediv_same t :
  0 < t -> int_truediv t t = Ok (S754_finite false 4503599627370496 (-52)).
Proof.
  intros Ht. unfold int_truediv. destruct (Z.eqb_spec t 0); [lia|].
  destruct t as [|t|t]; try lia. cbn [exact_int SFdiv]. f_equal.
  unfold SFdiv_core_binary.
  replace (Zdigits2 (Z.pos t) + 0 - (Zdigits2 (Z.pos t) + 0)) with 0 by lia.
  change (Z.min (fexp 53 1024 0) (0 - 0)) with (-53).
  change (0 - 0 - -53) with 53. cbv iota.
  rewrite Z.shiftl_mul_pow2, div_eucl_pair by lia.
  rewrite (Z.mul_comm (Z.pos t) (2 ^ 53)), Z.div_mul, Z.mod_mul by lia.
  replace (new_location (Z.pos t) 0) with loc_Exact.
  - vm_compute. reflexivity.
  - unfold new_location, new_location_even, new_location_odd.
    destruct (Z.even (Z.pos t)); reflexivity.
Qed.

(** A count divided by a larger one is a float of at most 1. *)
Lemma int_truediv_at_most_one c t :
  0 <= c <= t -> 0 < t ->
  exists ratio,
    int_truediv c t = Ok ratio /\
    match ratio with
    | S754_zero _ => True
    | S754_finite s m e =>
        s = false /\ -1100 <= e <= 0 /\ Zpos m * 2 ^ (e + 1200) <= 1 * 2 ^ (0 + 1200)
    | _ => False
    end.
Proof.
  intros Hc Ht.
  destruct (Z.eq_dec c t) as [->|Hne].
  { rewrite int_truediv_same by exact Ht. eexists. split; [reflexivity|].
    split; [reflexivity|]. split; [lia|]. vm_compute. discriminate. }
  unfold int_truediv. destruct (Z.eqb_spec t 0); [lia|].
  eexists. split; [reflexivity|].
  destruct t as [|t|t]; try lia. destruct c as [|c|c]; try lia; [exact I|].
  cbn [exact_int SFdiv].
  pose proof (div_core_bound c t ltac:(lia)) as (B1 & B2 & _).
  assert (Hq : (fst (fst (SFdiv_core_binary 53 1024 (Z.pos c) 0 (Z.pos t) 0)) + 1)
               * 2 ^ (snd (fst (SFdiv_core_binary 53 1024 (Z.pos c) 0 (Z.pos t) 0)) + 1200)
               <= 1 * 2 ^ (0 + 1200) /\
               -1100 <= snd (fst (SFdiv_core_binary 53 1024 (Z.pos c) 0 (Z.pos t) 0))).
  { clear B1 B2. unfold SFdiv_core_binary.
    set (e' := Z.min _ (0 - 0)).
    assert (He : -1074 <= e' <= 0) by (subst e'; unfold fexp, emin; lia).
    set (m' := match 0 - 0 - e' with Z0 => Zpos c | Zpos _ => Z.shiftl (Zpos c) (0 - 0 - e')
                                | Zneg _ => 0 end).
    assert (Hm : m' = Zpos c * 2 ^ (- e')).
    { subst m'. replace (0 - 0 - e') with (- e') by lia.
      destruct (- e') as [|p|p] eqn:E; [simpl; lia| |lia].
      rewrite Z.shiftl_mul_pow2 by lia. reflexivity. }
    clearbody m' e'. rewrite div_eucl_pair. cbn [fst snd].
    assert (Hp : 0 < 2 ^ (- e')) by (apply Z.pow_pos_nonneg; lia).
    assert (Hlt : m' / Z.pos t < 2 ^ (- e')).
    { apply Z.div_lt_upper_bound; [lia|]. rewrite Hm. nia. }
    split; [|lia].
    replace (0 + 1200) with (- e' + (e' + 1200)) by lia.
    rewrite (Z.pow_add_r 2 (- e') (e' + 1200)) by lia.
    assert (0 < 2 ^ (e' + 1200)) by (apply Z.pow_pos_nonneg; lia). nia. }
  destruct Hq as [Hq Hlo].
  destruct (SFdiv_core_binary 53 1024 (Zpos c) 0 (Zpos t) 0) as [[q e'] l].
  cbn [fst snd] in *.
  assert (Hq' : (q + match l with loc_Exact => 0 | _ => 1 end) * 2 ^ (e' + 1200)
                <= 1 * 2 ^ (0 + 1200)).
  { etransitivity; [|exact Hq]. apply Z.mul_le_mono_nonneg_r; [apply Z.pow_nonneg; lia|].
    destruct l; lia. }
  pose proof (binary_round_aux_le (xorb false false) q e' l 1 0 B1 ltac:(lia) ltac:(lia)
                ltac:(lia) Hq') as HR.
  destruct (binary_round_aux 53 1024 (xorb false false) q e' l); try contradiction; [exact I|].
  destruct HR as (-> & He & Hv). repeat split; lia.
Qed.

Lemma int_of_float_bound s m e K :
  0 <= K -> -1200 <= e -> Zpos m * 2 ^ (e + 1200) <= K * 2 ^ 1200 ->
  exists p, int_of_float (S754_finite s m e) = Ok p /\ Z.abs p <= K.
Proof.
  intros HK He Hv. cbn [int_of_float]. eexists. split; [reflexivity|].
  assert (Ha : 0 <= (if 0 <=? e then Z.shiftl (Z.pos m) e else Z.shiftr (Z.pos m) (- e)) <= K).
  { destruct (Z.leb_spec 0 e).
    - rewrite Z.shiftl_mul_pow2 by lia. rewrite Z.pow_add_r, Z.mul_assoc in Hv by lia.
      apply Z.mul_le_mono_pos_r in Hv; [|apply Z.pow_pos_nonneg; lia].
      assert (0 < 2 ^ e) by (apply Z.pow_pos_nonneg; lia). nia.
    - rewrite Z.shiftr_div_pow2 by lia.
      assert (Hp : 0 < 2 ^ (- e)) by (apply Z.pow_pos_nonneg; lia).
      split; [apply Z.div_pos; lia|].
      apply Z.div_le_upper_bound; [lia|].
      assert (E : 2 ^ 1200 = 2 ^ (- e) * 2 ^ (e + 1200)).
      { rewrite <- Z.pow_add_r by lia. f_equal. lia. }
      rewrite E, Z.mul_assoc in Hv.
      apply Z.mul_le_mono_pos_r in Hv; [lia | apply Z.pow_pos_nonneg; lia]. }
  destruct s; lia.
Qed.

(** The float percentage of a count within [0..total] lies in [0..100]. *)
Lemma percent_of_bounds c t :
  0 <= c <= t -> 0 < t -> exists p, percent_of c t = Ok p /\ 0 <= p <= 100.
Proof.
  intros Hc Ht. unfold percent_of.
  destruct (int_truediv_at_most_one c t Hc Ht) as (ratio & -> & Hr).
  cbn [mbind result_bind]. unfold float_mul_int.
  change (float_of_int 100) with (S754_finite false 7036874417766400 (-46)).
  destruct ratio as [s|s| |s m e]; try contradiction.
  - exists 0. split; [reflexivity | lia].
  - destruct Hr as (-> & He & Hv). cbn [SFmul].
    assert (Hv' : (Z.pos (m * 7036874417766400) + 0) * 2 ^ (e + -46 + 1200)
                  <= 25 * 2 ^ (2 + 1200)).
    { rewrite Z.add_0_r, Pos2Z.inj_mul.
      change (Z.pos 7036874417766400) with (25 * 2 ^ 48).
      replace (2 + 1200) with (2 + (0 + 1200)) by lia.
      rewrite (Z.pow_add_r 2 2 (0 + 1200)) by lia.
      replace (e + -46 + 1200) with (e + 1200 - 46) by lia.
      assert (Hs : 2 ^ (e + 1200) = 2 ^ 46 * 2 ^ (e + 1200 - 46)).
      { rewrite <- Z.pow_add_r by lia. f_equal. lia. }
      assert (0 < 2 ^ (e + 1200 - 46)) by (apply Z.pow_pos_nonneg; lia).
      rewrite Hs in Hv. change (2 ^ 48) with (4 * 2 ^ 46). change (2 ^ 2) with 4.
      change (2 ^ 46) with 70368744177664 in *. nia. }
    pose proof (binary_round_aux_le (xorb false false) (Z.pos (m * 7036874417766400))
                  (e + -46) loc_Exact 25 2 ltac:(lia) ltac:(lia) ltac:(lia) ltac:(lia) Hv')
      as HR.
    destruct (binary_round_aux 53 1024 (xorb false false) _ (e + -46) loc_Exact)
      as [s'|s'| |s' m' e']; try contradiction.
    + exists 0. split; [reflexivity | lia].
    + destruct HR as (-> & He' & Hm').
      destruct (int_of_float_bound (xorb false false) m' e' 100 ltac:(lia) ltac:(lia))
        as (p & Hp & Hb).
      * replace (100 * 2 ^ 1200) with (25 * 2 ^ (2 + 1200)); [exact Hm'|].
        rewrite Z.pow_add_r by lia. change (2 ^ 2) with 4. lia.
      * exists p. split; [exact Hp|]. cbn [int_of_float xorb] in Hp. injection Hp as <-.
        destruct (0 <=? e'); split; try lia.
        -- apply Z.shiftl_nonneg. lia.
        -- apply Z.shiftr_nonneg. lia.
Qed.

(** A full count gives 100. *)
Lemma percent_of_full t : 0 < t -> percent_of t t = Ok 100.
Proof.
  intros Ht. unfold percent_of. rewrite int_truediv_same by exact Ht.
  vm_compute. reflexivity.
Qed.

(** ** calculate_score: the review list and the percentage *)

Section Review.
Variable user_answers : gmap nat pyval.

(** One pass of the loop on an object that has the keys, spelled out. *)
Lemma judge_dict (i : nat) (d : list (pystr * pyval)) (q : wrong_question) :
  judge i (PDict d) user_answers = Ok (Some q) <->
  exists answer text,
    dict_get d (py "correct_answer") = Some answer /\
    dict_get d (py "question") = Some text /\
    py_eq (default PNone (user_answers !! i)) answer = false /\
    q = {| question_num := Z.of_nat i + 1;
           question := text;
           user_answer := if truthy (default PNone (user_answers !! i))
                          then default PNone (user_answers !! i)
                          else PStr (py "Not answered");
           correct_answer := answer;
           explanation := default (PStr (py "N/A")) (dict_get d (py "explanation")) |}.
Proof.
  unfold judge. cbn [getitem get_default]. split.
  - intros H.
    destruct (dict_get d (py "correct_answer")) as [answer|]; [|discriminate].
    cbn [mbind result_bind] in H.
    destruct (py_eq _ answer) eqn:E; [discriminate|].
    destruct (dict_get d (py "question")) as [text|]; [|discriminate].
    cbn [mbind result_bind] in H. injection H as <-.
    exists answer, text. repeat split; assumption.
  - intros (answer & text & -> & -> & E & ->). cbn [mbind result_bind].
    rewrite E. destruct (dict_get d (py "explanation")); reflexivity.
Qed.

(** The loop, by what it appends: one entry per question answered wrongly,
    in the order of the questions. *)
Lemma score_loop_spec mcqs : forall i c w c' w',
  score_loop i mcqs user_answers c w = Ok (c', w') ->
  exists extra,
    w' = w ++ extra /\
    c' + len extra = c + len mcqs /\
    StronglySorted Z.lt (map question_num extra) /\
    Forall (fun q => Z.of_nat i + 1 <= question_num q <= Z.of_nat i + len mcqs) extra /\
    (forall q, In q extra <->
               exists k m, mcqs !! k = Some m /\
                           judge (i + k) m user_answers = Ok (Some q)).
Proof.
  induction mcqs as [|m rest IH]; intros i c w c' w' H.
  - injection H as <- <-. exists []. rewrite app_nil_r. unfold len. cbn [length map].
    repeat split; try lia; try constructor.
    + intros [].
    + intros (k & m & Hk & _). discriminate.
  - rewrite score_loop_step in H. apply bind_ok in H as (r & Hr & H).
    assert (Hnum : forall q, r = Some q -> question_num q = Z.of_nat i + 1).
    { intros q ->. unfold judge in Hr.
      apply bind_ok in Hr as (a & _ & Hr). destruct (py_eq _ a); [discriminate|].
      apply bind_ok in Hr as (t & _ & Hr). apply bind_ok in Hr as (e & _ & Hr).
      injection Hr as <-. reflexivity. }
    assert (Hmem : forall (extra : list wrong_question) q,
               (In q extra <-> exists k m', rest !! k = Some m' /\
                                 judge (S i + k) m' user_answers = Ok (Some q)) ->
               (In q (match r with Some q0 => q0 :: extra | None => extra end) <->
                exists k m', (m :: rest) !! k = Some m' /\
                             judge (i + k) m' user_answers = Ok (Some q))).
    { intros extra q Hx. split.
      - intros Hin.
        assert (Hcase : r = Some q \/ In q extra).
        { destruct r as [q0|]; [destruct Hin as [->|?]|]; auto. }
        destruct Hcase as [->|Hin'].
        + exists 0%nat, m. rewrite Nat.add_0_r. auto.
        + apply Hx in Hin' as (k & m' & Hk & Hj). exists (S k), m'.
          replace (i + S k)%nat with (S i + k)%nat by lia. auto.
      - intros (k & m' & Hk & Hj). destruct k as [|k].
        + injection Hk as <-. rewrite Nat.add_0_r, Hr in Hj. injection Hj as ->. left.
          reflexivity.
        + cbn in Hk. replace (i + S k)%nat with (S i + k)%nat in Hj by lia.
          assert (In q extra) by (apply Hx; eauto).
          destruct r; [right|]; assumption. }
    unfold len in *. cbn [length].
    destruct r as [q0|]; apply IH in H as (extra & -> & Hc & Hs & Hb & Hx).
    + exists (q0 :: extra). rewrite <- app_assoc. split; [reflexivity|].
      cbn [length map]. split; [lia|]. split; [|split].
      * constructor; [exact Hs|]. rewrite Forall_map.
        eapply Forall_impl; [exact Hb|]. cbn beta. intros q Hq.
        rewrite (Hnum q0 eq_refl). lia.
      * constructor; [rewrite (Hnum q0 eq_refl); lia|].
        eapply Forall_impl; [exact Hb|]. cbn beta. intros q Hq. lia.
      * intros q. apply (Hmem extra q). apply Hx.
    + exists extra. split; [reflexivity|]. split; [lia|]. split; [exact Hs|]. split.
      * eapply Forall_impl; [exact Hb|]. cbn beta. intros q Hq. lia.
      * intros q. apply (Hmem extra q). apply Hx.
Qed.

(** The loop reads the answers of the questions it visits, and nothing
    else of the mapping. *)
Lemma score_loop_ext (other : gmap nat pyval) mcqs : forall i c w,
  (forall k, (k < length mcqs)%nat ->
             default PNone (user_answers !! (i + k)%nat) = default PNone (other !! (i + k)%nat)) ->
  score_loop i mcqs user_answers c w = score_loop i mcqs other c w.
Proof.
  induction mcqs as [|m rest IH]; intros i c w H; [reflexivity|].
  cbn [score_loop]. pose proof (H 0%nat ltac:(cbn; lia)) as H0.
  rewrite Nat.add_0_r in H0. rewrite H0.
  assert (Hrest : forall c' w', score_loop (S i) rest user_answers c' w'
                               = score_loop (S i) rest other c' w').
  { intros c' w'. apply IH. intros k Hk.
    replace (S i + k)%nat with (i + S k)%nat by lia. apply H. cbn. lia. }
  destruct (getitem m (py "correct_answer")) as [a|]; [|reflexivity].
  cbn [mbind result_bind]. rewrite !Hrest.
  destruct (py_eq _ a); [reflexivity|].
  destruct (getitem m (py "question")); [|reflexivity]. cbn [mbind result_bind].
  destruct (get_default m _ _); [|reflexivity]. cbn [mbind result_bind].
  apply Hrest.
Qed.

(** When every question is answered with its right answer the loop counts
    them all and records nothing. *)
Lemma score_loop_all_right mcqs : forall i c w,
  (forall k m, mcqs !! k = Some m ->
     exists answer, getitem m (py "correct_answer") = Ok answer /\
                    py_eq (default PNone (user_answers !! (i + k)%nat)) answer = true) ->
  score_loop i mcqs user_answers c w = Ok (c + len mcqs, w).
Proof.
  induction mcqs as [|m rest IH]; intros i c w H.
  - cbn [score_loop]. unfold len. cbn [length]. do 2 f_equal. lia.
  - cbn [score_loop]. destruct (H 0%nat m eq_refl) as (a & -> & E).
    rewrite Nat.add_0_r in E. cbn [mbind result_bind]. rewrite E.
    rewrite IH.
    + unfold len. cbn [length]. do 2 f_equal. lia.
    + intros k m' Hk. replace (S i + k)%nat with (i + S k)%nat by lia.
      apply (H (S k) m'). exact Hk.
Qed.
End Review.

(** X1. The review list holds exactly the questions whose answer is not
    equal to the right one: for each of them its number (from 1), its text,
    the answer given (or "Not answered" when that is falsy), the right
    answer and the explanation (or "N/A"). *)
Theorem calculate_score_review_list (mcqs : list pyval) (user_answers : gmap nat pyval) :
  Forall is_mcq mcqs ->
  exists r,
    calculate_score mcqs user_answers = Ok r /\
    forall q,
      In q (wrong_questions r) <->
      exists (i : nat) d answer text,
        mcqs !! i = Some (PDict d) /\
        dict_get d (py "correct_answer") = Some answer /\
        dict_get d (py "question") = Some text /\
        py_eq (default PNone (user_answers !! i)) answer = false /\
        q = {| question_num := Z.of_nat i + 1;
               question := text;
               user_answer := if truthy (default PNone (user_answers !! i))
                              then default PNone (user_answers !! i)
                              else PStr (py "Not answered");
               correct_answer := answer;
               explanation := default (PStr (py "N/A")) (dict_get d (py "explanation")) |}.
Proof.
  intros Hall.
  destruct (calculate_score_report user_answers mcqs Hall)
    as (r & c & p & Hr & Hloop & _).
  exists r. split; [exact Hr|]. intros q.
  apply score_loop_spec in Hloop as (extra & Hw & _ & _ & _ & Hmem).
  cbn [app] in Hw. rewrite Hw, Hmem. split.
  - intros (k & m & Hk & Hj).
    destruct (is_mcq_keys m (Forall_lookup_1 _ _ _ _ Hall Hk)) as (d & _ & _ & -> & _).
    apply judge_dict in Hj as (answer & text & ? & ? & ? & ?).
    exists k, d, answer, text. auto.
  - intros (i & d & answer & text & Hi & Ha & Ht & He & Hq).
    exists i, (PDict d). split; [exact Hi|]. apply judge_dict. eauto 10.
Qed.

Lemma calculate_score_review_list_witness :
  exists r,
    calculate_score quiz_2 answers_2 = Ok r /\
    forall q,
      In q (wrong_questions r) <->
      exists (i : nat) d answer text,
        quiz_2 !! i = Some (PDict d) /\
        dict_get d (py "correct_answer") = Some answer /\
        dict_get d (py "question") = Some text /\
        py_eq (default PNone (answers_2 !! i)) answer = false /\
        q = {| question_num := Z.of_nat i + 1;
               question := text;
               user_answer := if truthy (default PNone (answers_2 !! i))
                              then default PNone (answers_2 !! i)
                              else PStr (py "Not answered");
               correct_answer := answer;
               explanation := default (PStr (py "N/A")) (dict_get d (py "explanation")) |}.
Proof.
  apply (calculate_score_review_list quiz_2 answers_2). repeat constructor.
Defined.

(** X2. The review list is in the order of the quiz: its question numbers
    increase strictly and lie between 1 and the number of questions. *)
Theorem calculate_score_review_order (mcqs : list pyval) (user_answers : gmap nat pyval) :
  Forall is_mcq mcqs ->
  exists r,
    calculate_score mcqs user_answers = Ok r /\
    StronglySorted Z.lt (map question_num (wrong_questions r)) /\
    Forall (fun q => 1 <= question_num q <= total r) (wrong_questions r).
Proof.
  intros Hall.
  destruct (calculate_score_report user_answers mcqs Hall)
    as (r & c & p & Hr & Hloop & _ & Er & _).
  exists r. split; [exact Hr|].
  apply score_loop_spec in Hloop as (extra & Hw & _ & Hs & Hb & _).
  cbn [app] in Hw. rewrite Hw. split; [exact Hs|].
  rewrite Er. cbn [total]. eapply Forall_impl; [exact Hb|].
  cbn beta. intros q Hq. lia.
Qed.

Lemma calculate_score_review_order_witness :
  exists r,
    calculate_score quiz_2 answers_2 = Ok r /\
    StronglySorted Z.lt (map question_num (wrong_questions r)) /\
    Forall (fun q => 1 <= question_num q <= total r) (wrong_questions r).
Proof.
  apply (calculate_score_review_order quiz_2 answers_2). repeat constructor.
Defined.

(** X3. The score depends on the mapping only through the answers of the
    questions of the quiz: entries under other keys are not read, and a
    missing entry counts as an entry [None]. *)
Theorem calculate_score_reads_quiz_answers
    (mcqs : list pyval) (user_answers other : gmap nat pyval) :
  (forall i, (i < length mcqs)%nat ->
             default PNone (user_answers !! i) = default PNone (other !! i)) ->
  calculate_score mcqs user_answers = calculate_score mcqs other.
Proof.
  intros H. unfold calculate_score.
  rewrite (score_loop_ext user_answers other mcqs 0 0 []); [reflexivity|].
  intros k Hk. apply H. exact Hk.
Qed.

Lemma calculate_score_reads_quiz_answers_witness :
  calculate_score quiz_2 {[ 0%nat := PStr (py "A") ]} =
  calculate_score quiz_2 {[ 0%nat := PStr (py "A"); 1%nat := PNone; 7%nat := PStr (py "B") ]}.
Proof.
  apply (calculate_score_reads_quiz_answers quiz_2).
  intros i Hi. destruct i as [|[|i]]; [reflexivity | reflexivity | cbn in Hi; lia].
Defined.

(** X4. When every question is answered with its right answer, the report
    counts them all as correct, none as wrong, has an empty review list and
    the percentage 100, whatever the number of questions. *)
Theorem calculate_score_all_right (mcqs : list pyval) (user_answers : gmap nat pyval) :
  mcqs <> [] ->
  (forall i m, mcqs !! i = Some m ->
     exists answer, getitem m (py "correct_answer") = Ok answer /\
                    py_eq (default PNone (user_answers !! i)) answer = true) ->
  calculate_score mcqs user_answers =
  Ok {| total := len mcqs; correct := len mcqs; wrong := 0;
        percentage := 100; wrong_questions := [] |}.
Proof.
  intros Hne H.
  pose proof (score_loop_all_right user_answers mcqs 0 0 [] H) as Hloop.
  cbn [Z.add] in Hloop.
  rewrite (calculate_score_unfold user_answers mcqs _ _ Hloop).
  assert (Hlen : 0 < len mcqs).
  { unfold len. destruct mcqs; [contradiction | cbn [length]; lia]. }
  destruct (Z.ltb_spec 0 (len mcqs)); [|lia].
  rewrite percent_of_full by exact Hlen. cbn [mbind result_bind].
  rewrite Z.sub_diag. reflexivity.
Qed.

Lemma calculate_score_all_right_witness :
  calculate_score quiz_2 {[ 0%nat := PStr (py "A"); 1%nat := PStr (py "B") ]} =
  Ok {| total := len quiz_2; correct := len quiz_2; wrong := 0;
        percentage := 100; wrong_questions := [] |}.
Proof.
  apply (calculate_score_all_right quiz_2).
  - discriminate.
  - intros i m Hi. destruct i as [|[|i]]; [| |discriminate];
      injection Hi as <-; eexists; split; reflexivity.
Defined.

(** X5. The percentage of a report lies between 0 and 100, and the two
    counts between 0 and the number of questions, whatever the size of the
    quiz: the two float roundings never carry the quotient above 100. *)
Theorem calculate_score_percentage_range (mcqs : list pyval) (user_answers : gmap nat pyval) :
  Forall is_mcq mcqs ->
  exists r,
    calculate_score mcqs user_answers = Ok r /\
    0 <= percentage r <= 100 /\
    0 <= correct r <= total r /\
    0 <= wrong r <= total r.
Proof.
  intros Hall.
  destruct (calculate_score_report user_answers mcqs Hall)
    as (r & c & p & Hr & _ & Hp & Er & Hc & Hsum).
  exists r. split; [exact Hr|].
  assert (Hw : 0 <= len (wrong_questions r)) by (unfold len; lia).
  rewrite Er. cbn [percentage correct wrong total]. split; [|lia].
  destruct (Z.ltb_spec 0 (len mcqs)).
  - destruct (percent_of_bounds c (len mcqs) ltac:(lia) ltac:(lia)) as (p' & Hp' & Hb).
    rewrite Hp' in Hp. injection Hp as <-. exact Hb.
  - injection Hp as <-. lia.
Qed.

Lemma calculate_score_percentage_range_witness :
  exists r,
    calculate_score quiz_2 answers_2 = Ok r /\
    0 <= percentage r <= 100 /\
    0 <= correct r <= total r /\
    0 <= wrong r <= total r.
Proof.
  apply (calculate_score_percentage_range quiz_2 answers_2). repeat constructor.
Defined.

(** X6. [display_results] shows "Perfect score!" exactly when all answers
    were counted correct, and then, for a quiz that has questions, the
    percentage is 100 and the feedback is the one for 80 and above. *)
Theorem display_results_perfect_score (mcqs : list pyval) (user_answers : gmap nat pyval) :
  Forall is_mcq mcqs ->
  exists r,
    calculate_score mcqs user_answers = Ok r /\
    (perfect_score r = true <-> correct r = total r) /\
    (perfect_score r = true -> 0 < total r ->
     percentage r = 100 /\ performance r = Excellent).
Proof.
  intros Hall.
  destruct (calculate_score_report user_answers mcqs Hall)
    as (r & c & p & Hr & _ & Hp & Er & Hc & Hsum).
  exists r. split; [exact Hr|].
  assert (Hperf : perfect_score r = true <-> c = len mcqs).
  { unfold perfect_score, len in *. destruct (wrong_questions r); cbn [length] in *;
      split; intros; try discriminate; try reflexivity; lia. }
  rewrite Er at 2 3. cbn [correct total]. split; [exact Hperf|].
  intros Hpf Hpos. apply Hperf in Hpf. subst c.
  rewrite Er in Hpos. cbn [total] in Hpos.
  destruct (Z.ltb_spec 0 (len mcqs)); [|lia].
  rewrite percent_of_full in Hp by lia. injection Hp as <-.
  unfold performance. rewrite Er. cbn [percentage]. split; reflexivity.
Qed.

Lemma display_results_perfect_score_witness :
  exists r,
    calculate_score quiz_2 answers_2 = Ok r /\
    (perfect_score r = true <-> correct r = total r) /\
    (perfect_score r = true -> 0 < total r ->
     percentage r = 100 /\ performance r = Excellent).
Proof.
  apply (display_results_perfect_score quiz_2 answers_2). repeat constructor.
Defined.

(** ** The quiz form and its submission *)

Lemma unanswered_seq (user_answers : gmap nat pyval) (n : nat) : forall start,
  StronglySorted Z.lt
    (map (fun i => Z.of_nat i + 1)
       (List.filter (not_answered user_answers) (seq start n))) /\
  Forall (fun x => Z.of_nat start + 1 <= x)
    (map (fun i => Z.of_nat i + 1)
       (List.filter (not_answered user_answers) (seq start n))).
Proof.
  induction n as [|n IH]; intros start; cbn [seq List.filter map].
  - split; constructor.
  - destruct (IH (S start)) as [Hs Hb].
    assert (Hb' : Forall (fun x => Z.of_nat start + 1 < x)
                    (map (fun i => Z.of_nat i + 1)
                       (List.filter (not_answered user_answers) (seq (S start) n)))).
    { eapply Forall_impl; [exact Hb|]. cbn beta. intros x Hx. lia. }
    destruct (not_answered user_answers start); cbn [map].
    + split; constructor; try assumption; try lia.
      eapply Forall_impl; [exact Hb'|]. cbn beta. intros x Hx. lia.
    + split; [exact Hs|]. eapply Forall_impl; [exact Hb'|]. cbn beta. intros x Hx. lia.
Qed.

Lemma not_answered_spec (user_answers : gmap nat pyval) (i : nat) :
  not_answered user_answers i = true <->
  user_answers !! i = None \/ user_answers !! i = Some PNone.
Proof.
  unfold not_answered. destruct (user_answers !! i) as [[]|]; split; intros H;
    try discriminate; auto; destruct H; discriminate.
Qed.

Lemma unanswered_lists (mcqs : list pyval) (user_answers : gmap nat pyval) :
  (forall n, In n (unanswered mcqs user_answers) <->
             exists i : nat, (i < length mcqs)%nat /\ n = Z.of_nat i + 1 /\
                             (user_answers !! i = None \/ user_answers !! i = Some PNone)) /\
  StronglySorted Z.lt (unanswered mcqs user_answers) /\
  (unanswered mcqs user_answers = [] <->
   forall i : nat, (i < length mcqs)%nat ->
                   exists v, user_answers !! i = Some v /\ v <> PNone).
Proof.
  assert (Hmem : forall n, In n (unanswered mcqs user_answers) <->
             exists i : nat, (i < length mcqs)%nat /\ n = Z.of_nat i + 1 /\
                             (user_answers !! i = None \/ user_answers !! i = Some PNone)).
  { intros n. unfold unanswered. rewrite in_map_iff. split.
    - intros (i & <- & Hi). apply filter_In in Hi as [Hi Hna].
      apply in_seq in Hi. apply not_answered_spec in Hna. exists i.
      split; [lia|]. auto.
    - intros (i & Hi & -> & Hna). exists i. split; [reflexivity|].
      apply filter_In. split; [apply in_seq; lia | apply not_answered_spec, Hna]. }
  split; [exact Hmem|]. split; [apply (unanswered_seq user_answers (length mcqs) 0)|].
  split.
  - intros Hnil i Hi. destruct (user_answers !! i) as [v|] eqn:E.
    + exists v. split; [reflexivity|]. intros ->.
      assert (Hin : In (Z.of_nat i + 1) (unanswered mcqs user_answers)).
      { apply Hmem. exists i. auto. }
      rewrite Hnil in Hin. destruct Hin.
    + assert (Hin : In (Z.of_nat i + 1) (unanswered mcqs user_answers)).
      { apply Hmem. exists i. auto. }
      rewrite Hnil in Hin. destruct Hin.
  - intros Hall. destruct (unanswered mcqs user_answers) as [|n rest] eqn:E; [reflexivity|].
    assert (Hin : In n (n :: rest)) by (left; reflexivity).
    apply Hmem in Hin as (i & Hi & _ & Hna).
    destruct (Hall i Hi) as (v & Hv & Hne). destruct Hna as [Hna|Hna]; congruence.
Qed.

(** X7. The check made on submission lists, in increasing order, the
    numbers (from 1) of exactly the questions that have no entry or the
    entry [None]; it lists none exactly when every question has an answer
    that is not [None]. *)
Theorem unanswered_spec (mcqs : list pyval) (user_answers : gmap nat pyval) :
  (forall n, In n (unanswered mcqs user_answers) <->
             exists i : nat, (i < length mcqs)%nat /\ n = Z.of_nat i + 1 /\
                             (user_answers !! i = None \/ user_answers !! i = Some PNone)) /\
  StronglySorted Z.lt (unanswered mcqs user_answers) /\
  (unanswered mcqs user_answers = [] <->
   forall i : nat, (i < length mcqs)%nat ->
                   exists v, user_answers !! i = Some v /\ v <> PNone).
Proof. exact (unanswered_lists mcqs user_answers). Qed.

Lemma display_loop_spec (radio : nat -> pyval -> pyval) (mcqs : list pyval) :
  Forall is_mcq mcqs ->
  forall i (user_answers : gmap nat pyval),
  exists shown_answers,
    display_loop radio i mcqs user_answers = Ok shown_answers /\
    (forall k m, mcqs !! k = Some m ->
       exists options, getitem m (py "options") = Ok options /\
                       shown_answers !! (i + k)%nat = Some (radio (i + k)%nat options)) /\
    (forall j, (j < i \/ i + length mcqs <= j)%nat ->
               shown_answers !! j = user_answers !! j).
Proof.
  induction 1 as [|m rest Hm _ IH]; intros i user_answers.
  - exists user_answers. split; [reflexivity|]. split; [intros k m Hk; discriminate | auto].
  - cbn [display_loop].
    apply validate_accepts in Hm as (_ & d & q & o & a & -> & Eq & Eo & _).
    cbn [getitem]. rewrite Eq, Eo. cbn [mbind result_bind].
    destruct (IH (S i) (<[i := radio i o]> user_answers)) as (sa & Hsa & Hset & Hkeep).
    exists sa. split; [exact Hsa|]. split.
    + intros k m Hk. destruct k as [|k].
      * injection Hk as <-. exists o. cbn [getitem]. rewrite Eo. split; [reflexivity|].
        rewrite Nat.add_0_r, Hkeep by lia. apply lookup_insert_eq.
      * replace (i + S k)%nat with (S i + k)%nat by lia. apply Hset. exact Hk.
    + intros j Hj. cbn [length] in Hj. rewrite Hkeep by lia.
      apply lookup_insert_ne. lia.
Qed.

(** X8. [display_quiz] stores, for every question of the quiz, what its
    radio button returns, and leaves the other entries alone; so the check
    made on submission then lists exactly the questions whose button has no
    selection. *)
Theorem display_quiz_unanswered
    (radio : nat -> pyval -> pyval) (mcqs : list pyval) (user_answers : gmap nat pyval) :
  Forall is_mcq mcqs ->
  exists shown_answers,
    display_quiz radio mcqs user_answers = Ok shown_answers /\
    (forall i m, mcqs !! i = Some m ->
       exists options, getitem m (py "options") = Ok options /\
                       shown_answers !! i = Some (radio i options)) /\
    (forall j, (length mcqs <= j)%nat -> shown_answers !! j = user_answers !! j) /\
    (forall n, In n (unanswered mcqs shown_answers) <->
       exists (i : nat) m options,
         mcqs !! i = Some m /\ getitem m (py "options") = Ok options /\
         radio i options = PNone /\ n = Z.of_nat i + 1).
Proof.
  intros Hall.
  destruct (display_loop_spec radio mcqs Hall 0%nat user_answers) as (sa & Hsa & Hset & Hkeep).
  exists sa. split; [exact Hsa|]. split; [exact Hset|]. split; [intros j Hj; apply Hkeep; lia|].
  intros n. destruct (unanswered_lists mcqs sa) as (Hmem & _). rewrite Hmem. split.
  - intros (i & Hi & -> & Hna).
    destruct (lookup_lt_is_Some_2 mcqs i Hi) as (m & Hm).
    destruct (Hset i m Hm) as (o & Ho & Hlook). cbn [Nat.add] in Hlook.
    exists i, m, o. repeat split; try assumption.
    destruct Hna as [Hna|Hna]; congruence.
  - intros (i & m & o & Hm & Ho & Hr & ->). exists i.
    split; [eapply lookup_lt_Some, Hm|]. split; [reflexivity|]. right.
    destruct (Hset i m Hm) as (o' & Ho' & Hlook). cbn [Nat.add] in Hlook.
    congruence.
Qed.

Lemma display_quiz_unanswered_witness :
  exists shown_answers,
    display_quiz (fun i _ => if (i =? 0)%nat then PStr (py "A") else PNone) quiz_2 ∅
      = Ok shown_answers /\
    (forall i m, quiz_2 !! i = Some m ->
       exists options, getitem m (py "options") = Ok options /\
                       shown_answers !! i =
                       Some ((fun i _ => if (i =? 0)%nat then PStr (py "A") else PNone)
                               i options)) /\
    (forall j, (length quiz_2 <= j)%nat -> shown_answers !! j = (∅ : gmap nat pyval) !! j) /\
    (forall n, In n (unanswered quiz_2 shown_answers) <->
       exists (i : nat) m options,
         quiz_2 !! i = Some m /\ getitem m (py "options") = Ok options /\
         (fun i _ => if (i =? 0)%nat then PStr (py "A") else PNone) i options = PNone /\
         n = Z.of_nat i + 1).
Proof.
  apply (display_quiz_unanswered
           (fun i _ => if (i =? 0)%nat then PStr (py "A") else PNone) quiz_2 ∅).
  repeat constructor.
Defined.

(** X9. When every question has a truthy answer, the submission is
    accepted and each entry of the review list shows, for its question, the
    answer that was submitted. *)
Theorem submitted_answers_reviewed (mcqs : list pyval) (user_answers : gmap nat pyval) :
  Forall is_mcq mcqs ->
  (forall i : nat, (i < length mcqs)%nat ->
                   exists v, user_answers !! i = Some v /\ truthy v = true) ->
  unanswered mcqs user_answers = [] /\
  exists r,
    calculate_score mcqs user_answers = Ok r /\
    forall q, In q (wrong_questions r) ->
              exists i : nat, question_num q = Z.of_nat i + 1 /\
                              user_answers !! i = Some (user_answer q).
Proof.
  intros Hall Hans. split.
  - apply unanswered_lists. intros i Hi. destruct (Hans i Hi) as (v & Hv & Ht).
    exists v. split; [exact Hv|]. intros ->. discriminate.
  - destruct (calculate_score_report user_answers mcqs Hall)
      as (r & c & p & Hr & Hloop & _).
    exists r. split; [exact Hr|]. intros q Hq.
    apply score_loop_spec in Hloop as (extra & Hw & _ & _ & _ & Hmem).
    cbn [app] in Hw. rewrite Hw in Hq. apply Hmem in Hq as (k & m & Hk & Hj).
    destruct (is_mcq_keys m (Forall_lookup_1 _ _ _ _ Hall Hk)) as (d & _ & _ & -> & _).
    apply judge_dict in Hj as (answer & text & _ & _ & _ & ->).
    cbn [Nat.add question_num user_answer]. exists k. split; [reflexivity|].
    destruct (Hans k (lookup_lt_Some _ _ _ Hk)) as (v & Hv & Ht).
    rewrite Hv. cbn [default from_option id]. rewrite Ht. reflexivity.
Qed.

Lemma submitted_answers_reviewed_witness :
  unanswered quiz_2 {[ 0%nat := PStr (py "A"); 1%nat := PStr (py "C") ]} = [] /\
  exists r,
    calculate_score quiz_2 {[ 0%nat := PStr (py "A"); 1%nat := PStr (py "C") ]} = Ok r /\
    forall q, In q (wrong_questions r) ->
              exists i : nat, question_num q = Z.of_nat i + 1 /\
                ({[ 0%nat := PStr (py "A"); 1%nat := PStr (py "C") ]} : gmap nat pyval) !! i
                = Some (user_answer q).
Proof.
  apply (submitted_answers_reviewed quiz_2
           {[ 0%nat := PStr (py "A"); 1%nat := PStr (py "C") ]}).
  - repeat constructor.
  - intros i Hi. destruct i as [|[|i]]; [eexists; split; reflexivity.. | cbn in Hi; lia].
Defined.

(** X10. The count [main] passes to [generate_quiz_batch] is already the
    sample size, so clamping it there changes nothing: the batch built for
    it is the batch built for the number of questions asked for. *)
Theorem actual_questions_sample_size
    (isspace : N -> bool) (json_loads : pystr -> result pyval)
    (client : Type) (create : client -> request -> result (option pystr) * client)
    (picks : list nat) (w : world client) (sentences : list pystr) (num_questions : Z) :
  actual_questions sentences num_questions = sample_size sentences num_questions /\
  sample_size sentences (actual_questions sentences num_questions)
    = actual_questions sentences num_questions /\
  generate_quiz_batch isspace json_loads client create picks w sentences
    (actual_questions sentences num_questions)
  = generate_quiz_batch isspace json_loads client create picks w sentences num_questions.
Proof.
  assert (H : actual_questions sentences num_questions = sample_size sentences num_questions).
  { unfold actual_questions, sample_size.
    destruct (Z.ltb_spec (len sentences) num_questions); lia. }
  assert (H' : sample_size sentences (actual_questions sentences num_questions)
               = actual_questions sentences num_questions).
  { rewrite H. unfold sample_size. lia. }
  split; [exact H|]. split; [exact H'|].
  unfold generate_quiz_batch. rewrite H'. rewrite H. reflexivity.
Qed.

(** ** generate_mcq_with_ai and generate_quiz_batch: what each call leaves *)

Lemma is_mcq_truthy (m : pyval) : is_mcq m -> truthy m = true.
Proof.
  intros H. apply is_mcq_keys in H as (d & q & a & -> & Hq & _).
  destruct d; [discriminate | reflexivity].
Qed.

Section Calls.
Variable isspace : N -> bool.
Variable json_loads : pystr -> result pyval.
Variable client : Type.
Variable create : client -> request -> result (option pystr) * client.

Lemma generate_mcq_with_ai_cases
    (w : world client) (learning_point : pystr) (temperature : pyfloat) :
  asked _ (snd (generate_mcq_with_ai isspace json_loads client create
                  w learning_point temperature)) = asked _ w ++ [learning_point] /\
  ((exists m,
      fst (generate_mcq_with_ai isspace json_loads client create
             w learning_point temperature) = Some m /\
      is_mcq m /\
      shown _ (snd (generate_mcq_with_ai isspace json_loads client create
                      w learning_point temperature)) = shown _ w) \/
   (fst (generate_mcq_with_ai isspace json_loads client create
           w learning_point temperature) = None /\
    exists message,
      shown _ (snd (generate_mcq_with_ai isspace json_loads client create
                      w learning_point temperature)) = shown _ w ++ [message])).
Proof.
  unfold generate_mcq_with_ai.
  destruct (create _ _) as [response endpoint'].
  destruct (_ ≫= _) as [[m|]|e] eqn:E.
  - cbn [fst snd asked shown]. split; [reflexivity|]. left. exists m.
    rewrite app_nil_r. repeat split.
    apply bind_ok in E as (c0 & _ & E). apply bind_ok in E as (c1 & _ & E).
    apply bind_ok in E as (mcq & _ & E). apply validate_accepts in E as Hm.
    destruct Hm as (-> & _). exact E.
  - cbn [fst snd asked shown]. split; [reflexivity|]. right. eauto.
  - destruct e; cbn [fst snd asked shown]; (split; [reflexivity|]); right; eauto.
Qed.

(** X11. One call of [generate_mcq_with_ai] never raises; it records its
    learning point, and either returns an object that passed the structure
    check and shows nothing, or returns [None] and shows exactly one
    message. *)
Theorem generate_mcq_with_ai_outcome
    (w : world client) (learning_point : pystr) (temperature : pyfloat) :
  asked _ (snd (generate_mcq_with_ai isspace json_loads client create
                  w learning_point temperature)) = asked _ w ++ [learning_point] /\
  ((exists m,
      fst (generate_mcq_with_ai isspace json_loads client create
             w learning_point temperature) = Some m /\
      is_mcq m /\
      shown _ (snd (generate_mcq_with_ai isspace json_loads client create
                      w learning_point temperature)) = shown _ w) \/
   (fst (generate_mcq_with_ai isspace json_loads client create
           w learning_point temperature) = None /\
    exists message,
      shown _ (snd (generate_mcq_with_ai isspace json_loads client create
                      w learning_point temperature)) = shown _ w ++ [message])).
Proof. exact (generate_mcq_with_ai_cases w learning_point temperature). Qed.

(** X12. Which message a response gets.  A text that decodes to [null], a
    boolean or a number ends in the error message, not in the warning about
    the format: [key in mcq] raises [TypeError], which the general handler
    catches.  An object that lacks one of the three keys gets the warning
    about the format. *)
Theorem generate_mcq_with_ai_message
    (w : world client) (learning_point : pystr) (temperature : pyfloat)
    (content : pystr) (v : pyval) :
  fst (create (endpoint _ w) (request_for learning_point temperature)) = Ok (Some content) ->
  json_loads (json_text isspace content) = Ok v ->
  match v with
  | PNone | PBool _ | PInt _ | PFloat _ =>
      fst (generate_mcq_with_ai isspace json_loads client create
             w learning_point temperature) = None /\
      shown _ (snd (generate_mcq_with_ai isspace json_loads client create
                      w learning_point temperature)) = shown _ w ++ [Error_generating]
  | PDict d =>
      (exists key, In key required_keys /\ dict_get d key = None) ->
      fst (generate_mcq_with_ai isspace json_loads client create
             w learning_point temperature) = None /\
      shown _ (snd (generate_mcq_with_ai isspace json_loads client create
                      w learning_point temperature)) = shown _ w ++ [Warn_format]
  | _ => True
  end.
Proof.
  intros Hreply Hload. unfold generate_mcq_with_ai.
  change {| req_model := py "gpt-4o-mini";
            req_system := py "You are a helpful quiz generator that outputs only valid JSON.";
            req_user := prompt_head ++ learning_point ++ prompt_tail;
            req_temperature := temperature;
            req_max_tokens := 300 |} with (request_for learning_point temperature).
  destruct (create _ _) as [response endpoint']. cbn [fst] in Hreply. subst response.
  cbn [mbind result_bind]. unfold json_text in Hload. rewrite Hload. cbn [mbind result_bind].
  destruct v as [| | | | |l|d]; try exact I; try (split; reflexivity).
  intros (key & Hkey & Hnone).
  assert (Hv : validate (PDict d) = Ok None).
  { unfold validate, required_keys in *. cbn [py_all contains hashable].
    destruct Hkey as [<-|[<-|[<-|[]]]]; rewrite ?Hnone; cbn [mbind result_bind];
      repeat (first [ reflexivity
                    | congruence
                    | match goal with
                      | |- context [dict_get d ?k] => destruct (dict_get d k) eqn:?
                      end; cbn [mbind result_bind] ]). }
  rewrite Hv. split; reflexivity.
Qed.

(** The loop of the batch: what it adds to the list, to the record of the
    sentences asked and to the messages. *)
Lemma batch_loop_spec selected : forall (w : world client) mcqs,
  exists new notes,
    fst (batch_loop isspace json_loads client create w selected mcqs) = mcqs ++ new /\
    Forall is_mcq new /\
    asked _ (snd (batch_loop isspace json_loads client create w selected mcqs))
      = asked _ w ++ selected /\
    shown _ (snd (batch_loop isspace json_loads client create w selected mcqs))
      = shown _ w ++ notes /\
    (length new + length notes = length selected)%nat.
Proof.
  induction selected as [|sentence rest IH]; intros w mcqs.
  - exists [], []. cbn [batch_loop fst snd length]. rewrite !app_nil_r. auto.
  - cbn [batch_loop].
    destruct (generate_mcq_with_ai_cases w sentence float_0_7) as [Ha Hcase].
    destruct (generate_mcq_with_ai _ _ _ _ w sentence float_0_7) as [mcq w'].
    cbn [fst snd] in Ha, Hcase.
    destruct Hcase as [(m & -> & Hm & Hs)|(-> & message & Hs)].
    + rewrite (is_mcq_truthy m Hm).
      destruct (IH w' (mcqs ++ [m])) as (new & notes & H1 & H2 & H3 & H4 & H5).
      exists (m :: new), notes. rewrite H1, H3, H4, Ha, Hs, <- !app_assoc.
      repeat split; try reflexivity; [constructor; assumption | cbn [length]; lia].
    + destruct (IH w' mcqs) as (new & notes & H1 & H2 & H3 & H4 & H5).
      exists new, (message :: notes). rewrite H1, H3, H4, Ha, Hs, <- !app_assoc.
      repeat split; try reflexivity; [assumption | cbn [length]; lia].
Qed.

(** When every response decodes to an object that passes the check, every
    sentence gives an MCQ and no message is shown. *)
Lemma batch_loop_full selected :
  (forall c r, exists content m,
      fst (create c r) = Ok (Some content) /\
      json_loads (json_text isspace content) = Ok m /\ is_mcq m) ->
  forall (w : world client) mcqs,
    length (fst (batch_loop isspace json_loads client create w selected mcqs))
      = (length mcqs + length selected)%nat /\
    shown _ (snd (batch_loop isspace json_loads client create w selected mcqs)) = shown _ w.
Proof.
  intros Hgood. induction selected as [|sentence rest IH]; intros w mcqs.
  - cbn [batch_loop fst snd length]. split; [lia | reflexivity].
  - cbn [batch_loop].
    destruct (Hgood (endpoint _ w) (request_for sentence float_0_7))
      as (content & m & Hc & Hl & Hm).
    assert (Hsome : fst (generate_mcq_with_ai isspace json_loads client create
                           w sentence float_0_7) = Some m).
    { apply generate_mcq_with_ai_returns. exists content. auto. }
    destruct (generate_mcq_with_ai_cases w sentence float_0_7) as [_ Hcase].
    destruct (generate_mcq_with_ai _ _ _ _ w sentence float_0_7) as [mcq w'].
    cbn [fst snd] in Hsome, Hcase. subst mcq.
    destruct Hcase as [(m' & _ & _ & Hs)|(Hn & _)]; [|discriminate].
    rewrite (is_mcq_truthy m Hm).
    destruct (IH w' (mcqs ++ [m])) as [H1 H2].
    rewrite H1, H2, Hs, length_app. cbn [length]. split; [lia | reflexivity].
Qed.
End Calls.

Lemma generate_mcq_with_ai_message_witness :
  fst (generate_mcq_with_ai ascii_isspace number_decoder _ scripted
         (start [Ok (Some (py "42"))]) boiling float_0_7) = None /\
  shown _ (snd (generate_mcq_with_ai ascii_isspace number_decoder _ scripted
                  (start [Ok (Some (py "42"))]) boiling float_0_7))
  = shown _ (start [Ok (Some (py "42"))]) ++ [Error_generating].
Proof.
  apply (generate_mcq_with_ai_message ascii_isspace number_decoder _ scripted
           (start [Ok (Some (py "42"))]) boiling float_0_7 (py "42") (PInt 42)).
  - reflexivity.
  - reflexivity.
Defined.

(** The sample drawn for valid positions has the size asked for. *)
Lemma random_sample_drawn (picks : list nat) (sentences : list pystr) (num_questions : Z) :
  valid_picks picks (length sentences) (sample_size sentences num_questions) = true ->
  exists selected,
    random_sample picks sentences (sample_size sentences num_questions) = Ok selected /\
    len selected = sample_size sentences num_questions.
Proof.
  intros Hv. apply valid_picks_spec in Hv as (_ & Hlt & Hlen).
  assert (Hk : 0 <= sample_size sentences num_questions <= len sentences).
  { unfold sample_size, len in *. lia. }
  rewrite random_sample_returns by exact Hk. eexists. split; [reflexivity|].
  apply omap_lookup_picks, Forall2_length in Hlt. unfold len in *. lia.
Qed.

(** X13. One call of [generate_quiz_batch] asks for an MCQ exactly
    min(num_questions, len(sentences)) times, and every one of these
    requests ends either in an MCQ of the batch or in exactly one message:
    the MCQs returned and the messages shown add up to the sample size. *)
Theorem generate_quiz_batch_accounting
    (isspace : N -> bool) (json_loads : pystr -> result pyval)
    (client : Type) (create : client -> request -> result (option pystr) * client)
    (picks : list nat) (w : world client) (sentences : list pystr) (num_questions : Z) :
  valid_picks picks (length sentences) (sample_size sentences num_questions) = true ->
  exists mcqs w' notes,
    generate_quiz_batch isspace json_loads client create picks w sentences num_questions
      = Ok (mcqs, w') /\
    len (asked _ w') = len (asked _ w) + sample_size sentences num_questions /\
    shown _ w' = shown _ w ++ notes /\
    len mcqs + len notes = sample_size sentences num_questions.
Proof.
  intros Hv. destruct (random_sample_drawn picks sentences num_questions Hv)
    as (selected & Hs & Hlen).
  unfold generate_quiz_batch. rewrite Hs. cbn [mbind result_bind].
  destruct (batch_loop_spec isspace json_loads client create selected w [])
    as (new & notes & H1 & _ & H3 & H4 & H5).
  destruct (batch_loop _ _ _ _ w selected []) as [mcqs w']. cbn [fst snd app] in *.
  subst mcqs. exists new, w', notes. split; [reflexivity|].
  rewrite H3. unfold len in *. rewrite length_app. repeat split; try assumption; lia.
Qed.

Lemma generate_quiz_batch_accounting_witness :
  exists mcqs w' notes,
    ascii_batch [1%nat; 0%nat] [Ok (Some four_doc); Ok (Some (py "no JSON here"))]
      [boiling; freezing] 5 = Ok (mcqs, w') /\
    len (asked _ w')
      = len (asked _ (start [Ok (Some four_doc); Ok (Some (py "no JSON here"))]))
        + sample_size [boiling; freezing] 5 /\
    shown _ w' = shown _ (start [Ok (Some four_doc); Ok (Some (py "no JSON here"))]) ++ notes /\
    len mcqs + len notes = sample_size [boiling; freezing] 5.
Proof.
  apply (generate_quiz_batch_accounting ascii_isspace decoder _ scripted [1%nat; 0%nat]
           (start [Ok (Some four_doc); Ok (Some (py "no JSON here"))])
           [boiling; freezing] 5).
  vm_compute. reflexivity.
Defined.

(** X14. Every MCQ of a batch has passed the structure check, so the score
    engine returns a report on any batch, whatever the answers. *)
Theorem generate_quiz_batch_scorable
    (isspace : N -> bool) (json_loads : pystr -> result pyval)
    (client : Type) (create : client -> request -> result (option pystr) * client)
    (picks : list nat) (w w' : world client) (sentences : list pystr) (num_questions : Z)
    (mcqs : list pyval) :
  generate_quiz_batch isspace json_loads client create picks w sentences num_questions
    = Ok (mcqs, w') ->
  Forall is_mcq mcqs /\
  forall user_answers : gmap nat pyval,
    exists r, calculate_score mcqs user_answers = Ok r /\ total r = len mcqs.
Proof.
  unfold generate_quiz_batch. intros H. apply bind_ok in H as (selected & _ & H).
  destruct (batch_loop_spec isspace json_loads client create selected w [])
    as (new & notes & H1 & H2 & _).
  injection H as H. rewrite H in H1. cbn [fst app] in H1. subst new.
  split; [exact H2|]. intros user_answers.
  destruct (calculate_score_report user_answers mcqs H2) as (r & c & p & Hr & _ & _ & Er & _).
  exists r. split; [exact Hr|]. rewrite Er. reflexivity.
Qed.

Lemma generate_quiz_batch_scorable_witness :
  Forall is_mcq [four_mcq] /\
  forall user_answers : gmap nat pyval,
    exists r, calculate_score [four_mcq] user_answers = Ok r /\ total r = len [four_mcq].
Proof.
  apply (generate_quiz_batch_scorable ascii_isspace decoder _ scripted [0%nat]
           (start [Ok (Some four_doc)])
           {| endpoint := []; asked := [boiling]; shown := [] |} [boiling] 5 [four_mcq]).
  vm_compute. reflexivity.
Defined.

(** X15. With an endpoint whose every response decodes to an object that
    passes the structure check, the batch has exactly
    min(num_questions, len(sentences)) MCQs and no message is shown. *)
Theorem generate_quiz_batch_full
    (isspace : N -> bool) (json_loads : pystr -> result pyval)
    (client : Type) (create : client -> request -> result (option pystr) * client)
    (picks : list nat) (w : world client) (sentences : list pystr) (num_questions : Z) :
  (forall c r, exists content m,
      fst (create c r) = Ok (Some content) /\
      json_loads (json_text isspace content) = Ok m /\ is_mcq m) ->
  valid_picks picks (length sentences) (sample_size sentences num_questions) = true ->
  exists mcqs w',
    generate_quiz_batch isspace json_loads client create picks w sentences num_questions
      = Ok (mcqs, w') /\
    len mcqs = sample_size sentences num_questions /\
    shown _ w' = shown _ w.
Proof.
  intros Hgood Hv. destruct (random_sample_drawn picks sentences num_questions Hv)
    as (selected & Hs & Hlen).
  unfold generate_quiz_batch. rewrite Hs. cbn [mbind result_bind].
  destruct (batch_loop_full isspace json_loads client create selected Hgood w [])
    as [H1 H2].
  destruct (batch_loop _ _ _ _ w selected []) as [mcqs w']. cbn [fst snd length] in *.
  exists mcqs, w'. split; [reflexivity|]. split; [unfold len in *; lia | exact H2].
Qed.

Lemma generate_quiz_batch_full_witness :
  exists mcqs w',
    generate_quiz_batch ascii_isspace decoder unit constant_endpoint [2%nat; 0%nat]
      {| endpoint := tt; asked := []; shown := [] |} [boiling; freezing; boiling] 2
      = Ok (mcqs, w') /\
    len mcqs = sample_size [boiling; freezing; boiling] 2 /\
    shown _ w' = shown _ {| endpoint := tt; asked := []; shown := [] |}.
Proof.
  apply (generate_quiz_batch_full ascii_isspace decoder unit constant_endpoint
           [2%nat; 0%nat] {| endpoint := tt; asked := []; shown := [] |}
           [boiling; freezing; boiling] 2).
  - intros c r. exists four_doc, four_mcq. repeat split; reflexivity.
  - vm_compute. reflexivity.
Defined.

(** ** clean_and_split_text: line by line *)

Lemma startswith_nil (s : pystr) : startswith s [] = true.
Proof. destruct s; reflexivity. Qed.

Lemma replace_dot_join (a : pystr) :
  (forall b, replace_from [46; 32]%N [46; 10]%N 0 (a ++ 10%N :: b)
             = replace_from [46; 32]%N [46; 10]%N 0 a
               ++ 10%N :: replace_from [46; 32]%N [46; 10]%N 0 b) /\
  (forall b, a <> [] ->
             replace_from [46; 32]%N [46; 10]%N 1 (a ++ 10%N :: b)
             = replace_from [46; 32]%N [46; 10]%N 1 a
               ++ 10%N :: replace_from [46; 32]%N [46; 10]%N 0 b).
Proof.
  induction a as [|c a [IH0 IH1]].
  - split; [|congruence]. intros b. reflexivity.
  - split.
    + intros b. cbn [app replace_from].
      assert (Hs : startswith (c :: a ++ 10%N :: b) [46; 32]%N
                   = startswith (c :: a) [46; 32]%N).
      { destruct a as [|d a]; cbn [app startswith]; [|rewrite !startswith_nil; reflexivity].
        cbn. rewrite andb_false_r. reflexivity. }
      rewrite Hs. destruct (startswith (c :: a) [46; 32]%N) eqn:E.
      * assert (a <> []).
        { intros ->. cbn in E. rewrite andb_false_r in E. discriminate. }
        cbn [length Nat.sub]. rewrite IH1 by assumption. reflexivity.
      * rewrite IH0. reflexivity.
    + intros b _. cbn [app replace_from]. apply IH0.
Qed.

Lemma split_join (sep : N) (a b : pystr) :
  split sep (a ++ sep :: b) = split sep a ++ split sep b.
Proof.
  induction a as [|c a IH]; cbn [app split].
  - rewrite N.eqb_refl. reflexivity.
  - destruct (N.eqb c sep); [rewrite IH; reflexivity|].
    rewrite IH. destruct (split sep a) as [|piece pieces] eqn:E; [|reflexivity].
    destruct a as [|d a]; [discriminate|]. cbn [split] in E.
    destruct (N.eqb d sep); [discriminate|]. destruct (split sep a); discriminate.
Qed.

Section Lines.
Variables isspace isalnum islower isupper_char istitle : N -> bool.
Variables min_length max_length : Z.

(** The loop started on a list already built is the loop started on the
    empty list, with its result appended. *)
Lemma clean_loop_cleaned lines : forall cleaned,
  clean_loop isspace isalnum islower isupper_char istitle lines min_length max_length cleaned
  = clean_loop isspace isalnum islower isupper_char istitle lines min_length max_length []
      ≫= fun out => Ok (cleaned ++ out).
Proof.
  induction lines as [|line rest IH]; intros cleaned.
  - cbn [clean_loop mbind result_bind]. rewrite app_nil_r. reflexivity.
  - cbn [clean_loop].
    destruct (_ <? min_length); [apply IH|].
    destruct (_ && _); [apply IH|].
    destruct (int_truediv _ _) as [ratio|e]; [|reflexivity].
    cbn [mbind result_bind].
    destruct (float_gt ratio float_0_3); [apply IH|].
    rewrite IH. rewrite (IH ([] ++ _)).
    destruct (clean_loop _ _ _ _ _ rest min_length max_length []) as [out|e]; [|reflexivity].
    cbn [mbind result_bind app]. rewrite <- app_assoc. reflexivity.
Qed.

Lemma clean_loop_app lines1 lines2 : forall cleaned,
  clean_loop isspace isalnum islower isupper_char istitle (lines1 ++ lines2)
    min_length max_length cleaned
  = clean_loop isspace isalnum islower isupper_char istitle lines1
      min_length max_length cleaned
      ≫= clean_loop isspace isalnum islower isupper_char istitle lines2
           min_length max_length.
Proof.
  induction lines1 as [|line rest IH]; intros cleaned; [reflexivity|].
  cbn [app clean_loop].
  destruct (_ <? min_length); [apply IH|].
  destruct (_ && _); [apply IH|].
  destruct (int_truediv _ _) as [ratio|e]; [|reflexivity].
  cbn [mbind result_bind].
  destruct (float_gt ratio float_0_3); apply IH.
Qed.
End Lines.

Lemma clean_text_join
    (isspace isalnum islower isupper_char istitle : N -> bool)
    (text1 text2 : pystr) (min_length max_length : Z) :
  clean_and_split_text isspace isalnum islower isupper_char istitle
    (text1 ++ 10%N :: text2) min_length max_length
  = clean_and_split_text isspace isalnum islower isupper_char istitle
      text1 min_length max_length
      ≫= fun out1 =>
    clean_and_split_text isspace isalnum islower isupper_char istitle
      text2 min_length max_length
      ≫= fun out2 => Ok (out1 ++ out2).
Proof.
  unfold clean_and_split_text, replace.
  change (py ". ") with [46; 32]%N.
  rewrite (proj1 (replace_dot_join text1)), split_join, clean_loop_app.
  destruct (clean_loop _ _ _ _ _ (split 10 (replace_from _ _ 0 text1)) _ _ [])
    as [out1|e]; [|reflexivity].
  cbn [mbind result_bind]. apply clean_loop_cleaned.
Qed.

(** X16. The filter works line by line: the learning points of two texts
    joined by a line feed are those of the first followed by those of the
    second, and the joined text raises exactly when one of the two does. *)
Theorem clean_and_split_text_join
    (isspace isalnum islower isupper_char istitle : N -> bool)
    (text1 text2 : pystr) (min_length max_length : Z) :
  clean_and_split_text isspace isalnum islower isupper_char istitle
    (text1 ++ 10%N :: text2) min_length max_length
  = clean_and_split_text isspace isalnum islower isupper_char istitle
      text1 min_length max_length
      ≫= fun out1 =>
    clean_and_split_text isspace isalnum islower isupper_char istitle
      text2 min_length max_length
      ≫= fun out2 => Ok (out1 ++ out2).
Proof.
  exact (clean_text_join isspace isalnum islower isupper_char istitle
           text1 text2 min_length max_length).
Qed.

(** ** clean_and_split_text: the shape of a learning point *)

Lemma split_no_sep (sep : N) (s : pystr) :
  Forall (fun piece => ~ In sep piece) (split sep s).
Proof.
  induction s as [|c s IH]; cbn [split].
  - constructor; [intros [] | constructor].
  - destruct (N.eqb_spec c sep) as [->|Hne].
    + constructor; [intros [] | exact IH].
    + destruct (split sep s) as [|piece pieces]; [repeat constructor; intros [?|[]]; auto|].
      inversion IH as [|? ? Hp Hps]; subst. constructor; [|exact Hps].
      intros [?|?]; auto.
Qed.

Section Strip.
Variable isspace : N -> bool.

(** What [lstrip] removes is whitespace, and what it leaves does not begin
    with whitespace. *)
Lemma lstrip_split (s : pystr) :
  exists blanks, s = blanks ++ lstrip isspace s /\ Forall (fun c => isspace c = true) blanks.
Proof.
  induction s as [|c s (blanks & IH & Hb)]; [exists []; auto|].
  cbn [lstrip]. destruct (isspace c) eqn:E.
  - exists (c :: blanks). cbn [app]. rewrite <- IH. auto.
  - exists []. auto.
Qed.

Lemma lstrip_head (s : pystr) (c : N) (rest : pystr) :
  lstrip isspace s = c :: rest -> isspace c = false.
Proof.
  induction s as [|d s IH]; [discriminate|].
  cbn [lstrip]. destruct (isspace d) eqn:E; [exact IH|]. congruence.
Qed.

Lemma lstrip_blanks (s : pystr) :
  Forall (fun c => isspace c = true) s -> lstrip isspace s = [].
Proof. induction 1 as [|c s Hc _ IH]; [reflexivity|]. cbn [lstrip]. rewrite Hc. exact IH. Qed.

Lemma lstrip_nonblank (c : N) (s : pystr) :
  isspace c = false -> lstrip isspace (c :: s) = c :: s.
Proof. intros H. cbn [lstrip]. rewrite H. reflexivity. Qed.

Lemma rstrip_split (s : pystr) :
  exists blanks, s = rstrip isspace s ++ blanks /\ Forall (fun c => isspace c = true) blanks.
Proof.
  unfold rstrip. destruct (lstrip_split (rev s)) as (blanks & E & Hb).
  exists (rev blanks). split; [|apply Forall_rev, Hb].
  rewrite <- rev_app_distr, <- E, rev_involutive. reflexivity.
Qed.

(** A stripped string does not begin with whitespace. *)
Lemma strip_head (s : pystr) (c : N) (rest : pystr) :
  strip isspace s = c :: rest -> isspace c = false.
Proof.
  unfold strip. intros H.
  destruct (rstrip_split (lstrip isspace s)) as (blanks & E & _).
  rewrite H in E. cbn [app] in E. eapply lstrip_head, E.
Qed.

Lemma strip_blanks (s : pystr) :
  Forall (fun c => isspace c = true) s -> strip isspace s = [].
Proof. intros H. unfold strip. rewrite lstrip_blanks by exact H. reflexivity. Qed.

(** A string strips to nothing only if it is all whitespace. *)
Lemma strip_nil (s : pystr) :
  strip isspace s = [] -> Forall (fun c => isspace c = true) s.
Proof.
  unfold strip. intros H.
  destruct (lstrip_split s) as (b1 & E1 & H1).
  destruct (rstrip_split (lstrip isspace s)) as (b2 & E2 & H2).
  rewrite H in E2. cbn [app] in E2. rewrite E1, E2. apply Forall_app. auto.
Qed.
End Strip.

Section Shape.
Variables isspace isalnum islower isupper_char istitle : N -> bool.

Lemma clean_default_sources (text : pystr) :
  exists kept,
    clean_and_split_text isspace isalnum islower isupper_char istitle text 30 300
      = Ok (map (emit 300) kept) /\
    Forall (keeps isspace isalnum islower isupper_char istitle 30) kept /\
    Forall (fun l => ~ In 10%N l /\ exists line, l = strip isspace line) kept.
Proof.
  destruct (clean_loop_returns isspace isalnum islower isupper_char istitle 30 300
              (split 10 (replace text (py ". ") [46; 10]%N)) ltac:(lia) [])
    as (out & Hout).
  unfold clean_and_split_text. rewrite Hout.
  apply clean_loop_emits in Hout as (kept & -> & Hk & Hsrc).
  exists kept. split; [reflexivity|]. split; [exact Hk|].
  eapply Forall_impl; [exact Hsrc|]. cbn beta. intros l (line & Hin & ->).
  split; [|eauto].
  pose proof (split_no_sep 10 (replace text (py ". ") [46; 10]%N)) as Hno.
  rewrite Forall_forall in Hno. apply list_elem_of_In in Hin. specialize (Hno line Hin).
  assert (Hf : Forall (fun c => c <> 10%N) line).
  { apply Forall_forall. intros c Hc ->. apply Hno, list_elem_of_In, Hc. }
  apply (strip_chars isspace) in Hf. rewrite Forall_forall in Hf.
  intros Hc. apply list_elem_of_In in Hc. exact (Hf _ Hc eq_refl).
Qed.
End Shape.

(** X17. With the default bounds a learning point is a single line that
    does not begin with whitespace: it holds no line feed, and its first
    character is not a whitespace character. *)
Theorem clean_and_split_text_single_line
    (isspace isalnum islower isupper_char istitle : N -> bool) (text : pystr) :
  exists out,
    clean_and_split_text isspace isalnum islower isupper_char istitle text 30 300 = Ok out /\
    Forall (fun s => ~ In 10%N s /\
                     exists c rest, s = c :: rest /\ isspace c = false) out.
Proof.
  destruct (clean_default_sources isspace isalnum islower isupper_char istitle text)
    as (kept & -> & Hk & Hsrc).
  eexists. split; [reflexivity|]. apply Forall_map.
  rewrite Forall_forall in Hk, Hsrc. apply Forall_forall. intros l Hl. cbn beta.
  destruct (Hk l Hl) as (Hmin & _). destruct (Hsrc l Hl) as (Hno & line & El).
  destruct l as [|c rest]; [unfold len in Hmin; cbn in Hmin; lia|].
  assert (Hc : isspace c = false) by (eapply strip_head; symmetry; exact El).
  unfold emit. destruct (300 <? len (c :: rest)).
  - split.
    + unfold slice_to. cbn [Z.ltb Z.compare]. intros Hin. apply in_app_or in Hin as [Hin|Hin].
      * apply Hno. apply list_elem_of_In. apply list_elem_of_In in Hin.
        eapply subseteq_take, Hin.
      * cbn in Hin. destruct Hin as [?|[?|[?|[]]]]; discriminate.
    + unfold slice_to. cbn [Z.ltb Z.compare]. change (Z.to_nat 300) with 300%nat.
      cbn [take app]. eauto.
  - split; [exact Hno | eauto].
Qed.

(** X18. With the default bounds no learning point is a short line in
    capitals: none is both upper-case (for [str.isupper]) and shorter than
    50 characters. *)
Theorem clean_and_split_text_no_header
    (isspace isalnum islower isupper_char istitle : N -> bool) (text : pystr) :
  exists out,
    clean_and_split_text isspace isalnum islower isupper_char istitle text 30 300 = Ok out /\
    Forall (fun s => isupper islower isupper_char istitle s && (len s <? 50) = false) out.
Proof.
  destruct (clean_default_emits isspace isalnum islower isupper_char istitle text)
    as (kept & -> & Hk).
  eexists. split; [reflexivity|]. apply Forall_map.
  eapply Forall_impl; [exact Hk|]. cbn beta. intros l (_ & Hup & _).
  pose proof (emit_length l) as Hlen. unfold emit in *.
  destruct (300 <? len l).
  - rewrite Hlen. cbn. apply andb_false_r.
  - exact Hup.
Qed.
(** ** generate_mcq_with_ai: the markdown fence *)

Lemma startswith_app (p s : pystr) : startswith (p ++ s) p = true.
Proof.
  induction p as [|c p IH]; [apply startswith_nil|].
  cbn [app startswith]. rewrite N.eqb_refl, IH. reflexivity.
Qed.

Lemma endswith_app (s p : pystr) : endswith (s ++ p) p = true.
Proof. unfold endswith. rewrite rev_app_distr. apply startswith_app. Qed.

Lemma slice_to_fence (s : pystr) : slice_to (s ++ py "```") (-3) = s.
Proof.
  unfold slice_to, len. cbn [Z.ltb Z.compare]. rewrite length_app.
  change (length (py "```")) with 3%nat.
  replace (Z.to_nat (Z.of_nat (length s + 3) + -3)) with (length s) by lia.
  apply take_app_length.
Qed.

Section Fence.
Variable isspace : N -> bool.

Lemma rstrip_blank (s : pystr) (c : N) :
  isspace c = true -> rstrip isspace (s ++ [c]) = rstrip isspace s.
Proof.
  intros H. unfold rstrip. rewrite rev_app_distr. cbn [rev app lstrip].
  rewrite H. reflexivity.
Qed.

Lemma rstrip_nonblank (s : pystr) (c : N) :
  isspace c = false -> rstrip isspace (s ++ [c]) = s ++ [c].
Proof.
  intros H. unfold rstrip. rewrite rev_app_distr. cbn [rev app lstrip].
  rewrite H. change (c :: rev s) with ([c] ++ rev s).
  rewrite rev_app_distr, rev_involutive. reflexivity.
Qed.

(** A JSON object written between braces reaches [json.loads] unchanged,
    whether the model sends it bare, inside a "```json" fence or inside a
    plain "```" fence (each fence on a line of its own). *)
Lemma json_text_fenced (inner : pystr) :
  isspace 10%N = true -> isspace 96%N = false ->
  isspace 123%N = false -> isspace 125%N = false ->
  json_text isspace (123%N :: inner ++ [125%N]) = 123%N :: inner ++ [125%N] /\
  json_text isspace (py "```json" ++ 10%N :: (123%N :: inner ++ [125%N]) ++ 10%N :: py "```")
    = 123%N :: inner ++ [125%N] /\
  json_text isspace (py "```" ++ 10%N :: (123%N :: inner ++ [125%N]) ++ 10%N :: py "```")
    = 123%N :: inner ++ [125%N].
Proof.
  intros Hnl Htick Hopen Hclose.
  set (body := 123%N :: inner ++ [125%N]).
  assert (Hstrip : strip isspace body = body).
  { unfold strip, body. rewrite lstrip_nonblank by exact Hopen.
    change (123%N :: inner ++ [125%N]) with ((123%N :: inner) ++ [125%N]).
    apply rstrip_nonblank, Hclose. }
  assert (Hpad : strip isspace (10%N :: body ++ [10%N]) = body).
  { unfold strip. cbn [lstrip]. rewrite Hnl. unfold body at 1. cbn [app].
    rewrite lstrip_nonblank by exact Hopen.
    change (123%N :: (inner ++ [125%N]) ++ [10%N]) with (body ++ [10%N]).
    rewrite rstrip_blank by exact Hnl.
    unfold body. change (123%N :: inner ++ [125%N]) with ((123%N :: inner) ++ [125%N]).
    apply rstrip_nonblank, Hclose. }
  assert (Hcut : forall s, strip_fence (10%N :: s ++ 10%N :: py "```") = 10%N :: s ++ [10%N]).
  { intros s.
    assert (E : 10%N :: s ++ 10%N :: py "```" = (10%N :: s ++ [10%N]) ++ py "```").
    { cbn [app]. rewrite <- app_assoc. reflexivity. }
    unfold strip_fence.
    replace (startswith (10%N :: s ++ 10%N :: py "```") (py "```json")) with false
      by reflexivity.
    replace (startswith (10%N :: s ++ 10%N :: py "```") (py "```")) with false
      by reflexivity.
    cbv zeta. rewrite E, endswith_app, slice_to_fence. reflexivity. }
  assert (Hends : forall prefix,
             strip isspace ((96%N :: prefix) ++ 10%N :: body ++ 10%N :: py "```")
             = (96%N :: prefix) ++ 10%N :: body ++ 10%N :: py "```").
  { intros prefix. unfold strip. cbn [app]. rewrite lstrip_nonblank by exact Htick.
    replace (96%N :: prefix ++ 10%N :: body ++ 10%N :: py "```")
      with ((96%N :: prefix ++ 10%N :: body ++ [10%N; 96%N; 96%N]) ++ [96%N]).
    - apply rstrip_nonblank, Htick.
    - cbn [app]. f_equal. rewrite <- app_assoc. cbn [app]. do 2 f_equal.
      rewrite <- app_assoc. reflexivity. }
  assert (Hbare : strip_fence body = body).
  { unfold strip_fence.
    replace (startswith body (py "```json")) with false by reflexivity.
    replace (startswith body (py "```")) with false by reflexivity.
    replace (endswith body (py "```")) with false; [reflexivity|].
    unfold endswith, body.
    change (123%N :: inner ++ [125%N]) with ((123%N :: inner) ++ [125%N]).
    rewrite rev_app_distr. reflexivity. }
  assert (Hjson : strip_fence (py "```json" ++ 10%N :: body ++ 10%N :: py "```")
                  = 10%N :: body ++ [10%N]).
  { rewrite <- Hcut. reflexivity. }
  assert (Hplain : strip_fence (py "```" ++ 10%N :: body ++ 10%N :: py "```")
                   = 10%N :: body ++ [10%N]).
  { rewrite <- Hcut. reflexivity. }
  unfold json_text. fold body. split; [|split].
  - rewrite Hstrip, Hbare. exact Hstrip.
  - change (py "```json") with (96%N :: [96; 96; 106; 115; 111; 110]%N) at 1.
    rewrite Hends.
    change (96%N :: [96; 96; 106; 115; 111; 110]%N) with (py "```json").
    rewrite Hjson. exact Hpad.
  - change (py "```") with (96%N :: [96; 96]%N) at 1.
    rewrite Hends.
    change (96%N :: [96; 96]%N) with (py "```") at 1.
    rewrite Hplain. exact Hpad.
Qed.
End Fence.

(** X19. The markdown fence is transparent: when the model answers with a
    JSON object written between braces, [generate_mcq_with_ai] returns what
    decoding and checking that object gives, whether the object comes bare,
    inside a "```json" fence or inside a plain "```" fence on lines of their
    own. *)
Theorem generate_mcq_with_ai_fence
    (isspace : N -> bool) (json_loads : pystr -> result pyval) (client : Type)
    (create : client -> request -> result (option pystr) * client)
    (w : world client) (learning_point : pystr) (temperature : pyfloat)
    (inner content : pystr) :
  isspace 10%N = true -> isspace 96%N = false ->
  isspace 123%N = false -> isspace 125%N = false ->
  fst (create (endpoint _ w) (request_for learning_point temperature)) = Ok (Some content) ->
  content = 123%N :: inner ++ [125%N] \/
  content = py "```json" ++ 10%N :: (123%N :: inner ++ [125%N]) ++ 10%N :: py "```" \/
  content = py "```" ++ 10%N :: (123%N :: inner ++ [125%N]) ++ 10%N :: py "```" ->
  fst (generate_mcq_with_ai isspace json_loads client create w learning_point temperature)
  = match json_loads (123%N :: inner ++ [125%N]) ≫= validate with
    | Ok r => r
    | Raise _ => None
    end.
Proof.
  intros Hnl Htick Hopen Hclose Hreply Hform.
  assert (Htext : json_text isspace content = 123%N :: inner ++ [125%N]).
  { destruct (json_text_fenced isspace inner Hnl Htick Hopen Hclose) as (H1 & H2 & H3).
    destruct Hform as [->|[->| ->]]; assumption. }
  unfold generate_mcq_with_ai.
  change {| req_model := py "gpt-4o-mini";
            req_system := py "You are a helpful quiz generator that outputs only valid JSON.";
            req_user := prompt_head ++ learning_point ++ prompt_tail;
            req_temperature := temperature;
            req_max_tokens := 300 |} with (request_for learning_point temperature).
  destruct (create _ _) as [response endpoint']. cbn [fst] in Hreply. subst response.
  cbn [mbind result_bind]. unfold json_text in Htext. rewrite Htext.
  destruct (json_loads _) as [mcq|e]; cbn [mbind result_bind].
  - destruct (validate mcq) as [[m|]|e]; [reflexivity | reflexivity | destruct e; reflexivity].
  - destruct e; reflexivity.
Qed.

Lemma generate_mcq_with_ai_fence_witness :
  fst (generate_mcq_with_ai ascii_isspace decoder _ scripted
         (start [Ok (Some (py "```json" ++ 10%N :: four_doc ++ 10%N :: py "```"))])
         boiling float_0_7)
  = match decoder
            (123%N :: quoted "'question': 'first', 'options': ['A', 'B', 'C', 'D'], 'correct_answer': 'A'" ++ [125%N])
          ≫= validate with
    | Ok r => r
    | Raise _ => None
    end.
Proof.
  apply (generate_mcq_with_ai_fence ascii_isspace decoder _ scripted
           (start [Ok (Some (py "```json" ++ 10%N :: four_doc ++ 10%N :: py "```"))])
           boiling float_0_7
           (quoted "'question': 'first', 'options': ['A', 'B', 'C', 'D'], 'correct_answer': 'A'")
           (py "```json" ++ 10%N :: four_doc ++ 10%N :: py "```"));
    try reflexivity.
  right. left. reflexivity.
Defined.

(** ** Text extraction, and the learning points of what it returns *)

Lemma replace_absent (c : N) (old new s : pystr) :
  ~ In c s -> replace_from (c :: old) new 0 s = s.
Proof.
  induction s as [|d s IH]; intros H; [reflexivity|].
  cbn [replace_from startswith].
  destruct (N.eqb_spec c d) as [->|Hne]; [exfalso; apply H; left; reflexivity|].
  cbn [andb]. rewrite IH; [reflexivity|]. intros Hin. apply H. right. exact Hin.
Qed.

Lemma split_covers (Q : N -> Prop) (sep : N) (s : pystr) :
  Q sep -> Forall (Forall Q) (split sep s) -> Forall Q s.
Proof.
  intros Hsep. induction s as [|c s IH]; intros H; [constructor|].
  cbn [split] in H. destruct (N.eqb_spec c sep) as [->|Hne].
  - apply Forall_cons_1 in H as [_ H]. constructor; auto.
  - destruct (split sep s) as [|piece pieces].
    + apply Forall_cons_1 in H as [H _]. apply Forall_cons_1 in H as [H _].
      constructor; [exact H|]. apply IH. constructor.
    + apply Forall_cons_1 in H as [H Hrest]. apply Forall_cons_1 in H as [Hc Hpiece].
      constructor; [exact Hc|]. apply IH. constructor; assumption.
Qed.

Lemma filter_none {A} (P : A -> Prop) `{forall x, Decision (P x)} (l : list A) :
  len (filter P l) = 0 -> Forall (fun x => ~ P x) l.
Proof.
  unfold len. induction l as [|a l IH]; intros Hl; [constructor|].
  rewrite filter_cons in Hl. destruct (decide (P a)); [discriminate|].
  constructor; auto.
Qed.

Section Blank.
Variables isspace isalnum islower isupper_char istitle : N -> bool.
Variables min_length max_length : Z.
Hypothesis Hmin : 1 <= min_length.

Lemma clean_loop_blank (lines : list pystr) :
  Forall (fun line => strip isspace line = []) lines ->
  forall cleaned,
    clean_loop isspace isalnum islower isupper_char istitle lines min_length max_length cleaned
    = Ok cleaned.
Proof.
  induction 1 as [|line rest Hline _ IH]; intros cleaned; [reflexivity|].
  cbn [clean_loop]. rewrite Hline.
  replace (len [] <? min_length) with true; [apply IH|].
  symmetry. apply Z.ltb_lt. unfold len. cbn [length]. lia.
Qed.

(** A text of whitespace and line feeds holds no learning point. *)
Lemma clean_blank_text (text : pystr) :
  Forall (fun c => isspace c = true \/ c = 10%N) text ->
  clean_and_split_text isspace isalnum islower isupper_char istitle text min_length max_length
  = Ok [].
Proof.
  intros Htext. unfold clean_and_split_text. apply clean_loop_blank.
  assert (Hrep : Forall (fun c => isspace c = true \/ c = 10%N)
                   (replace text (py ". ") [46; 10]%N)).
  { destruct (isspace 46%N) eqn:Hdot.
    - apply replace_chars; [|exact Htext].
      constructor; [left; exact Hdot|]. constructor; [right; reflexivity | constructor].
    - unfold replace. change (py ". ") with (46%N :: [32%N]). rewrite replace_absent; [exact Htext|].
      intros Hin. rewrite Forall_forall in Htext. apply list_elem_of_In in Hin.
      destruct (Htext _ Hin) as [H|H]; [congruence | discriminate]. }
  pose proof (split_chars _ 10%N _ Hrep) as Hpieces.
  pose proof (split_no_sep 10 (replace text (py ". ") [46; 10]%N)) as Hno.
  rewrite Forall_forall in Hpieces, Hno. apply Forall_forall. intros line Hline.
  apply strip_blanks. apply Forall_forall. intros c Hc.
  specialize (Hpieces line Hline). specialize (Hno line Hline).
  rewrite Forall_forall in Hpieces. destruct (Hpieces c Hc) as [H| ->]; [exact H|].
  exfalso. apply Hno, list_elem_of_In, Hc.
Qed.

Lemma clean_returns (text : pystr) :
  returns (clean_and_split_text isspace isalnum islower isupper_char istitle
             text min_length max_length).
Proof. unfold clean_and_split_text. apply clean_loop_returns. exact Hmin. Qed.

(** The learning points of texts written one after the other, each ended
    by a line feed, those that hold no learning point being left out. *)
Lemma clean_lines (keep : pystr -> Prop) `{forall t, Decision (keep t)} (texts : list pystr) :
  (forall t, ~ keep t ->
     clean_and_split_text isspace isalnum islower isupper_char istitle
       t min_length max_length = Ok []) ->
  exists outs,
    Forall2 (fun t out =>
               clean_and_split_text isspace isalnum islower isupper_char istitle
                 t min_length max_length = Ok out) texts outs /\
    clean_and_split_text isspace isalnum islower isupper_char istitle
      (concat (map (fun t => t ++ [10%N]) (filter keep texts))) min_length max_length
    = Ok (concat outs).
Proof.
  intros Hdrop. induction texts as [|t rest (outs & Hall & Hrest)].
  - exists []. split; [constructor|]. apply clean_blank_text. constructor.
  - rewrite filter_cons. destruct (decide (keep t)) as [Hk|Hk].
    + destruct (clean_returns t) as (out & Hout).
      exists (out :: outs). split; [constructor; assumption|].
      cbn [map concat]. rewrite <- app_assoc. cbn [app].
      rewrite clean_text_join, Hout. cbn [mbind result_bind].
      rewrite Hrest. reflexivity.
    + exists ([] :: outs). split; [constructor; auto|]. exact Hrest.
Qed.
End Blank.

Lemma pdf_loop_read (texts : list pystr) : forall text,
  pdf_loop (map Ok texts) text
  = Ok (text ++ concat (map (fun t => t ++ [10%N]) (filter (fun t => t <> []) texts))).
Proof.
  induction texts as [|t rest IH]; intros text.
  - cbn. rewrite app_nil_r. reflexivity.
  - cbn [map pdf_loop mbind result_bind]. rewrite IH. unfold str_eqb.
    destruct (decide (t = [])) as [->|Hne].
    + rewrite filter_cons_False by (intros Hne; apply Hne; reflexivity). reflexivity.
    + rewrite filter_cons_True by exact Hne.
      rewrite bool_decide_false by exact Hne. cbn [negb map concat].
      rewrite <- app_assoc. reflexivity.
Qed.

Lemma pdf_loop_failed (pages : list (result pystr)) (e : exn) :
  In (Raise e) pages -> forall text, exists e', pdf_loop pages text = Raise e'.
Proof.
  induction pages as [|page rest IH]; intros Hin text; [destruct Hin|].
  cbn [pdf_loop]. destruct page as [t|e0]; cbn [mbind result_bind]; [|eauto].
  apply IH. destruct Hin as [Hin|Hin]; [discriminate | exact Hin].
Qed.

Lemma docx_loop_read (isspace : N -> bool) (paragraphs : list pystr) : forall text para_count,
  docx_loop isspace paragraphs text para_count
  = (text ++ concat (map (fun p => p ++ [10%N])
                       (filter (fun p => strip isspace p <> []) paragraphs)),
     para_count + len (filter (fun p => strip isspace p <> []) paragraphs)).
Proof.
  induction paragraphs as [|p rest IH]; intros text n.
  - cbn. rewrite app_nil_r. f_equal. unfold len. cbn. lia.
  - cbn [docx_loop]. unfold str_eqb.
    destruct (decide (strip isspace p = [])) as [He|Hne].
    + rewrite filter_cons_False by (intros Hne; apply Hne; exact He).
      rewrite bool_decide_true by exact He. apply IH.
    + rewrite filter_cons_True by exact Hne.
      rewrite bool_decide_false by exact Hne. cbn [negb map concat].
      rewrite IH, <- app_assoc. f_equal. unfold len. cbn [length]. lia.
Qed.

Lemma extract_text_pdf (isspace : N -> bool) (file : uploaded_file) :
  file_type file = py "application/pdf" ->
  extract_text isspace file = extract_text_from_pdf file.
Proof. intros H. unfold extract_text. rewrite H. reflexivity. Qed.

Lemma extract_text_docx (isspace : N -> bool) (file : uploaded_file) :
  file_type file
  = py "application/vnd.openxmlformats-officedocument.wordprocessingml.document" ->
  extract_text isspace file = extract_text_from_docx isspace file.
Proof. intros H. unfold extract_text. rewrite H. reflexivity. Qed.

(** X20. A PDF whose pages are all read: the count is the number of pages,
    empty ones included, and the learning points of the extracted text are
    those of the first page, then those of the second, and so on; no
    learning point runs over a page break. *)
Theorem extract_text_pdf_learning_points
    (isspace isalnum islower isupper_char istitle : N -> bool)
    (file : uploaded_file) (texts : list pystr) (min_length max_length : Z) :
  1 <= min_length ->
  file_type file = py "application/pdf" ->
  pdf_pages file = Ok (map Ok texts) ->
  snd (extract_text isspace file) = len texts /\
  exists outs,
    Forall2 (fun page_text out =>
               clean_and_split_text isspace isalnum islower isupper_char istitle
                 page_text min_length max_length = Ok out) texts outs /\
    clean_and_split_text isspace isalnum islower isupper_char istitle
      (fst (extract_text isspace file)) min_length max_length = Ok (concat outs).
Proof.
  intros Hmin Htype Hpages. rewrite (extract_text_pdf isspace file Htype).
  unfold extract_text_from_pdf. rewrite Hpages. cbn [mbind result_bind].
  rewrite pdf_loop_read. cbn [mbind result_bind fst snd app].
  split; [unfold len; rewrite length_map; reflexivity|].
  apply clean_lines; [exact Hmin|]. intros t Ht.
  destruct t as [|c t]; [|exfalso; apply Ht; discriminate].
  apply clean_blank_text; [exact Hmin | constructor].
Qed.

Lemma extract_text_pdf_learning_points_witness :
  snd (extract_text ascii_isspace pdf_file) = len [boiling; []; freezing] /\
  exists outs,
    Forall2 (fun page_text out => ascii_clean page_text 30 300 = Ok out)
      [boiling; []; freezing] outs /\
    ascii_clean (fst (extract_text ascii_isspace pdf_file)) 30 300 = Ok (concat outs).
Proof.
  apply (extract_text_pdf_learning_points ascii_isspace ascii_isalnum ascii_islower
           ascii_isupper ascii_istitle pdf_file [boiling; []; freezing] 30 300).
  - lia.
  - reflexivity.
  - reflexivity.
Defined.

(** X21. One page of a PDF that cannot be read loses the whole document:
    the text is empty and the count is 0, whatever the other pages hold. *)
Theorem extract_text_pdf_failed_page
    (isspace : N -> bool) (file : uploaded_file) (pages : list (result pystr)) (e : exn) :
  file_type file = py "application/pdf" ->
  pdf_pages file = Ok pages ->
  In (Raise e) pages ->
  extract_text isspace file = ([], 0).
Proof.
  intros Htype Hpages Hin. rewrite (extract_text_pdf isspace file Htype).
  unfold extract_text_from_pdf. rewrite Hpages. cbn [mbind result_bind].
  destruct (pdf_loop_failed pages e Hin []) as (e' & ->). reflexivity.
Qed.

Lemma extract_text_pdf_failed_page_witness :
  extract_text ascii_isspace damaged_pdf_file = ([], 0).
Proof.
  apply (extract_text_pdf_failed_page ascii_isspace damaged_pdf_file
           [Ok boiling; Raise ValueError; Ok freezing] ValueError).
  - reflexivity.
  - reflexivity.
  - right. left. reflexivity.
Defined.

(** X22. A DOCX document: the count is the number of paragraphs that are
    not blank, and leaving the blank ones out loses nothing: the learning
    points of the extracted text are those of the first paragraph, then
    those of the second, and so on. *)
Theorem extract_text_docx_learning_points
    (isspace isalnum islower isupper_char istitle : N -> bool)
    (file : uploaded_file) (paragraphs : list pystr) (min_length max_length : Z) :
  1 <= min_length ->
  file_type file
  = py "application/vnd.openxmlformats-officedocument.wordprocessingml.document" ->
  docx_paragraphs file = Ok paragraphs ->
  snd (extract_text isspace file)
  = len (filter (fun para => strip isspace para <> []) paragraphs) /\
  exists outs,
    Forall2 (fun para out =>
               clean_and_split_text isspace isalnum islower isupper_char istitle
                 para min_length max_length = Ok out) paragraphs outs /\
    clean_and_split_text isspace isalnum islower isupper_char istitle
      (fst (extract_text isspace file)) min_length max_length = Ok (concat outs).
Proof.
  intros Hmin Htype Hparas. rewrite (extract_text_docx isspace file Htype).
  unfold extract_text_from_docx. rewrite Hparas, docx_loop_read. cbn [fst snd app].
  split; [lia|].
  apply (clean_lines isspace isalnum islower isupper_char istitle min_length max_length Hmin
           (fun para => strip isspace para <> [])).
  intros t Ht. apply clean_blank_text; [exact Hmin|].
  assert (He : strip isspace t = []) by (destruct (strip isspace t); [reflexivity | exfalso; apply Ht; discriminate]).
  apply strip_nil in He. eapply Forall_impl; [exact He|]. cbn beta. auto.
Qed.

Lemma extract_text_docx_learning_points_witness :
  snd (extract_text ascii_isspace docx_file)
  = len (filter (fun para => strip ascii_isspace para <> []) [boiling; py "  "; freezing]) /\
  exists outs,
    Forall2 (fun para out => ascii_clean para 30 300 = Ok out)
      [boiling; py "  "; freezing] outs /\
    ascii_clean (fst (extract_text ascii_isspace docx_file)) 30 300 = Ok (concat outs).
Proof.
  apply (extract_text_docx_learning_points ascii_isspace ascii_isalnum ascii_islower
           ascii_isupper ascii_istitle docx_file [boiling; py "  "; freezing] 30 300).
  - lia.
  - reflexivity.
  - reflexivity.
Defined.

(** X23. Whatever the file, when the count [extract_text] returns is 0 (no
    page, no paragraph that is not blank, no line that is not blank, an
    unsupported type or a reading error), the text it returns holds no
    learning point. *)
Theorem extract_text_nothing_counted
    (isspace isalnum islower isupper_char istitle : N -> bool)
    (file : uploaded_file) (min_length max_length : Z) :
  1 <= min_length ->
  snd (extract_text isspace file) = 0 ->
  clean_and_split_text isspace isalnum islower isupper_char istitle
    (fst (extract_text isspace file)) min_length max_length = Ok [].
Proof.
  intros Hmin Hcount.
  apply clean_blank_text; [exact Hmin|].
  revert Hcount. unfold extract_text.
  destruct (str_eqb (file_type file) (py "application/pdf")).
  { unfold extract_text_from_pdf.
    destruct (pdf_pages file) as [pages|e]; cbn [mbind result_bind fst snd]; [|constructor].
    destruct (pdf_loop pages []) as [text|e] eqn:E; cbn [mbind result_bind fst snd];
      [|constructor].
    intros Hlen. destruct pages as [|page rest]; [|unfold len in Hlen; cbn in Hlen; lia].
    cbn in E. injection E as <-. constructor. }
  destruct (str_eqb (file_type file) _).
  { unfold extract_text_from_docx.
    destruct (docx_paragraphs file) as [paragraphs|e]; cbn [fst snd]; [|constructor].
    rewrite docx_loop_read. cbn [fst snd app]. intros Hlen.
    replace (filter (fun p => strip isspace p <> []) paragraphs) with (@nil pystr);
      [constructor|].
    destruct (filter _ paragraphs); [reflexivity | unfold len in Hlen; cbn in Hlen; lia]. }
  destruct (str_eqb (file_type file) _); [|constructor].
  unfold extract_text_from_txt.
  destruct (utf8_text file) as [text|e]; cbn [fst snd]; [|constructor].
  unfold count_lines. intros Hlen. apply filter_none in Hlen.
  apply (split_covers _ 10%N); [right; reflexivity|].
  eapply Forall_impl; [exact Hlen|]. cbn beta. intros line Hline.
  assert (He : strip isspace line = []).
  { destruct (strip isspace line); [reflexivity | exfalso; apply Hline; discriminate]. }
  apply strip_nil in He. eapply Forall_impl; [exact He|]. cbn beta. auto.
Qed.

Lemma extract_text_nothing_counted_witness :
  ascii_clean (fst (extract_text ascii_isspace blank_txt_file)) 30 300 = Ok [].
Proof.
  apply (extract_text_nothing_counted ascii_isspace ascii_isalnum ascii_islower
           ascii_isupper ascii_istitle blank_txt_file 30 300).
  - lia.
  - reflexivity.
Defined.
